(** * TravelMate booking routes: a shallow embedding of
      [backend/routes/bookingRoutes.js] and the properties of its handlers.

    The route handlers are straight-line conditionals over two persisted
    collections (bookings, trips) and the user collection.  Each handler that
    writes to the store (create, payment, cancel, verify-otp, share-contact,
    rate) is embedded as a function from the request and the current store to
    the HTTP response and the next store; the two GET routes only read.

    Conventions of the embedding.
    - A collection is a finite map from the document id to the document.
    - JavaScript numbers that are integers by validation or by construction
      (seat counts, rating values, rating counts, millisecond timestamps) are
      in [Z]; the embedding is exact as long as they stay below 2^53.
    - Money and rating averages are binary64 values, as in JavaScript:
      [PrimFloat] with the kernel's IEEE 754 operations.
    - Strings are byte strings in UTF-8; lengths are counted in bytes, which
      is the count of the validators on ASCII input.
    - Request bodies are taken after JSON decoding.  The seat count of a
      creation is a JSON number.  The rating of a rating request is a JSON
      number or a JSON string: the validation chain accepts both and does
      not convert, and the handler computes with the value as it came.
    - The conversions between numbers and strings of the JavaScript runtime
      are not part of the sources: the routes are stated for any runtime
      (class [Runtime]).
    - [save] always succeeds, except for the insertion of a document whose id
      is already in the collection; schema validators of the models are not
      part of the route file and are not modelled.  A numeric field of a
      document that is given the text of an integer holds that integer.
    - An [:id] that the driver cannot cast to a document id is outside the
      model: every lookup is a plain map lookup. *)

From Stdlib Require Import ZArith QArith Lia String Ascii List Bool.
From Stdlib Require Import Floats.PrimFloat Floats.FloatOps Floats.SpecFloat.
From Stdlib Require Import Numbers.Cyclic.Int63.Uint63 Numbers.DecimalString.
From stdpp Require Import gmap strings list fin_maps.

Local Open Scope string_scope.
Local Open Scope Z_scope.

(** ** JavaScript values *)

(** An integer-valued JavaScript number as a binary64 value. *)
Definition num (z : Z) : float :=
  if z <? 0 then PrimFloat.opp (PrimFloat.of_uint63 (Uint63.of_Z (- z)))
  else PrimFloat.of_uint63 (Uint63.of_Z z).

(** Truthiness of an optional string ([undefined] and [""] are falsy). *)
Definition truthy_string (o : option string) : bool :=
  match o with
  | Some s => negb (String.eqb s "")
  | None => false
  end.

(** Truthiness of an optional integer ([undefined] and [0] are falsy). *)
Definition truthy_int (o : option Z) : bool :=
  match o with
  | Some z => negb (z =? 0)
  | None => false
  end.

(** A JSON value in a field that the routes read as a number: a whole number
    or a string. *)
Inductive Json :=
| JNumber (z : Z)
| JString (s : string).

(** The conversions of the runtime that the arithmetic of the routes can
    reach: [String(x)] of a number and [Number(s)] of a string. *)
Class Runtime := {
  numberToString : float -> string;
  stringToNumber : string -> float
}.

(** [x + v], then read as a number by the division that follows it: the sum
    when [v] is a number; when [v] is a string, [+] concatenates the text of
    [x] with [v], and [/] converts the result. *)
Definition addJson `{Runtime} (x : float) (v : Json) : float :=
  match v with
  | JNumber z => PrimFloat.add x (num z)
  | JString s => stringToNumber (numberToString x ++ s)
  end.

(** ** The validators of express-validator used by the routes *)

Module Validator.

(** The white space of [\s], as UTF-8 byte sequences: tab to carriage return,
    space, U+00A0, U+1680, U+2000 to U+200A, U+2028, U+2029, U+202F, U+205F,
    U+3000 and U+FEFF. *)
Definition whiteSpace : list (list ascii) :=
  List.map (List.map ascii_of_nat)
    (List.concat
       [ [[9]; [10]; [11]; [12]; [13]; [32]; [194; 160]; [225; 154; 128]];
         List.map (fun n => [226; 128; n]) (seq 128 11);
         [[226; 128; 168]; [226; 128; 169]; [226; 128; 175]; [226; 129; 159];
          [227; 128; 128]; [239; 187; 191]] ])%nat.

(** [l] without its prefix [p]. *)
Fixpoint dropPrefix (p l : list ascii) : option (list ascii) :=
  match p, l with
  | [], _ => Some l
  | c :: p', d :: l' => if Ascii.eqb c d then dropPrefix p' l' else None
  | _ :: _, [] => None
  end.

(** [l] without one leading character among [ws]. *)
Fixpoint dropOne (ws : list (list ascii)) (l : list ascii) : option (list ascii) :=
  match ws with
  | [] => None
  | w :: ws' =>
      match dropPrefix w l with
      | Some l' => Some l'
      | None => dropOne ws' l
      end
  end.

Fixpoint dropAll (n : nat) (ws : list (list ascii)) (l : list ascii) : list ascii :=
  match n with
  | O => l
  | S n' =>
      match dropOne ws l with
      | Some l' => dropAll n' ws l'
      | None => l
      end
  end.

Definition ltrim (l : list ascii) : list ascii :=
  dropAll (length l) whiteSpace l.

Definition rtrim (l : list ascii) : list ascii :=
  List.rev (dropAll (length l) (List.map (@List.rev ascii) whiteSpace) (List.rev l)).

(** [trim()]: white space removed at both ends. *)
Definition trim (s : string) : string :=
  string_of_list_ascii (rtrim (ltrim (list_ascii_of_string s))).

Definition inRange (lo hi : nat) (c : ascii) : bool :=
  let n := nat_of_ascii c in ((lo <=? n) && (n <=? hi))%nat.

Definition isDigit (c : ascii) : bool := inRange 48 57 c.

Definition isHexDigit (c : ascii) : bool :=
  isDigit c || inRange 97 102 c || inRange 65 70 c.

(** One hexadecimal digit or more. *)
Definition hexDigits (l : list ascii) : bool :=
  match l with
  | [] => false
  | _ => forallb isHexDigit l
  end.

(** [isHexadecimal()]: [/^(0x|0h)?[0-9A-F]+$/i]. *)
Definition isHexadecimal (s : string) : bool :=
  match list_ascii_of_string s with
  | z :: x :: l =>
      hexDigits (z :: x :: l) ||
      (Ascii.eqb z "0" &&
       (Ascii.eqb x "x" || Ascii.eqb x "X" || Ascii.eqb x "h" || Ascii.eqb x "H") &&
       hexDigits l)
  | l => hexDigits l
  end.

(** [isMongoId()]: a hexadecimal string of 24 characters. *)
Definition isMongoId (s : string) : bool :=
  isHexadecimal s && (String.length s =? 24)%nat.

(** [isInt({ min, max })] on a JSON integer. *)
Definition isInt (lo hi : Z) (z : Z) : bool := (lo <=? z) && (z <=? hi).

(** The value of a string of decimal digits, read after [acc]. *)
Fixpoint digits (acc : Z) (l : list ascii) : option Z :=
  match l with
  | [] => Some acc
  | c :: l' =>
      if isDigit c then digits (10 * acc + (Z.of_nat (nat_of_ascii c) - 48)) l'
      else None
  end.

Definition unsigned (l : list ascii) : option Z :=
  match l with
  | [] => None
  | _ => digits 0 l
  end.

(** The integer that a string matching [/^[-+]?[0-9]+$/] denotes; this is
    also its value as a number. *)
Definition intText (s : string) : option Z :=
  match list_ascii_of_string s with
  | c :: l =>
      if Ascii.eqb c "+" then unsigned l
      else if Ascii.eqb c "-" then Z.opp <$> unsigned l
      else unsigned (c :: l)
  | [] => None
  end.

(** The integer of a JSON value: of a whole number, or of a string that
    holds one. *)
Definition toInt (v : Json) : option Z :=
  match v with
  | JNumber z => Some z
  | JString s => intText s
  end.

(** [isInt({ min, max })] on a JSON value.  The validator runs on the text of
    the value, so a string holding an integer passes like the number. *)
Definition isIntValue (lo hi : Z) (v : Json) : bool :=
  match toInt v with
  | Some z => isInt lo hi z
  | None => false
  end.

(** [isLength({ min, max })]. *)
Definition isLength (lo : nat) (hi : option nat) (s : string) : bool :=
  (lo <=? String.length s)%nat &&
  match hi with
  | Some h => (String.length s <=? h)%nat
  | None => true
  end.

(** [isIn([...])]. *)
Definition isIn (l : list string) (s : string) : bool :=
  existsb (String.eqb s) l.

(** [matches(/^([01]?[0-9]|2[0-3]):[0-5][0-9]$/)]. *)
Definition isTime (s : string) : bool :=
  match list_ascii_of_string s with
  | [h; c; m1; m2] =>
      isDigit h && Ascii.eqb c ":" && inRange 48 53 m1 && isDigit m2
  | [h1; h2; c; m1; m2] =>
      ((inRange 48 49 h1 && isDigit h2) || (Ascii.eqb h1 "2" && inRange 48 51 h2))
      && Ascii.eqb c ":" && inRange 48 53 m1 && isDigit m2
  | _ => false
  end.

(** The messages of the checks that fail, in the order of the chain. *)
Definition check (ok : bool) (msg : string) : list string :=
  if ok then [] else [msg].

End Validator.

(** ** Documents *)

Module User.

Record Rating := mkRating { average : float; count : Z }.

(** Modelled from the spec: the User schema is not among the sources; the
    fields are those the routes read and write. *)
Record t := mk {
  firstName : string;
  lastName : string;
  phone : string;
  rating : Rating
}.

Definition with_rating (r : Rating) (u : t) : t :=
  {| firstName := firstName u; lastName := lastName u; phone := phone u;
     rating := r |}.

End User.

Module Roster.

(** Modelled from the spec: one element of [trip.passengers], with the three
    fields the create route pushes. *)
Record t := mk {
  user : string;
  seatsBooked : Z;
  bookingDate : Z
}.

End Roster.

Module Trip.

(** Modelled from the spec: the Trip schema is not among the sources; the
    fields are those the routes read and write, typed as in the data model of
    the spec. *)
Record t := mk {
  status : string;
  driver : string;
  pricePerSeat : float;
  totalSeats : Z;
  bookedSeats : Z;
  passengers : list Roster.t;
  totalEarnings : float
}.

(** Modelled from the spec: [Trip.hasAvailableSeats] is a method of the Trip
    model, which is not among the sources; the spec gives it as
    [totalSeats - bookedSeats >= seatsBooked]. *)
Definition hasAvailableSeats (t : t) (seats : Z) : bool :=
  seats <=? totalSeats t - bookedSeats t.

End Trip.

Module Booking.

Record Point := mkPoint { location : string; time : string }.

Record Otp := mkOtp { code : string; generatedAt : Z; verified : bool }.

Record Rated := mkRated { value : option Z; review : option string }.

Record Ratings := mkRatings { forDriver : Rated; forPassenger : Rated }.

Record Contact := mkContact { name : string; phone : string; sharedAt : Z }.

(** Modelled from the spec: the Booking schema is not among the sources; the
    fields are those the routes read and write, typed as in the data model of
    the spec.  [Rated.value] is the field [rating] of [rating.forDriver] and
    [rating.forPassenger]. *)
Record t := mk {
  trip : string;
  passenger : string;
  seatsBooked : Z;
  totalAmount : float;
  pickupPoint : Point;
  dropPoint : Point;
  paymentMethod : string;
  passengerDetails : list string;
  specialRequests : option string;
  paymentStatus : string;
  bookingStatus : string;
  transactionId : option string;
  otp : option Otp;
  rating : Ratings;
  cancellationReason : option string;
  cancelledBy : option string;
  cancelledAt : option Z;
  refundAmount : option float;
  driverContact : option Contact;
  passengerContact : option Contact
}.

Definition with_paymentStatus (v : string) (b : t) : t :=
  {| trip := trip b; passenger := passenger b; seatsBooked := seatsBooked b;
     totalAmount := totalAmount b; pickupPoint := pickupPoint b;
     dropPoint := dropPoint b; paymentMethod := paymentMethod b;
     passengerDetails := passengerDetails b;
     specialRequests := specialRequests b; paymentStatus := v;
     bookingStatus := bookingStatus b; transactionId := transactionId b;
     otp := otp b; rating := rating b;
     cancellationReason := cancellationReason b; cancelledBy := cancelledBy b;
     cancelledAt := cancelledAt b; refundAmount := refundAmount b;
     driverContact := driverContact b; passengerContact := passengerContact b |}.

Definition with_bookingStatus (v : string) (b : t) : t :=
  {| trip := trip b; passenger := passenger b; seatsBooked := seatsBooked b;
     totalAmount := totalAmount b; pickupPoint := pickupPoint b;
     dropPoint := dropPoint b; paymentMethod := paymentMethod b;
     passengerDetails := passengerDetails b;
     specialRequests := specialRequests b; paymentStatus := paymentStatus b;
     bookingStatus := v; transactionId := transactionId b;
     otp := otp b; rating := rating b;
     cancellationReason := cancellationReason b; cancelledBy := cancelledBy b;
     cancelledAt := cancelledAt b; refundAmount := refundAmount b;
     driverContact := driverContact b; passengerContact := passengerContact b |}.

Definition with_transactionId (v : option string) (b : t) : t :=
  {| trip := trip b; passenger := passenger b; seatsBooked := seatsBooked b;
     totalAmount := totalAmount b; pickupPoint := pickupPoint b;
     dropPoint := dropPoint b; paymentMethod := paymentMethod b;
     passengerDetails := passengerDetails b;
     specialRequests := specialRequests b; paymentStatus := paymentStatus b;
     bookingStatus := bookingStatus b; transactionId := v;
     otp := otp b; rating := rating b;
     cancellationReason := cancellationReason b; cancelledBy := cancelledBy b;
     cancelledAt := cancelledAt b; refundAmount := refundAmount b;
     driverContact := driverContact b; passengerContact := passengerContact b |}.

Definition with_otp (v : option Otp) (b : t) : t :=
  {| trip := trip b; passenger := passenger b; seatsBooked := seatsBooked b;
     totalAmount := totalAmount b; pickupPoint := pickupPoint b;
     dropPoint := dropPoint b; paymentMethod := paymentMethod b;
     passengerDetails := passengerDetails b;
     specialRequests := specialRequests b; paymentStatus := paymentStatus b;
     bookingStatus := bookingStatus b; transactionId := transactionId b;
     otp := v; rating := rating b;
     cancellationReason := cancellationReason b; cancelledBy := cancelledBy b;
     cancelledAt := cancelledAt b; refundAmount := refundAmount b;
     driverContact := driverContact b; passengerContact := passengerContact b |}.

Definition with_rating (v : Ratings) (b : t) : t :=
  {| trip := trip b; passenger := passenger b; seatsBooked := seatsBooked b;
     totalAmount := totalAmount b; pickupPoint := pickupPoint b;
     dropPoint := dropPoint b; paymentMethod := paymentMethod b;
     passengerDetails := passengerDetails b;
     specialRequests := specialRequests b; paymentStatus := paymentStatus b;
     bookingStatus := bookingStatus b; transactionId := transactionId b;
     otp := otp b; rating := v;
     cancellationReason := cancellationReason b; cancelledBy := cancelledBy b;
     cancelledAt := cancelledAt b; refundAmount := refundAmount b;
     driverContact := driverContact b; passengerContact := passengerContact b |}.

(** The four assignments of the cancel route after [bookingStatus]. *)
Definition with_cancellation (reason by_ : option string) (at_ : option Z)
    (refund : option float) (b : t) : t :=
  {| trip := trip b; passenger := passenger b; seatsBooked := seatsBooked b;
     totalAmount := totalAmount b; pickupPoint := pickupPoint b;
     dropPoint := dropPoint b; paymentMethod := paymentMethod b;
     passengerDetails := passengerDetails b;
     specialRequests := specialRequests b; paymentStatus := paymentStatus b;
     bookingStatus := bookingStatus b; transactionId := transactionId b;
     otp := otp b; rating := rating b;
     cancellationReason := reason; cancelledBy := by_;
     cancelledAt := at_; refundAmount := refund;
     driverContact := driverContact b; passengerContact := passengerContact b |}.

(** [booking.driverContact = ...] and [booking.passengerContact = ...]. *)
Definition with_contacts (d p : option Contact) (b : t) : t :=
  {| trip := trip b; passenger := passenger b; seatsBooked := seatsBooked b;
     totalAmount := totalAmount b; pickupPoint := pickupPoint b;
     dropPoint := dropPoint b; paymentMethod := paymentMethod b;
     passengerDetails := passengerDetails b;
     specialRequests := specialRequests b; paymentStatus := paymentStatus b;
     bookingStatus := bookingStatus b; transactionId := transactionId b;
     otp := otp b; rating := rating b;
     cancellationReason := cancellationReason b; cancelledBy := cancelledBy b;
     cancelledAt := cancelledAt b; refundAmount := refundAmount b;
     driverContact := d; passengerContact := p |}.

(** A decimal digit as a character. *)
Definition digit (n : N) : ascii := ascii_of_N (48 + n mod 10).

(** The four decimal digits of [draw mod 10000]. *)
Definition otp_code (draw : N) : string :=
  String (digit (draw / 1000))
    (String (digit (draw / 100))
       (String (digit (draw / 10)) (String (digit draw) EmptyString))).

(** Modelled from the spec: [booking.generateOTP()] is a method of the
    Booking model, which is not among the sources; the spec gives it as
    generating a 4-digit OTP with [generatedAt = now] and [verified = false].
    [draw] is the random number the code is made of.  The method stores the
    OTP on the booking and returns the code. *)
Definition generateOTP (draw : N) (now : Z) (b : t) : t * string :=
  let c := otp_code draw in
  (with_otp (Some {| code := c; generatedAt := now; verified := false |}) b, c).

End Booking.

(** The three statements that give seats back to a trip; the payment route
    (failed payment) and the cancel route both run them:
    [trip.bookedSeats -= booking.seatsBooked],
    [trip.totalEarnings -= booking.totalAmount],
    [trip.passengers = trip.passengers.filter(p => p.user.toString() !== req.user.id)]. *)
Definition releaseSeats (user : string) (b : Booking.t) (t : Trip.t) : Trip.t :=
  {| Trip.status := Trip.status t;
     Trip.driver := Trip.driver t;
     Trip.pricePerSeat := Trip.pricePerSeat t;
     Trip.totalSeats := Trip.totalSeats t;
     Trip.bookedSeats := Trip.bookedSeats t - Booking.seatsBooked b;
     Trip.passengers :=
       List.filter (fun p => negb (String.eqb (Roster.user p) user))
         (Trip.passengers t);
     Trip.totalEarnings :=
       PrimFloat.sub (Trip.totalEarnings t) (Booking.totalAmount b) |}.

(** The three statements of the create route on the trip:
    [trip.bookedSeats += seatsBooked], [trip.passengers.push(...)],
    [trip.totalEarnings += totalAmount]. *)
Definition takeSeats (user : string) (seats : Z) (amount : float) (now : Z)
    (t : Trip.t) : Trip.t :=
  {| Trip.status := Trip.status t;
     Trip.driver := Trip.driver t;
     Trip.pricePerSeat := Trip.pricePerSeat t;
     Trip.totalSeats := Trip.totalSeats t;
     Trip.bookedSeats := Trip.bookedSeats t + seats;
     Trip.passengers :=
       Trip.passengers t ++
       [ {| Roster.user := user; Roster.seatsBooked := seats;
            Roster.bookingDate := now |} ];
     Trip.totalEarnings := PrimFloat.add (Trip.totalEarnings t) amount |}.

(** ** The store, the environment of a request, and responses *)

Record State := mkState {
  bookings : gmap string Booking.t;
  trips : gmap string Trip.t;
  users : gmap string User.t
}.

Definition set_bookings (bs : gmap string Booking.t) (st : State) : State :=
  {| bookings := bs; trips := trips st; users := users st |}.

Definition set_trips (ts : gmap string Trip.t) (st : State) : State :=
  {| bookings := bookings st; trips := ts; users := users st |}.

Definition set_users (us : gmap string User.t) (st : State) : State :=
  {| bookings := bookings st; trips := trips st; users := us |}.

(** What a request takes from outside the store: the clock ([new Date()],
    milliseconds), the id given to a new document, and the random number the
    OTP is made of. *)
Record Env := mkEnv { now : Z; freshId : string; otpDraw : N }.

(** A booking with the referenced documents that [populate] resolved
    ([None]: not populated, or the referenced document does not exist). *)
Record Populated := mkPopulated {
  doc : Booking.t;
  tripDoc : option Trip.t;
  passengerDoc : option User.t
}.

Inductive Body :=
| Errors (errors : list string)
| Message (message : string)
| ServerError
| Created (booking : option Populated) (otp : string) (message : string)
| Updated (message : string) (booking : Populated)
| Cancelled (message : string) (booking : Populated) (refundAmount : float)
| Shared (message : string) (name phone : string).

Record Response := mkResponse { code : Z; body : Body }.

Definition reply (c : Z) (m : string) : Response :=
  {| code := c; body := Message m |}.

Definition invalid (errs : list string) : Response :=
  {| code := 400; body := Errors errs |}.

Definition serverError : Response := {| code := 500; body := ServerError |}.

(** ** Request bodies and their validation chains *)

Module Create.

Record Body := mk {
  tripId : string;
  seatsBooked : Z;
  pickupPoint : Booking.Point;
  dropPoint : Booking.Point;
  paymentMethod : string;
  passengerDetails : list string;
  specialRequests : option string
}.

Import Validator.

Definition errors (b : Body) : list string :=
  check (isMongoId (tripId b)) "Valid trip ID is required" ++
  check (isInt 1 7 (seatsBooked b)) "Seats booked must be between 1 and 7" ++
  check (isLength 1 None (trim (Booking.location (pickupPoint b))))
    "Pickup location is required" ++
  check (isTime (Booking.time (pickupPoint b))) "Valid pickup time is required" ++
  check (isLength 1 None (trim (Booking.location (dropPoint b))))
    "Drop location is required" ++
  check (isTime (Booking.time (dropPoint b))) "Valid drop time is required" ++
  check (isIn ["cash"; "online"; "upi"; "card"] (paymentMethod b))
    "Invalid payment method" ++
  check (1 <=? length (passengerDetails b))%nat
    "At least one passenger detail is required".

Definition trimPoint (p : Booking.Point) : Booking.Point :=
  {| Booking.location := trim (Booking.location p);
     Booking.time := Booking.time p |}.

(** The sanitizers of the chain write the trimmed values back. *)
Definition sanitize (b : Body) : Body :=
  {| tripId := tripId b; seatsBooked := seatsBooked b;
     pickupPoint := trimPoint (pickupPoint b);
     dropPoint := trimPoint (dropPoint b);
     paymentMethod := paymentMethod b;
     passengerDetails := passengerDetails b;
     specialRequests := specialRequests b |}.

End Create.

Module Payment.

Record Body := mk { paymentStatus : string; transactionId : option string }.

Import Validator.

Definition errors (b : Body) : list string :=
  check (isIn ["paid"; "failed"] (paymentStatus b)) "Invalid payment status" ++
  match transactionId b with
  | Some tx =>
      check (isLength 1 None (trim tx)) "Transaction ID is required for paid status"
  | None => []
  end.

Definition sanitize (b : Body) : Body :=
  {| paymentStatus := paymentStatus b;
     transactionId := trim <$> transactionId b |}.

End Payment.

Module Verify.

Record Body := mk { otp : string }.

Import Validator.

Definition errors (b : Body) : list string :=
  check (isLength 4 (Some 4%nat) (otp b)) "OTP must be 4 digits".

End Verify.

Module Rate.

(** [rating] is the value as it came in the JSON body: [isInt] does not
    convert it. *)
Record Body := mk { rating : Json; review : option string }.

Import Validator.

Definition errors (b : Body) : list string :=
  check (isIntValue 1 5 (rating b)) "Rating must be between 1 and 5" ++
  match review b with
  | Some r => check (isLength 0 (Some 500%nat) r) "Review cannot exceed 500 characters"
  | None => []
  end.

(** The number of stars of a rating that passed the chain. *)
Definition stars (b : Body) : Z :=
  match toInt (rating b) with
  | Some z => z
  | None => 0
  end.

End Rate.

Module Cancel.

(** The chain of this route checks the length of [reason], but the handler
    never reads the validation result. *)
Record Body := mk { reason : option string }.

End Cancel.

(** ** The route handlers *)

(** Modelled from the spec: the Booking schema is not among the sources; a new
    booking starts with [bookingStatus] and [paymentStatus] at [pending], with
    no OTP, no rating and no cancellation data. *)
Definition newBooking (user : string) (b : Create.Body) (totalAmount : float)
    : Booking.t :=
  {| Booking.trip := Create.tripId b;
     Booking.passenger := user;
     Booking.seatsBooked := Create.seatsBooked b;
     Booking.totalAmount := totalAmount;
     Booking.pickupPoint := Create.pickupPoint b;
     Booking.dropPoint := Create.dropPoint b;
     Booking.paymentMethod := Create.paymentMethod b;
     Booking.passengerDetails := Create.passengerDetails b;
     Booking.specialRequests := Create.specialRequests b;
     Booking.paymentStatus := "pending";
     Booking.bookingStatus := "pending";
     Booking.transactionId := None;
     Booking.otp := None;
     Booking.rating :=
       {| Booking.forDriver := {| Booking.value := None; Booking.review := None |};
          Booking.forPassenger := {| Booking.value := None; Booking.review := None |} |};
     Booking.cancellationReason := None;
     Booking.cancelledBy := None;
     Booking.cancelledAt := None;
     Booking.refundAmount := None;
     Booking.driverContact := None;
     Booking.passengerContact := None |}.

(** A booking as [findById] returns it, nothing populated. *)
Definition plain (b : Booking.t) : Populated :=
  {| doc := b; tripDoc := None; passengerDoc := None |}.

(** [.populate('trip')]. *)
Definition withTrip (st : State) (b : Booking.t) : Populated :=
  {| doc := b; tripDoc := trips st !! Booking.trip b; passengerDoc := None |}.

(** [.populate('trip', ...).populate('passenger', ...)]. *)
Definition populate (st : State) (b : Booking.t) : Populated :=
  {| doc := b; tripDoc := trips st !! Booking.trip b;
     passengerDoc := users st !! Booking.passenger b |}.

(** [(new Date() - booking.otp.generatedAt) / (1000 * 60)]: the age of the OTP
    in minutes.  Both dates are whole milliseconds and the quotient is kept
    exact; its comparison with 30 has the same outcome as the one of the
    rounded binary64 quotient, since 30 is a binary64 value and rounding is
    monotone. *)
Definition otpAge (now generatedAt : Z) : Q :=
  (inject_Z (now - generatedAt) / inject_Z (1000 * 60))%Q.

Section Routes.

Context {js : Runtime}.

(** The update of a user's overall rating (the same four statements for the
    driver and for the passenger):
    [newCount = u.rating.count + 1],
    [newAverage = ((u.rating.average * u.rating.count) + rating) / newCount],
    with [rating] the value of the request body. *)
Definition rateUser (rating : Json) (u : User.t) : User.t :=
  let newCount := User.count (User.rating u) + 1 in
  let newAverage :=
    PrimFloat.div
      (addJson
         (PrimFloat.mul (User.average (User.rating u)) (num (User.count (User.rating u))))
         rating)
      (num newCount) in
  User.with_rating {| User.average := newAverage; User.count := newCount |} u.

(** [const u = await User.findById(id); if (u) { ...; await u.save() }]. *)
Definition rateUserIn (id : string) (rating : Json) (st : State) : State :=
  match users st !! id with
  | Some u => set_users (<[id := rateUser rating u]> (users st)) st
  | None => st
  end.

(** [booking.calculateRefund()] is a method of the Booking model, which is not
    among the sources: a pure policy over the booking, its populated trip and
    the clock.  The routes are stated for any such policy. *)
Variable calculateRefund : Booking.t -> option Trip.t -> Z -> float.

(** [router.post('/')] *)
Definition createBooking (env : Env) (user : string) (raw : Create.Body)
    (st : State) : Response * State :=
  match Create.errors raw with
  | (_ :: _) as errs => (invalid errs, st)
  | [] =>
    let body := Create.sanitize raw in
    let seatsBooked := Create.seatsBooked body in
    match trips st !! Create.tripId body with
    | None => (reply 404 "Trip not found", st)
    | Some trip =>
      if negb (String.eqb (Trip.status trip) "active") then
        (reply 400 "Trip is not available for booking", st)
      else if String.eqb (Trip.driver trip) user then
        (reply 400 "You cannot book your own trip", st)
      else if negb (Trip.hasAvailableSeats trip seatsBooked) then
        (reply 400 "Not enough seats available", st)
      else if negb (Z.of_nat (length (Create.passengerDetails body)) =? seatsBooked) then
        (reply 400 "Passenger details count must match seats booked", st)
      else
        let totalAmount := PrimFloat.mul (Trip.pricePerSeat trip) (num seatsBooked) in
        let booking := newBooking user body totalAmount in
        match bookings st !! freshId env with
        | Some _ => (serverError, st)
        | None =>
          let st1 := set_bookings (<[freshId env := booking]> (bookings st)) st in
          let trip' := takeSeats user seatsBooked totalAmount (now env) trip in
          let st2 := set_trips (<[Create.tripId body := trip']> (trips st1)) st1 in
          let '(booking', otp) :=
            Booking.generateOTP (otpDraw env) (now env) booking in
          let st3 := set_bookings (<[freshId env := booking']> (bookings st2)) st2 in
          let populatedBooking := populate st3 <$> (bookings st3 !! freshId env) in
          ({| code := 201;
              body := Created populatedBooking otp "Booking created successfully" |},
           st3)
        end
    end
  end.

(** [router.patch('/:id/payment')] *)
Definition updatePayment (user id : string) (raw : Payment.Body) (st : State)
    : Response * State :=
  match Payment.errors raw with
  | (_ :: _) as errs => (invalid errs, st)
  | [] =>
    let body := Payment.sanitize raw in
    let paymentStatus := Payment.paymentStatus body in
    let transactionId := Payment.transactionId body in
    match bookings st !! id with
    | None => (reply 404 "Booking not found", st)
    | Some booking =>
      if negb (String.eqb (Booking.passenger booking) user) then
        (reply 403 "Not authorized to update this booking", st)
      else
        let booking1 := Booking.with_paymentStatus paymentStatus booking in
        let '(booking2, st1) :=
          if String.eqb paymentStatus "paid" && truthy_string transactionId then
            (Booking.with_bookingStatus "confirmed"
               (Booking.with_transactionId transactionId booking1), st)
          else if String.eqb paymentStatus "failed" then
            let booking2 := Booking.with_bookingStatus "cancelled" booking1 in
            match trips st !! Booking.trip booking2 with
            | Some trip =>
                (booking2,
                 set_trips (<[Booking.trip booking2 := releaseSeats user booking2 trip]>
                              (trips st)) st)
            | None => (booking2, st)
            end
          else (booking1, st) in
        let st2 := set_bookings (<[id := booking2]> (bookings st1)) st1 in
        ({| code := 200;
            body := Updated "Payment status updated successfully" (plain booking2) |},
         st2)
    end
  end.

(** [router.patch('/:id/cancel')].  The booking is loaded with its trip
    populated; [booking.trip._id] after the save throws when the trip does not
    exist, and the handler then answers 500 with the booking already saved. *)
Definition cancelBooking (env : Env) (user id : string) (body : Cancel.Body)
    (st : State) : Response * State :=
  match bookings st !! id with
  | None => (reply 404 "Booking not found", st)
  | Some booking =>
    let populated := withTrip st booking in
    if negb (String.eqb (Booking.passenger booking) user) then
      (reply 403 "Not authorized to cancel this booking", st)
    else if String.eqb (Booking.bookingStatus booking) "cancelled" then
      (reply 400 "Booking is already cancelled", st)
    else
      let refundAmount := calculateRefund booking (tripDoc populated) (now env) in
      let booking' :=
        Booking.with_cancellation (Cancel.reason body) (Some user)
          (Some (now env)) (Some refundAmount)
          (Booking.with_bookingStatus "cancelled" booking) in
      let st1 := set_bookings (<[id := booking']> (bookings st)) st in
      match tripDoc populated with
      | None => (serverError, st1)
      | Some _ =>
        let st2 :=
          match trips st1 !! Booking.trip booking' with
          | Some trip =>
              set_trips (<[Booking.trip booking' := releaseSeats user booking' trip]>
                           (trips st1)) st1
          | None => st1
          end in
        ({| code := 200;
            body := Cancelled "Booking cancelled successfully"
                      {| doc := booking'; tripDoc := tripDoc populated;
                         passengerDoc := None |}
                      refundAmount |},
         st2)
      end
  end.

(** [router.post('/:id/verify-otp')].  A booking without an OTP has
    [booking.otp.code] undefined, which differs from every string. *)
Definition verifyOtp (env : Env) (user id : string) (body : Verify.Body)
    (st : State) : Response * State :=
  match Verify.errors body with
  | (_ :: _) as errs => (invalid errs, st)
  | [] =>
    match bookings st !! id with
    | None => (reply 404 "Booking not found", st)
    | Some booking =>
      let authorized :=
        if negb (String.eqb (Booking.passenger booking) user) then
          match trips st !! Booking.trip booking with
          | Some trip => String.eqb (Trip.driver trip) user
          | None => false
          end
        else true in
      if negb authorized then
        (reply 403 "Not authorized to verify this booking", st)
      else
        match Booking.otp booking with
        | None => (reply 400 "Invalid OTP", st)
        | Some o =>
          if negb (String.eqb (Booking.code o) (Verify.otp body)) then
            (reply 400 "Invalid OTP", st)
          else if negb (Qle_bool (otpAge (now env) (Booking.generatedAt o)) (inject_Z 30)) then
            (reply 400 "OTP has expired", st)
          else
            let booking' :=
              Booking.with_bookingStatus "confirmed"
                (Booking.with_otp
                   (Some {| Booking.code := Booking.code o;
                            Booking.generatedAt := Booking.generatedAt o;
                            Booking.verified := true |}) booking) in
            ({| code := 200;
                body := Updated "OTP verified successfully" (plain booking') |},
             set_bookings (<[id := booking']> (bookings st)) st)
        end
    end
  end.

(** [router.post('/:id/share-contact')].  The booking is loaded with its
    passenger and its trip populated, and the trip with its driver populated;
    reading a field of a referenced document that does not exist throws. *)
Definition shareContact (env : Env) (user id : string) (st : State)
    : Response * State :=
  match bookings st !! id with
  | None => (reply 404 "Booking not found", st)
  | Some booking =>
    match trips st !! Booking.trip booking,
          users st !! Booking.passenger booking with
    | Some trip, Some passenger =>
      let shared (name phone : string) (b : Booking.t) : Response * State :=
        ({| code := 200;
            body := Shared "Contact details shared successfully" name phone |},
         set_bookings (<[id := b]> (bookings st)) st) in
      match users st !! Trip.driver trip with
      | None => (serverError, st)
      | Some driver =>
        if String.eqb (Booking.passenger booking) user then
          let name := User.firstName driver ++ " " ++ User.lastName driver in
          shared name (User.phone driver)
            (Booking.with_contacts
               (Some {| Booking.name := name; Booking.phone := User.phone driver;
                        Booking.sharedAt := now env |})
               (Booking.passengerContact booking) booking)
        else if String.eqb (Trip.driver trip) user then
          let name := User.firstName passenger ++ " " ++ User.lastName passenger in
          shared name (User.phone passenger)
            (Booking.with_contacts (Booking.driverContact booking)
               (Some {| Booking.name := name; Booking.phone := User.phone passenger;
                        Booking.sharedAt := now env |})
               booking)
        else
          (reply 403 "Not authorized to access contact details", st)
      end
    | _, _ => (serverError, st)
    end
  end.

(** [router.post('/:id/rate')].  The booking is loaded with its trip
    populated; [booking.trip._id] throws when the trip does not exist.  The
    booking document casts the rating it is given to a number; the user's
    average is computed from the value of the request body. *)
Definition rateBooking (user id : string) (body : Rate.Body) (st : State)
    : Response * State :=
  match Rate.errors body with
  | (_ :: _) as errs => (invalid errs, st)
  | [] =>
    let rating := Rate.rating body in
    let review := Rate.review body in
    match bookings st !! id with
    | None => (reply 404 "Booking not found", st)
    | Some booking =>
      if negb (String.eqb (Booking.bookingStatus booking) "completed") then
        (reply 400 "Can only rate completed bookings", st)
      else
        match trips st !! Booking.trip booking with
        | None => (serverError, st)
        | Some trip =>
          let saved (b : Booking.t) (st' : State) : Response * State :=
            ({| code := 200;
                body := Updated "Rating submitted successfully" (withTrip st b) |},
             set_bookings (<[id := b]> (bookings st')) st') in
          if String.eqb (Booking.passenger booking) user then
            if truthy_int (Booking.value (Booking.forDriver (Booking.rating booking))) then
              (reply 400 "You have already rated this driver", st)
            else
              let booking' :=
                Booking.with_rating
                  {| Booking.forDriver :=
                       {| Booking.value := Validator.toInt rating; Booking.review := review |};
                     Booking.forPassenger :=
                       Booking.forPassenger (Booking.rating booking) |} booking in
              saved booking' (rateUserIn (Trip.driver trip) rating st)
          else if String.eqb (Trip.driver trip) user then
            if truthy_int (Booking.value (Booking.forPassenger (Booking.rating booking))) then
              (reply 400 "You have already rated this passenger", st)
            else
              let booking' :=
                Booking.with_rating
                  {| Booking.forDriver := Booking.forDriver (Booking.rating booking);
                     Booking.forPassenger :=
                       {| Booking.value := Validator.toInt rating; Booking.review := review |} |}
                  booking in
              saved booking' (rateUserIn (Booking.passenger booking) rating st)
          else
            (reply 403 "Not authorized to rate this booking", st)
        end
    end
  end.

(** ** Requests and runs of the service *)

Inductive Request :=
| PostBooking (user : string) (body : Create.Body)
| PatchPayment (user id : string) (body : Payment.Body)
| PatchCancel (user id : string) (body : Cancel.Body)
| PostVerifyOtp (user id : string) (body : Verify.Body)
| PostShareContact (user id : string)
| PostRate (user id : string) (body : Rate.Body).

Definition handle (env : Env) (r : Request) (st : State) : Response * State :=
  match r with
  | PostBooking user body => createBooking env user body st
  | PatchPayment user id body => updatePayment user id body st
  | PatchCancel user id body => cancelBooking env user id body st
  | PostVerifyOtp user id body => verifyOtp env user id body st
  | PostShareContact user id => shareContact env user id st
  | PostRate user id body => rateBooking user id body st
  end.

(** The store after a sequence of requests, with the responses given. *)
Fixpoint run (l : list (Env * Request)) (st : State) : list Response * State :=
  match l with
  | [] => ([], st)
  | (env, r) :: l' =>
      let '(resp, st') := handle env r st in
      let '(resps, st'') := run l' st' in
      (resp :: resps, st'')
  end.

End Routes.

(** ** The invariant of the data model *)

(** A booking in a non-cancelled, non-failed state. *)
Definition live (b : Booking.t) : bool :=
  negb (String.eqb (Booking.bookingStatus b) "cancelled") &&
  negb (String.eqb (Booking.paymentStatus b) "failed").

Definition liveOn (tid : string) (st : State) : list Booking.t :=
  List.filter (fun b => String.eqb (Booking.trip b) tid && live b)
    (snd <$> map_to_list (bookings st)).

Definition seatsHeld (tid : string) (st : State) : Z :=
  fold_right Z.add 0 (Booking.seatsBooked <$> liveOn tid st).

Definition amountHeld (tid : string) (st : State) : float :=
  fold_right PrimFloat.add 0%float (Booking.totalAmount <$> liveOn tid st).

(** The counters of the trip [tid] mirror its live bookings. *)
Definition mirroredAt (tid : string) (t : Trip.t) (st : State) : bool :=
  (Trip.bookedSeats t =? seatsHeld tid st) &&
  PrimFloat.eqb (Trip.totalEarnings t) (amountHeld tid st).

Definition mirrored (st : State) : bool :=
  forallb (fun p => mirroredAt (fst p) (snd p) st) (map_to_list (trips st)).

(** Every booking refers to a trip of the store. *)
Definition linked (st : State) : Prop :=
  forall id b, bookings st !! id = Some b -> is_Some (trips st !! Booking.trip b).

(** ** A small store used in the examples *)

Module Sample.

Definition tripId : string := "65f1a2b3c4d5e6f708192a3b".
Definition bookingId : string := "65f1a2b3c4d5e6f708192a3c".
Definition driverId : string := "65f1a2b3c4d5e6f708192a01".
Definition riderId : string := "65f1a2b3c4d5e6f708192a02".

Definition trip : Trip.t :=
  {| Trip.status := "active"; Trip.driver := driverId;
     Trip.pricePerSeat := 100%float; Trip.totalSeats := 4;
     Trip.bookedSeats := 0; Trip.passengers := [];
     Trip.totalEarnings := 0%float |}.

Definition person (r : User.Rating) : User.t :=
  {| User.firstName := "A"; User.lastName := "B"; User.phone := "0";
     User.rating := r |}.

Definition initial : State :=
  {| bookings := ∅;
     trips := {[ tripId := trip ]};
     users := {[ driverId := person {| User.average := 4%float; User.count := 2 |};
                 riderId := person {| User.average := 5%float; User.count := 1 |} ]} |}.

Definition env : Env := {| now := 1700000000000; freshId := bookingId; otpDraw := 4821 |}.

Definition twoSeats : Create.Body :=
  {| Create.tripId := tripId; Create.seatsBooked := 2;
     Create.pickupPoint := {| Booking.location := "Station"; Booking.time := "9:00" |};
     Create.dropPoint := {| Booking.location := "Airport"; Booking.time := "10:30" |};
     Create.paymentMethod := "upi";
     Create.passengerDetails := ["Asha"; "Ravi"];
     Create.specialRequests := None |}.

Definition failed : Payment.Body :=
  {| Payment.paymentStatus := "failed"; Payment.transactionId := None |}.

Definition noRefund (b : Booking.t) (t : option Trip.t) (now : Z) : float := 0%float.

(** The sample booking as the create route stores it. *)
Definition pending : Booking.t :=
  {| Booking.trip := tripId;
     Booking.passenger := riderId;
     Booking.seatsBooked := 2;
     Booking.totalAmount := 200%float;
     Booking.pickupPoint := {| Booking.location := "Station"; Booking.time := "9:00" |};
     Booking.dropPoint := {| Booking.location := "Airport"; Booking.time := "10:30" |};
     Booking.paymentMethod := "upi";
     Booking.passengerDetails := ["Asha"; "Ravi"];
     Booking.specialRequests := None;
     Booking.paymentStatus := "pending";
     Booking.bookingStatus := "pending";
     Booking.transactionId := None;
     Booking.otp :=
       Some {| Booking.code := "4821"; Booking.generatedAt := now env;
               Booking.verified := false |};
     Booking.rating :=
       {| Booking.forDriver := {| Booking.value := None; Booking.review := None |};
          Booking.forPassenger := {| Booking.value := None; Booking.review := None |} |};
     Booking.cancellationReason := None;
     Booking.cancelledBy := None;
     Booking.cancelledAt := None;
     Booking.refundAmount := None;
     Booking.driverContact := None;
     Booking.passengerContact := None |}.

(** The sample trip once the two seats are taken. *)
Definition taken : Trip.t :=
  {| Trip.status := "active"; Trip.driver := driverId;
     Trip.pricePerSeat := 100%float; Trip.totalSeats := 4;
     Trip.bookedSeats := 2;
     Trip.passengers :=
       [ {| Roster.user := riderId; Roster.seatsBooked := 2;
            Roster.bookingDate := now env |} ];
     Trip.totalEarnings := 200%float |}.

(** The store after the sample booking. *)
Definition booked : State :=
  {| bookings := {[ bookingId := pending ]};
     trips := {[ tripId := taken ]};
     users := users initial |}.

(** The same store once the trip is over and the booking completed. *)
Definition completed : State :=
  {| bookings := {[ bookingId := Booking.with_bookingStatus "completed" pending ]};
     trips := {[ tripId := taken ]};
     users := users initial |}.

(** The clock some minutes after the sample booking. *)
Definition later (minutes : Z) : Env :=
  {| now := now env + minutes * 60000;
     freshId := "65f1a2b3c4d5e6f708192a3d"; otpDraw := 0 |}.

Definition paid : Payment.Body :=
  {| Payment.paymentStatus := "paid"; Payment.transactionId := Some " TXN-42 " |}.

Definition changedPlans : Cancel.Body := {| Cancel.reason := Some "Change of plans" |}.

Definition fiveStars : Rate.Body :=
  {| Rate.rating := JNumber 5; Rate.review := Some "Smooth ride" |}.

Definition oneStar : Rate.Body := {| Rate.rating := JNumber 1; Rate.review := None |}.

(** Five stars sent as a JSON string: [{ "rating": "5" }]. *)
Definition fiveStarsAsText : Rate.Body :=
  {| Rate.rating := JString "5"; Rate.review := Some "Smooth ride" |}.

(** The whole number that a binary64 value is, if it is one from 0 up. *)
Definition whole (x : float) : option Z :=
  match Prim2SF x with
  | S754_zero _ => Some 0
  | S754_finite false m e =>
      if 0 <=? e then Some (Z.pos m * 2 ^ e)
      else if Z.pos m mod 2 ^ (- e) =? 0 then Some (Z.pos m / 2 ^ (- e))
      else None
  | _ => None
  end.

(** A runtime for the examples.  It agrees with JavaScript on the text of
    the whole numbers from 0 below 2^53 and on the value of the strings of
    decimal digits that denote one of them, which is all the examples use;
    elsewhere it answers [NaN]. *)
Definition runtime : Runtime :=
  {| numberToString x :=
       match whole x with
       | Some z =>
           if z <? 2 ^ 53 then NilZero.string_of_uint (N.to_uint (Z.to_N z))
           else "NaN"
       | None => "NaN"
       end;
     stringToNumber s :=
       match Validator.unsigned (list_ascii_of_string s) with
       | Some z => if z <? 2 ^ 53 then num z else PrimFloat.nan
       | None => PrimFloat.nan
       end |}.

End Sample.

(** The failed payment of the sample booking reported twice after its
    creation. *)
Definition failedTwice : list (Env * Request) :=
  [ (Sample.env, PostBooking Sample.riderId Sample.twoSeats);
    (Sample.env, PatchPayment Sample.riderId Sample.bookingId Sample.failed);
    (Sample.env, PatchPayment Sample.riderId Sample.bookingId Sample.failed) ].

(** ** The preconditions of a booking, as the spec lists them *)

Inductive Precondition :=
| TripExists
| TripActive
| NotOwnTrip
| SeatsAvailable
| DetailsMatchSeats.

(** The order in which the spec says they are checked. *)
Definition preconditions : list Precondition :=
  [TripExists; TripActive; NotOwnTrip; SeatsAvailable; DetailsMatchSeats].

(** A precondition on a trip holds of the trip the request names. *)
Definition onTrip (st : State) (body : Create.Body) (P : Trip.t -> bool) : bool :=
  match trips st !! Create.tripId body with
  | Some t => P t
  | None => false
  end.

Definition holds (st : State) (user : string) (body : Create.Body)
    (p : Precondition) : bool :=
  match p with
  | TripExists => onTrip st body (fun _ => true)
  | TripActive => onTrip st body (fun t => String.eqb (Trip.status t) "active")
  | NotOwnTrip => onTrip st body (fun t => negb (String.eqb (Trip.driver t) user))
  | SeatsAvailable =>
      onTrip st body
        (fun t => Create.seatsBooked body <=? Trip.totalSeats t - Trip.bookedSeats t)
  | DetailsMatchSeats =>
      Z.of_nat (length (Create.passengerDetails body)) =? Create.seatsBooked body
  end.

(** The first precondition of the list that does not hold. *)
Definition firstFailure (st : State) (user : string) (body : Create.Body)
    : option Precondition :=
  List.find (fun p => negb (holds st user body p)) preconditions.


(** ** Who may act on a booking, and what a cancellation leaves *)

(** The user may verify the booking: the passenger, or the driver of its
    trip. *)
Definition mayVerify (st : State) (user : string) (b : Booking.t) : Prop :=
  Booking.passenger b = user \/
  exists t, trips st !! Booking.trip b = Some t /\ Trip.driver t = user.

(** The booking as the cancel route leaves it, [refund] being the amount the
    policy gave. *)
Definition cancelledBooking (env : Env) (user : string) (body : Cancel.Body)
    (refund : float) (b : Booking.t) : Booking.t :=
  Booking.with_cancellation (Cancel.reason body) (Some user) (Some (now env))
    (Some refund) (Booking.with_bookingStatus "cancelled" b).

(** ** The two directions of a rating *)

(** The user that [user] rates on the booking [b] of the trip [t]: the
    passenger rates the driver, and the driver rates the passenger. *)
Definition ratedUser (user : string) (b : Booking.t) (t : Trip.t) : string :=
  if String.eqb (Booking.passenger b) user then Trip.driver t
  else Booking.passenger b.

(** The booking with the rating that [user] gives written in its direction. *)
Definition ratedBooking (user : string) (body : Rate.Body) (b : Booking.t)
    : Booking.t :=
  let entry := {| Booking.value := Some (Rate.stars body);
                  Booking.review := Rate.review body |} in
  Booking.with_rating
    (if String.eqb (Booking.passenger b) user then
       {| Booking.forDriver := entry;
          Booking.forPassenger := Booking.forPassenger (Booking.rating b) |}
     else
       {| Booking.forDriver := Booking.forDriver (Booking.rating b);
          Booking.forPassenger := entry |}) b.

(** The streaming mean of the spec: [(oldAverage * oldCount + rating) /
    (oldCount + 1)], in binary64. *)
Definition streamingMean (old : User.Rating) (rating : Z) : float :=
  PrimFloat.div
    (PrimFloat.add (PrimFloat.mul (User.average old) (num (User.count old)))
       (num rating))
    (num (User.count old + 1)).

(** The rating already stored in the direction of [user]. *)
Definition givenRating (user : string) (b : Booking.t) : option Z :=
  if String.eqb (Booking.passenger b) user then
    Booking.value (Booking.forDriver (Booking.rating b))
  else Booking.value (Booking.forPassenger (Booking.rating b)).

(** What every request keeps of a booking: its trip, its passenger and the
    ratings it already holds. *)
Definition sameParty (b b' : Booking.t) : Prop :=
  Booking.trip b' = Booking.trip b /\
  Booking.passenger b' = Booking.passenger b /\
  forall u, truthy_int (givenRating u b) = true ->
            truthy_int (givenRating u b') = true.

(** [st'] has every booking and every trip of [st], with the same parties. *)
Definition keeps (st st' : State) : Prop :=
  (forall id b, bookings st !! id = Some b ->
     exists b', bookings st' !! id = Some b' /\ sameParty b b') /\
  (forall k t, trips st !! k = Some t ->
     exists t', trips st' !! k = Some t' /\ Trip.driver t' = Trip.driver t).

(** The user [user] has rated on the booking [id], as its passenger or as
    the driver of its trip. *)
Definition ratedBy (user id : string) (st : State) : Prop :=
  exists b t,
    bookings st !! id = Some b /\
    trips st !! Booking.trip b = Some t /\
    (Booking.passenger b = user \/ Trip.driver t = user) /\
    truthy_int (givenRating user b) = true.

(** ** The routes that only read *)

(** What [router.get('/:id')] answers: the booking (status 200), or an error
    response. *)
Inductive Fetched :=
| Found (booking : Populated)
| NotServed (r : Response).

(** [router.get('/:id')].  The booking is loaded with its trip and its
    passenger populated; [booking.passenger._id] throws when the passenger
    does not exist, and [booking.trip.driver], read only when the caller is not
    the passenger, throws when the trip does not exist. *)
Definition getBooking (user id : string) (st : State) : Fetched :=
  match bookings st !! id with
  | None => NotServed (reply 404 "Booking not found")
  | Some booking =>
    match users st !! Booking.passenger booking with
    | None => NotServed serverError
    | Some _ =>
      if negb (String.eqb (Booking.passenger booking) user) then
        match trips st !! Booking.trip booking with
        | None => NotServed serverError
        | Some trip =>
          if negb (String.eqb (Trip.driver trip) user) then
            NotServed (reply 403 "Not authorized to view this booking")
          else Found (populate st booking)
        end
      else Found (populate st booking)
    end
  end.

(** The body of the answer of [router.get('/user/bookings')]. *)
Record Page := mkPage {
  items : list Populated;
  totalPages : Z;
  currentPage : positive;
  total : Z
}.

(** The query [{ passenger: req.user.id }], with [bookingStatus: status] added
    when [status] is truthy. *)
Definition matches (user : string) (status : option string) (b : Booking.t)
    : bool :=
  String.eqb (Booking.passenger b) user &&
  (if truthy_string status then
     match status with
     | Some s => String.eqb (Booking.bookingStatus b) s
     | None => true
     end
   else true).

(** [Booking.find(query)] before sorting. *)
Definition findBookings (user : string) (status : option string) (st : State)
    : list Booking.t :=
  List.filter (matches user status) (snd <$> map_to_list (bookings st)).

(** [Math.ceil(total / limit)] on integers. *)
Definition ceilDiv (total : Z) (limit : positive) : Z :=
  - ((- total) / Z.pos limit).

Section Listing.

(** [.sort({ createdAt: -1 })]: the order the database gives to the documents
    found, newest first.  The creation time is a field of the Booking schema,
    which is not among the sources; the route is stated for any sort. *)
Variable newestFirst : list Booking.t -> list Booking.t.

(** The documents of page [page] at [limit] a page:
    [.limit(limit * 1).skip((page - 1) * limit)]. *)
Definition pageOf (page limit : positive) (found : list Booking.t)
    : list Booking.t :=
  take (Pos.to_nat limit)
    (drop ((Pos.to_nat page - 1) * Pos.to_nat limit) found).

(** [router.get('/user/bookings')], for [page] and [limit] positive integers
    (what the database does with a skip or a limit that is not positive is
    not modelled). *)
Definition listBookings (user : string) (page limit : positive)
    (status : option string) (st : State) : Page :=
  let bookings := pageOf page limit (newestFirst (findBookings user status st)) in
  let total := Z.of_nat (length (findBookings user status st)) in
  {| items := withTrip st <$> bookings;
     totalPages := ceilDiv total limit;
     currentPage := page;
     total := total |}.

End Listing.

(** ** Notions used by the statements on the whole service *)

(** The booking a request is addressed to ([None] for a creation). *)
Definition addressed (r : Request) : option string :=
  match r with
  | PostBooking _ _ => None
  | PatchPayment _ id _ => Some id
  | PatchCancel _ id _ => Some id
  | PostVerifyOtp _ id _ => Some id
  | PostShareContact _ id => Some id
  | PostRate _ id _ => Some id
  end.

(** The authenticated user of a request. *)
Definition caller (r : Request) : string :=
  match r with
  | PostBooking user _ => user
  | PatchPayment user _ _ => user
  | PatchCancel user _ _ => user
  | PostVerifyOtp user _ _ => user
  | PostShareContact user _ => user
  | PostRate user _ _ => user
  end.

(** The seats a booking holds on the trip [tid]: its seats when it is a live
    booking of that trip, and none otherwise. *)
Definition heldBy (tid : string) (b : Booking.t) : Z :=
  if String.eqb (Booking.trip b) tid && live b then Booking.seatsBooked b else 0.

(** The seat counter of every trip is the number of seats its live bookings
    hold. *)
Definition seatsMirrored (st : State) : Prop :=
  forall tid t, trips st !! tid = Some t -> Trip.bookedSeats t = seatsHeld tid st.

(** Every booking has between 1 and 7 seats and one passenger detail a seat. *)
Definition seated (st : State) : Prop :=
  forall id b, bookings st !! id = Some b ->
    1 <= Booking.seatsBooked b <= 7 /\
    Z.of_nat (length (Booking.passengerDetails b)) = Booking.seatsBooked b.

(** Every booking has at least one seat. *)
Definition hasSeats (st : State) : Prop :=
  forall id b, bookings st !! id = Some b -> 1 <= Booking.seatsBooked b.

(** The seat counter of a trip is at most the number of its seats. *)
Definition withinCapacity (st : State) : Prop :=
  forall tid t, trips st !! tid = Some t -> Trip.bookedSeats t <= Trip.totalSeats t.

(** The trip a request can write to: the trip a creation names, or the trip
    of the booking the request addresses. *)
Definition tripOf (r : Request) (st : State) : option string :=
  match r with
  | PostBooking _ body => Some (Create.tripId body)
  | _ =>
      match addressed r with
      | Some id => Booking.trip <$> bookings st !! id
      | None => None
      end
  end.

(** The fields of a booking that are set at its creation. *)
Definition sameRequest (b b' : Booking.t) : Prop :=
  Booking.trip b' = Booking.trip b /\
  Booking.passenger b' = Booking.passenger b /\
  Booking.seatsBooked b' = Booking.seatsBooked b /\
  Booking.totalAmount b' = Booking.totalAmount b /\
  Booking.pickupPoint b' = Booking.pickupPoint b /\
  Booking.dropPoint b' = Booking.dropPoint b /\
  Booking.paymentMethod b' = Booking.paymentMethod b /\
  Booking.passengerDetails b' = Booking.passengerDetails b /\
  Booking.specialRequests b' = Booking.specialRequests b.

(** The fields of a trip that its driver publishes. *)
Definition sameOffer (t t' : Trip.t) : Prop :=
  Trip.status t' = Trip.status t /\
  Trip.driver t' = Trip.driver t /\
  Trip.pricePerSeat t' = Trip.pricePerSeat t /\
  Trip.totalSeats t' = Trip.totalSeats t.

(** [st'] has every booking of [st] with the request it was created for, and
    every trip of [st] with its offer. *)
Definition persists (st st' : State) : Prop :=
  (forall id b, bookings st !! id = Some b ->
     exists b', bookings st' !! id = Some b' /\ sameRequest b b') /\
  (forall k t, trips st !! k = Some t ->
     exists t', trips st' !! k = Some t' /\ sameOffer t t').

(** No booking is on a trip of its own passenger. *)
Definition notOwn (st : State) : Prop :=
  forall id b t, bookings st !! id = Some b ->
    trips st !! Booking.trip b = Some t ->
    Booking.passenger b <> Trip.driver t.

(** The booking that a response shows, if it shows one. *)
Definition shown (resp : Response) : option Booking.t :=
  match body resp with
  | Updated _ pb => Some (doc pb)
  | Cancelled _ pb _ => Some (doc pb)
  | Created pb _ _ => doc <$> pb
  | _ => None
  end.

(** ** Times of day as text *)

(** The decimal digit [n] as a character. *)
Definition digitChar (n : nat) : ascii := ascii_of_nat (48 + n).

(** A number below 10 on one digit, and a number below 100 on two. *)
Definition oneDigit (n : nat) : string := String (digitChar n) EmptyString.

Definition twoDigits (n : nat) : string :=
  String (digitChar (n / 10)) (String (digitChar (n mod 10)) EmptyString).

(** The two ways to write the time [h]:[m]: with the hour on two digits, or
    on one when it is below 10. *)
Definition writesTime (s : string) (h m : nat) : Prop :=
  s = (twoDigits h ++ ":" ++ twoDigits m)%string \/
  ((h < 10)%nat /\ s = (oneDigit h ++ ":" ++ twoDigits m)%string).

(** The seats that the bookings of a collection hold on the trip [tid]. *)
Definition heldIn (tid : string) (m : gmap string Booking.t) : Z :=
  fold_right Z.add 0 (heldBy tid <$> (snd <$> map_to_list m)).

(** A second rider, and a booking of all four seats of the sample trip. *)
Definition otherRiderId : string := "65f1a2b3c4d5e6f708192a03".

Definition fourSeats : Create.Body :=
  {| Create.tripId := Sample.tripId; Create.seatsBooked := 4;
     Create.pickupPoint := {| Booking.location := "Station"; Booking.time := "9:00" |};
     Create.dropPoint := {| Booking.location := "Airport"; Booking.time := "10:30" |};
     Create.paymentMethod := "cash";
     Create.passengerDetails := ["Meera"; "Kiran"; "Anil"; "Divya"];
     Create.specialRequests := None |}.

(** The payment of the sample booking fails and then succeeds, and the second
    rider books the four seats of the trip. *)
Definition paidAfterFailed : list (Env * Request) :=
  [ (Sample.later 1, PatchPayment Sample.riderId Sample.bookingId Sample.failed);
    (Sample.later 2, PatchPayment Sample.riderId Sample.bookingId Sample.paid);
    (Sample.later 3, PostBooking otherRiderId fourSeats) ].

(** Three requests on the sample store: a failed payment, a cancellation that
    is refused, and a second booking of the same trip. *)
Definition busyDay : list (Env * Request) :=
  [ (Sample.later 1, PatchPayment Sample.riderId Sample.bookingId Sample.failed);
    (Sample.later 2, PatchCancel Sample.riderId Sample.bookingId Sample.changedPlans);
    (Sample.later 3, PostBooking Sample.riderId Sample.twoSeats) ].

(** * Properties *)

(** ** The validators on examples *)

Example trim_both_ends : Validator.trim "  TXN 42	 " = "TXN 42".
Proof. reflexivity. Qed.

(** A no-break space (U+00A0, the bytes 194 and 160) is white space too. *)
Example trim_no_break_space :
  let nbsp := String (ascii_of_nat 194) (String (ascii_of_nat 160) "") in
  Validator.trim (nbsp ++ " TXN" ++ nbsp ++ "42 " ++ nbsp) = "TXN" ++ nbsp ++ "42" /\
  Validator.trim (nbsp ++ " ") = "".
Proof. split; reflexivity. Qed.

Example isTime_accepts :
  forallb Validator.isTime ["0:00"; "9:05"; "09:05"; "19:59"; "23:59"] = true.
Proof. reflexivity. Qed.

Example isTime_rejects :
  existsb Validator.isTime
    [""; "24:00"; "12:60"; "7:5"; "007:05"; "12-30"; "12:30 "] = false.
Proof. reflexivity. Qed.

Example isMongoId_examples :
  Validator.isMongoId "65f1a2b3c4d5e6f708192a3b" = true /\
  Validator.isMongoId "65f1a2b3c4d5e6f708192a3" = false /\
  Validator.isMongoId "65f1a2b3c4d5e6f708192a3z" = false /\
  Validator.isMongoId "0x65f1a2b3c4d5e6f708192a" = true /\
  Validator.isMongoId "0H65F1A2B3C4D5E6F708192A" = true /\
  Validator.isMongoId "0x0x65f1a2b3c4d5e6f70819" = false.
Proof. repeat split; reflexivity. Qed.

(** The ratings that pass [isInt({ min: 1, max: 5 })]: the numbers 1 to 5 and
    the strings that hold one of them. *)
Example isIntValue_examples :
  forallb (Validator.isIntValue 1 5)
    [JNumber 1; JNumber 5; JString "5"; JString "+5"; JString "05"] = true /\
  existsb (Validator.isIntValue 1 5)
    [JNumber 0; JNumber 6; JString ""; JString "6"; JString "5.0"; JString " 5";
     JString "five"; JString "-1"; JString "+"] = false.
Proof. split; reflexivity. Qed.

(** A request that fails its validation chain is answered 400 with the
    messages of all the checks that failed, in the order of the chain. *)
Example updatePayment_invalid_lists_messages :
  updatePayment Sample.riderId Sample.bookingId
    {| Payment.paymentStatus := "refunded"; Payment.transactionId := Some "  " |}
    Sample.booked
  = ({| code := 400;
        body := Errors ["Invalid payment status";
                        "Transaction ID is required for paid status"] |},
     Sample.booked).
Proof. reflexivity. Qed.

(** ** C4, C5: booking creation *)


(** Two preconditions fail at once (the trip is full and the requester is its
    driver): the earlier one in the order answers. *)
Example createBooking_earlier_failure_wins :
  let full := set_trips {[ Sample.tripId := Sample.taken ]} Sample.initial in
  let three :=
    {| Create.tripId := Sample.tripId; Create.seatsBooked := 3;
       Create.pickupPoint := Create.pickupPoint Sample.twoSeats;
       Create.dropPoint := Create.dropPoint Sample.twoSeats;
       Create.paymentMethod := "cash";
       Create.passengerDetails := ["Asha"];
       Create.specialRequests := None |} in
  firstFailure full Sample.driverId three = Some NotOwnTrip /\
  holds full Sample.driverId three SeatsAvailable = false /\
  holds full Sample.driverId three DetailsMatchSeats = false /\
  fst (createBooking Sample.env Sample.driverId three full)
  = reply 400 "You cannot book your own trip" /\
  fst (createBooking Sample.env Sample.riderId three full)
  = reply 400 "Not enough seats available".
Proof. vm_compute. repeat split; reflexivity. Qed.

Lemma digit_isDigit (n : N) : Validator.isDigit (Booking.digit n) = true.
Proof.
  unfold Booking.digit.
  assert (n mod 10 < 10)%N as Hlt by (apply N.mod_upper_bound; discriminate).
  generalize dependent (n mod 10)%N. intros k Hlt.
  assert (k = 0 \/ k = 1 \/ k = 2 \/ k = 3 \/ k = 4 \/
          k = 5 \/ k = 6 \/ k = 7 \/ k = 8 \/ k = 9)%N as Hk by lia.
  repeat (destruct Hk as [-> | Hk]; [reflexivity |]). now subst k.
Qed.

(** The code of an OTP is made of four decimal digits. *)
Lemma otp_code_four_digits (draw : N) :
  String.length (Booking.otp_code draw) = 4%nat /\
  forallb Validator.isDigit (list_ascii_of_string (Booking.otp_code draw)) = true.
Proof.
  split; [reflexivity |]. unfold Booking.otp_code.
  cbn [list_ascii_of_string forallb]. now rewrite !digit_isDigit.
Qed.

(** C5.  For a validated request that passes every precondition (the id of the
    new document being free), the create route answers 201 with the stored
    booking and the plaintext OTP; the booking has
    [totalAmount = pricePerSeat * seatsBooked]; the trip has [bookedSeats]
    raised by [seatsBooked], [totalEarnings] raised by [totalAmount] and one
    roster entry appended; the OTP of the booking is the four-digit code of
    the response, generated now and with [verified = false]. *)
Theorem createBooking_effects (env : Env) (user : string) (body : Create.Body)
    (st : State) (t : Trip.t) :
  Create.errors body = [] ->
  trips st !! Create.tripId body = Some t ->
  Trip.status t = "active" ->
  Trip.driver t <> user ->
  Create.seatsBooked body <= Trip.totalSeats t - Trip.bookedSeats t ->
  Z.of_nat (length (Create.passengerDetails body)) = Create.seatsBooked body ->
  bookings st !! freshId env = None ->
  let r := createBooking env user body st in
  let amount := PrimFloat.mul (Trip.pricePerSeat t) (num (Create.seatsBooked body)) in
  exists b otp,
    fst r = {| code := 201;
               body := Created (Some (populate (snd r) b)) otp
                         "Booking created successfully" |} /\
    bookings (snd r) !! freshId env = Some b /\
    (forall id, id <> freshId env -> bookings (snd r) !! id = bookings st !! id) /\
    Booking.trip b = Create.tripId body /\
    Booking.passenger b = user /\
    Booking.seatsBooked b = Create.seatsBooked body /\
    Booking.totalAmount b = amount /\
    Booking.otp b =
      Some {| Booking.code := otp; Booking.generatedAt := now env;
              Booking.verified := false |} /\
    String.length otp = 4%nat /\
    forallb Validator.isDigit (list_ascii_of_string otp) = true /\
    exists t', trips (snd r) !! Create.tripId body = Some t' /\
      Trip.bookedSeats t' = Trip.bookedSeats t + Create.seatsBooked body /\
      Trip.totalEarnings t' = PrimFloat.add (Trip.totalEarnings t) amount /\
      Trip.passengers t' =
        (Trip.passengers t ++
         [ {| Roster.user := user; Roster.seatsBooked := Create.seatsBooked body;
              Roster.bookingDate := now env |} ])%list.
Proof.
  intros He Ht Hs Hd Hseats Hlen Hfresh r amount. subst r amount.
  unfold createBooking. rewrite He.
  cbn [Create.sanitize Create.tripId Create.seatsBooked Create.passengerDetails].
  rewrite Ht, Hs. apply String.eqb_neq in Hd. rewrite Hd.
  unfold Trip.hasAvailableSeats. apply Z.leb_le in Hseats. rewrite Hseats.
  apply Z.eqb_eq in Hlen. rewrite Hlen, Hfresh.
  cbn [String.eqb Ascii.eqb Bool.eqb negb Booking.generateOTP set_bookings
       set_trips bookings trips users fst snd].
  rewrite lookup_insert_eq. cbn [fmap option_fmap option_map].
  destruct (otp_code_four_digits (otpDraw env)) as [H4 Hdigits].
  eexists. eexists. split; [reflexivity |].
  split; [reflexivity |]. split.
  { intros id Hne. now rewrite !lookup_insert_ne by congruence. }
  do 5 (split; [reflexivity |]). split; [exact H4 |]. split; [exact Hdigits |].
  eexists. rewrite lookup_insert_eq. repeat split; reflexivity.
Qed.

(** ** C2: OTP verification *)

Lemma otpAge_within (now generatedAt : Z) :
  Qle_bool (otpAge now generatedAt) (inject_Z 30) = true <->
  now - generatedAt <= 30 * 60 * 1000.
Proof.
  rewrite Qle_bool_iff. unfold otpAge, Qle, Qdiv, Qmult, Qinv, inject_Z.
  simpl. lia.
Qed.

Lemma authorized_of_mayVerify st user b :
  mayVerify st user b ->
  (if negb (String.eqb (Booking.passenger b) user) then
     match trips st !! Booking.trip b with
     | Some trip => String.eqb (Trip.driver trip) user
     | None => false
     end
   else true) = true.
Proof.
  intros [<- | (t & Ht & <-)].
  - now rewrite String.eqb_refl.
  - destruct (negb _); [rewrite Ht; apply String.eqb_refl | reflexivity].
Qed.

(** C2.  For a booking with an OTP, a caller who may verify it and a submitted
    string of four characters, the verification is answered 200 exactly when
    the submitted string is the stored code and the OTP is at most 30 minutes
    old (in milliseconds of wall-clock time); and then the stored booking has
    [otp.verified = true] and [bookingStatus = 'confirmed']. *)
Theorem verifyOtp_succeeds_iff (env : Env) (user id submitted : string)
    (st : State) (b : Booking.t) (o : Booking.Otp) :
  String.length submitted = 4%nat ->
  bookings st !! id = Some b ->
  Booking.otp b = Some o ->
  mayVerify st user b ->
  let r := verifyOtp env user id {| Verify.otp := submitted |} st in
  (code (fst r) = 200 <->
   Booking.code o = submitted /\
   now env - Booking.generatedAt o <= 30 * 60 * 1000) /\
  (code (fst r) = 200 ->
   exists b', bookings (snd r) !! id = Some b' /\
     Booking.otp b' =
       Some {| Booking.code := Booking.code o;
               Booking.generatedAt := Booking.generatedAt o;
               Booking.verified := true |} /\
     Booking.bookingStatus b' = "confirmed").
Proof.
  intros Hlen Hb Ho Hauth. unfold verifyOtp, Verify.errors, Validator.isLength.
  cbn [Verify.otp]. rewrite Hlen. cbn [Nat.leb andb Validator.check].
  rewrite Hb, (authorized_of_mayVerify _ _ _ Hauth), Ho. cbn [negb].
  destruct (String.eqb_spec (Booking.code o) submitted) as [Hc | Hc]; cbn [negb].
  - destruct (Qle_bool _ _) eqn:Hage; cbn [negb fst snd code reply].
    + apply otpAge_within in Hage. split; [tauto |].
      intros _. eexists. cbn [set_bookings bookings].
      rewrite lookup_insert_eq. repeat split; reflexivity.
    + assert (~ now env - Booking.generatedAt o <= 30 * 60 * 1000) as Hold.
      { rewrite <- otpAge_within. congruence. }
      split; [split; [discriminate | tauto] | discriminate].
  - cbn [fst code reply]. split; [split; [discriminate | tauto] | discriminate].
Qed.

(** The example of the spec: the OTP 4821 generated at T is accepted 29
    minutes later and rejected 31 minutes later. *)
Example verifyOtp_29_31 :
  code (fst (verifyOtp (Sample.later 29) Sample.riderId Sample.bookingId
               {| Verify.otp := "4821" |} Sample.booked)) = 200 /\
  code (fst (verifyOtp (Sample.later 31) Sample.riderId Sample.bookingId
               {| Verify.otp := "4821" |} Sample.booked)) = 400.
Proof. vm_compute. split; reflexivity. Qed.

(** The sample store after the sample booking is the store the create route
    produces. *)
Example sample_booked :
  snd (createBooking Sample.env Sample.riderId Sample.twoSeats Sample.initial)
  = Sample.booked.
Proof. vm_compute. reflexivity. Qed.

(** ** C6, C9: payment status *)

Lemma check_nil ok msg : Validator.check ok msg = [] -> ok = true.
Proof. destruct ok; [reflexivity | discriminate]. Qed.

Lemma nonempty_truthy (s : string) :
  Validator.isLength 1 None s = true -> truthy_string (Some s) = true.
Proof. destruct s; [discriminate | reflexivity]. Qed.

(** A validated transaction id is truthy once trimmed. *)
Lemma validated_transactionId body tx :
  Payment.errors body = [] ->
  Payment.transactionId body = Some tx ->
  truthy_string (Some (Validator.trim tx)) = true.
Proof.
  unfold Payment.errors. intros He Htx. rewrite Htx in He.
  apply app_eq_nil in He as [_ He]. apply nonempty_truthy, (check_nil _ _ He).
Qed.

Lemma updatePayment_paid user id body st b tx :
  bookings st !! id = Some b ->
  Booking.passenger b = user ->
  Payment.errors body = [] ->
  Payment.paymentStatus body = "paid" ->
  Payment.transactionId body = Some tx ->
  updatePayment user id body st =
  (let b' := Booking.with_bookingStatus "confirmed"
               (Booking.with_transactionId (Some (Validator.trim tx))
                  (Booking.with_paymentStatus "paid" b)) in
   ({| code := 200;
       body := Updated "Payment status updated successfully" (plain b') |},
    set_bookings (<[id := b']> (bookings st)) st)).
Proof.
  intros Hb <- He Hp Htx. unfold updatePayment. rewrite He, Hb, String.eqb_refl.
  unfold Payment.sanitize. cbn [negb Payment.paymentStatus Payment.transactionId].
  rewrite Hp, Htx. cbn [fmap option_fmap option_map].
  rewrite (validated_transactionId body tx He Htx). reflexivity.
Qed.

Lemma updatePayment_failed user id body st b t :
  bookings st !! id = Some b ->
  Booking.passenger b = user ->
  Payment.errors body = [] ->
  Payment.paymentStatus body = "failed" ->
  trips st !! Booking.trip b = Some t ->
  updatePayment user id body st =
  (let b' := Booking.with_bookingStatus "cancelled"
               (Booking.with_paymentStatus "failed" b) in
   ({| code := 200;
       body := Updated "Payment status updated successfully" (plain b') |},
    {| bookings := <[id := b']> (bookings st);
       trips := <[Booking.trip b := releaseSeats user b' t]> (trips st);
       users := users st |})).
Proof.
  intros Hb <- He Hp Ht. unfold updatePayment. rewrite He, Hb, String.eqb_refl.
  unfold Payment.sanitize. cbn [negb Payment.paymentStatus Payment.transactionId].
  rewrite Hp.
  cbn [String.eqb Ascii.eqb Bool.eqb andb Booking.trip Booking.with_bookingStatus
       Booking.with_paymentStatus].
  rewrite Ht. reflexivity.
Qed.

Lemma updatePayment_paid_without user id st b :
  bookings st !! id = Some b ->
  Booking.passenger b = user ->
  updatePayment user id
    {| Payment.paymentStatus := "paid"; Payment.transactionId := None |} st =
  (let b' := Booking.with_paymentStatus "paid" b in
   ({| code := 200;
       body := Updated "Payment status updated successfully" (plain b') |},
    set_bookings (<[id := b']> (bookings st)) st)).
Proof.
  intros Hb <-. unfold updatePayment. cbn [Payment.errors].
  cbv beta iota delta [Payment.errors Payment.paymentStatus Payment.transactionId].
  cbn. rewrite Hb, String.eqb_refl. reflexivity.
Qed.

(** C6.  For a validated payment update by the passenger of the booking:
    with [paymentStatus = 'paid'] and a transaction id the request is answered
    200 and the stored booking has [bookingStatus = 'confirmed'] and holds the
    (trimmed) transaction id; with [paymentStatus = 'failed'] and the trip of
    the booking in the store, the request is answered 200, the stored booking
    has [bookingStatus = 'cancelled'], the trip has [bookedSeats] lowered by
    [seatsBooked] and [totalEarnings] by [totalAmount], and its roster keeps
    exactly the entries of the other users. *)
Theorem updatePayment_effects (user id : string) (body : Payment.Body)
    (st : State) (b : Booking.t) :
  bookings st !! id = Some b ->
  Booking.passenger b = user ->
  Payment.errors body = [] ->
  let r := updatePayment user id body st in
  (forall tx,
     Payment.paymentStatus body = "paid" ->
     Payment.transactionId body = Some tx ->
     code (fst r) = 200 /\
     trips (snd r) = trips st /\
     exists b', bookings (snd r) !! id = Some b' /\
       Booking.paymentStatus b' = "paid" /\
       Booking.bookingStatus b' = "confirmed" /\
       Booking.transactionId b' = Some (Validator.trim tx)) /\
  (forall t,
     Payment.paymentStatus body = "failed" ->
     trips st !! Booking.trip b = Some t ->
     code (fst r) = 200 /\
     (exists b', bookings (snd r) !! id = Some b' /\
        Booking.paymentStatus b' = "failed" /\
        Booking.bookingStatus b' = "cancelled") /\
     (exists t', trips (snd r) !! Booking.trip b = Some t' /\
        Trip.bookedSeats t' = Trip.bookedSeats t - Booking.seatsBooked b /\
        Trip.totalEarnings t' =
          PrimFloat.sub (Trip.totalEarnings t) (Booking.totalAmount b) /\
        (forall p, In p (Trip.passengers t') <->
                   In p (Trip.passengers t) /\ Roster.user p <> user))).
Proof.
  intros Hb Hu He r. split.
  - intros tx Hp Htx. subst r.
    rewrite (updatePayment_paid user id body st b tx Hb Hu He Hp Htx).
    cbn [fst snd code set_bookings bookings trips].
    split; [reflexivity | split; [reflexivity |]].
    eexists. rewrite lookup_insert_eq. repeat split; reflexivity.
  - intros t Hp Ht. subst r.
    rewrite (updatePayment_failed user id body st b t Hb Hu He Hp Ht).
    cbn [fst snd code bookings trips]. split; [reflexivity | split].
    + eexists. rewrite lookup_insert_eq. repeat split; reflexivity.
    + eexists. rewrite lookup_insert_eq. split; [reflexivity |].
      cbn [releaseSeats Trip.bookedSeats Trip.totalEarnings Trip.passengers].
      split; [reflexivity | split; [reflexivity |]].
      intros p. rewrite filter_In, negb_true_iff, String.eqb_neq. reflexivity.
Qed.

(** C9.  A payment update by the passenger of the booking with
    [paymentStatus = 'paid'] and no transaction id is answered 200; the stored
    booking is the former one with [paymentStatus] set to ['paid'] and every
    other field as it was, so [bookingStatus] is not changed and no
    transaction id is stored; trips and users are untouched. *)
Theorem updatePayment_paid_no_transaction (user id : string) (st : State)
    (b : Booking.t) :
  bookings st !! id = Some b ->
  Booking.passenger b = user ->
  let r := updatePayment user id
             {| Payment.paymentStatus := "paid"; Payment.transactionId := None |} st in
  code (fst r) = 200 /\
  trips (snd r) = trips st /\
  users (snd r) = users st /\
  (forall id', id' <> id -> bookings (snd r) !! id' = bookings st !! id') /\
  exists b', bookings (snd r) !! id = Some b' /\
    Booking.paymentStatus b' = "paid" /\
    Booking.bookingStatus b' = Booking.bookingStatus b /\
    Booking.transactionId b' = Booking.transactionId b /\
    b' = {| Booking.trip := Booking.trip b;
            Booking.passenger := Booking.passenger b;
            Booking.seatsBooked := Booking.seatsBooked b;
            Booking.totalAmount := Booking.totalAmount b;
            Booking.pickupPoint := Booking.pickupPoint b;
            Booking.dropPoint := Booking.dropPoint b;
            Booking.paymentMethod := Booking.paymentMethod b;
            Booking.passengerDetails := Booking.passengerDetails b;
            Booking.specialRequests := Booking.specialRequests b;
            Booking.paymentStatus := "paid";
            Booking.bookingStatus := Booking.bookingStatus b;
            Booking.transactionId := Booking.transactionId b;
            Booking.otp := Booking.otp b;
            Booking.rating := Booking.rating b;
            Booking.cancellationReason := Booking.cancellationReason b;
            Booking.cancelledBy := Booking.cancelledBy b;
            Booking.cancelledAt := Booking.cancelledAt b;
            Booking.refundAmount := Booking.refundAmount b;
            Booking.driverContact := Booking.driverContact b;
            Booking.passengerContact := Booking.passengerContact b |}.
Proof.
  intros Hb Hu r. subst r. rewrite (updatePayment_paid_without user id st b Hb Hu).
  cbn [fst snd code set_bookings bookings trips users].
  split; [reflexivity | split; [reflexivity | split; [reflexivity | split]]].
  - intros id' Hne. now rewrite lookup_insert_ne.
  - eexists. rewrite lookup_insert_eq. repeat split; reflexivity.
Qed.

(** ** C7, C8: rating *)

(** A rating that passed the chain is the number, or the text, of an integer
    from 1 to 5. *)
Lemma validated_stars body :
  Rate.errors body = [] ->
  Validator.toInt (Rate.rating body) = Some (Rate.stars body) /\
  1 <= Rate.stars body <= 5.
Proof.
  unfold Rate.errors, Rate.stars. intros He. apply app_eq_nil in He as [He _].
  apply check_nil in He. unfold Validator.isIntValue in He.
  destruct (Validator.toInt (Rate.rating body)) as [z |]; [| discriminate].
  unfold Validator.isInt in He. apply andb_true_iff in He as [Hlo Hhi].
  apply Z.leb_le in Hlo, Hhi. split; [reflexivity | lia].
Qed.

Lemma validated_rating_truthy body :
  Rate.errors body = [] -> truthy_int (Some (Rate.stars body)) = true.
Proof.
  intros He. destruct (validated_stars body He) as [_ Hr].
  cbn [truthy_int]. apply negb_true_iff, Z.eqb_neq. lia.
Qed.

Lemma ratedBooking_given user body b :
  givenRating user (ratedBooking user body b) = Some (Rate.stars body).
Proof.
  unfold givenRating, ratedBooking. cbn [Booking.with_rating Booking.passenger].
  now destruct (String.eqb (Booking.passenger b) user).
Qed.

Section Rating.

Context {js : Runtime}.

Lemma rateUserIn_trips id rating st : trips (rateUserIn id rating st) = trips st.
Proof. unfold rateUserIn. now destruct (users st !! id). Qed.

(** What an accepted rating did. *)
Lemma rateBooking_accepted_inv user id body st :
  code (fst (rateBooking user id body st)) = 200 ->
  exists b t,
    Rate.errors body = [] /\
    bookings st !! id = Some b /\
    Booking.bookingStatus b = "completed" /\
    trips st !! Booking.trip b = Some t /\
    (Booking.passenger b = user \/ Trip.driver t = user) /\
    truthy_int (givenRating user b) = false /\
    snd (rateBooking user id body st) =
      set_bookings
        (<[id := ratedBooking user body b]>
           (bookings (rateUserIn (ratedUser user b t) (Rate.rating body) st)))
        (rateUserIn (ratedUser user b t) (Rate.rating body) st).
Proof.
  unfold rateBooking, givenRating, ratedBooking, ratedUser.
  destruct (Rate.errors body) eqn:He; [| discriminate].
  cbv zeta. rewrite (proj1 (validated_stars body He)).
  destruct (bookings st !! id) as [b |] eqn:Hb; [| discriminate].
  destruct (String.eqb_spec (Booking.bookingStatus b) "completed") as [Hs | Hs];
    cbn [negb]; [| discriminate].
  destruct (trips st !! Booking.trip b) as [t |] eqn:Ht; [| discriminate].
  destruct (String.eqb_spec (Booking.passenger b) user) as [Hp | Hp].
  - destruct (truthy_int _) eqn:Hr; [discriminate |]. intros _.
    exists b, t. rewrite (proj2 (String.eqb_eq _ _) Hp). repeat split; auto.
  - destruct (String.eqb_spec (Trip.driver t) user) as [Hd | Hd]; [| discriminate].
    destruct (truthy_int _) eqn:Hr; [discriminate |]. intros _.
    exists b, t. rewrite (proj2 (String.eqb_neq _ _) Hp). repeat split; auto.
Qed.

(** When a rating that came as a JSON number is accepted (200) and the rated
    user is in the store, that user's stored average becomes the streaming
    mean [(oldAverage * oldCount + rating) / (oldCount + 1)] in binary64
    arithmetic and the count becomes [oldCount + 1]; the other fields of the
    user are unchanged. *)
Lemma rateBooking_streaming_mean (user id : string) (body : Rate.Body)
    (st : State) (b : Booking.t) (t : Trip.t) (u : User.t) (z : Z) :
  Rate.rating body = JNumber z ->
  bookings st !! id = Some b ->
  trips st !! Booking.trip b = Some t ->
  users st !! ratedUser user b t = Some u ->
  let r := rateBooking user id body st in
  code (fst r) = 200 ->
  exists u', users (snd r) !! ratedUser user b t = Some u' /\
    User.average (User.rating u') = streamingMean (User.rating u) z /\
    User.count (User.rating u') = User.count (User.rating u) + 1 /\
    User.firstName u' = User.firstName u /\
    User.lastName u' = User.lastName u /\
    User.phone u' = User.phone u.
Proof.
  intros Hz Hb Ht Hu r Hok. subst r.
  destruct (rateBooking_accepted_inv _ _ _ _ Hok)
    as (b0 & t0 & _ & Hb0 & _ & Ht0 & _ & _ & ->).
  rewrite Hb in Hb0. injection Hb0 as <-. rewrite Ht in Ht0. injection Ht0 as <-.
  unfold rateUserIn. rewrite Hu, Hz. cbn [set_bookings set_users users].
  eexists. rewrite lookup_insert_eq. repeat split; reflexivity.
Qed.

(** C7.  A rating sent as a JSON string passes the validation chain as it is
    and reaches the arithmetic as a string.  With [String(8) = "8"] and
    [Number("85") = 85], as in JavaScript: when the rating ["5"] is accepted
    (200) for a user whose average is 4.0 over 2 ratings, the count becomes
    3 and the stored average is [("8" + "5") / 3 = 85 / 3], that is
    28.333333333333332, and not the streaming mean [(4.0 * 2 + 5) / 3], that
    is 4.333333333333333. *)
Theorem rateBooking_string_rating_off_mean (user id : string)
    (review : option string) (st : State) (b : Booking.t) (t : Trip.t)
    (u : User.t) :
  numberToString 8 = "8" ->
  stringToNumber "85" = 85%float ->
  bookings st !! id = Some b ->
  trips st !! Booking.trip b = Some t ->
  users st !! ratedUser user b t = Some u ->
  User.rating u = {| User.average := 4; User.count := 2 |} ->
  let body := {| Rate.rating := JString "5"; Rate.review := review |} in
  let r := rateBooking user id body st in
  code (fst r) = 200 ->
  Rate.stars body = 5 /\
  exists u', users (snd r) !! ratedUser user b t = Some u' /\
    User.count (User.rating u') = 3 /\
    User.average (User.rating u') = PrimFloat.div 85 3 /\
    streamingMean (User.rating u) 5 = PrimFloat.div 13 3 /\
    User.average (User.rating u') <> streamingMean (User.rating u) 5.
Proof.
  intros Hs Hn Hb Ht Hu Hr body r Hok. subst r. split; [reflexivity |].
  destruct (rateBooking_accepted_inv _ _ _ _ Hok)
    as (b0 & t0 & _ & Hb0 & _ & Ht0 & _ & _ & ->).
  rewrite Hb in Hb0. injection Hb0 as <-. rewrite Ht in Ht0. injection Ht0 as <-.
  unfold rateUserIn. rewrite Hu. cbn [set_bookings set_users users].
  eexists. rewrite lookup_insert_eq. split; [reflexivity |].
  unfold rateUser, streamingMean, body.
  cbn [User.rating User.with_rating User.average User.count Rate.rating addJson].
  rewrite Hr. cbn [User.average User.count].
  change (PrimFloat.mul 4 (num 2)) with 8%float. rewrite Hs.
  change ("8" ++ "5") with "85". rewrite Hn.
  repeat split; try reflexivity.
  intros H. apply (f_equal (fun x => PrimFloat.eqb x (PrimFloat.div 85 3))) in H.
  vm_compute in H. discriminate.
Qed.

(** A rating in a direction that already holds one is rejected. *)
Lemma rateBooking_already_rated user id body st b t :
  bookings st !! id = Some b ->
  Booking.bookingStatus b = "completed" ->
  trips st !! Booking.trip b = Some t ->
  Booking.passenger b = user \/ Trip.driver t = user ->
  truthy_int (givenRating user b) = true ->
  code (fst (rateBooking user id body st)) = 400 /\
  snd (rateBooking user id body st) = st.
Proof.
  intros Hb Hs Ht Hrole. unfold rateBooking, givenRating.
  destruct (Rate.errors body); [| split; reflexivity].
  rewrite Hb, Hs, Ht. cbn [String.eqb Ascii.eqb Bool.eqb negb].
  destruct (String.eqb_spec (Booking.passenger b) user) as [Hp | Hp].
  - intros ->. split; reflexivity.
  - destruct Hrole as [Hp' | Hd]; [contradiction |].
    rewrite Hd, String.eqb_refl. intros ->. split; reflexivity.
Qed.

End Rating.

(** ** Statements about the cancel route *)

Section Cancellation.

(** The refund policy of the Booking model: any pure function. *)
Context {js : Runtime}.
Variable calculateRefund : Booking.t -> option Trip.t -> Z -> float.

(** ** Every booking keeps a trip *)

Lemma linked_booking st id b :
  linked st -> is_Some (trips st !! Booking.trip b) ->
  linked (set_bookings (<[id := b]> (bookings st)) st).
Proof.
  intros Hl Hb id' b'. cbn [set_bookings bookings trips].
  rewrite lookup_insert. case_decide; [| apply Hl].
  now intros [= <-].
Qed.

Lemma linked_trip st tid t :
  linked st -> linked (set_trips (<[tid := t]> (trips st)) st).
Proof.
  intros Hl id b Hb. cbn [set_trips bookings trips] in *.
  rewrite lookup_insert_is_Some. destruct (decide (tid = Booking.trip b)); [now left |].
  right. split; [assumption | eapply Hl, Hb].
Qed.

Lemma linked_rateUserIn st id rating :
  linked st -> linked (rateUserIn id rating st).
Proof. unfold rateUserIn. now destruct (users st !! id). Qed.

(** No request leaves a booking without its trip: the stores the service
    reaches from a store where every booking has its trip are of the same
    kind, which is what the statements below assume of the booking at hand. *)
Lemma handle_linked env r st :
  linked st -> linked (snd (handle calculateRefund env r st)).
Proof.
  intros Hl. destruct r as [user body | user id body | user id body
                            | user id body | user id | user id body]; cbn [handle].
  - unfold createBooking. repeat case_match; cbn [snd]; try assumption.
    unfold Booking.generateOTP in *. simplify_eq.
    apply linked_booking; [apply linked_trip, linked_booking; [assumption |] |];
      cbn [set_trips set_bookings trips Booking.trip Booking.with_otp newBooking
           Create.sanitize Create.tripId];
      rewrite ?lookup_insert_eq; eauto.
  - unfold updatePayment. repeat case_match; cbn [snd]; try assumption;
      simplify_eq; (apply linked_booking; [first [apply linked_trip |idtac]; assumption |]);
      cbn [set_trips trips Booking.trip Booking.with_bookingStatus
           Booking.with_transactionId Booking.with_paymentStatus];
      rewrite ?lookup_insert_is_Some; eauto.
  - unfold cancelBooking. repeat case_match; cbn [snd]; try assumption;
      simplify_eq;
      first [apply linked_trip | idtac]; (apply linked_booking; [assumption |]);
      cbn [Booking.trip Booking.with_bookingStatus Booking.with_cancellation];
      eauto.
  - unfold verifyOtp. repeat case_match; cbn [snd]; try assumption;
      simplify_eq; (apply linked_booking; [assumption |]);
      cbn [Booking.trip Booking.with_bookingStatus Booking.with_otp]; eauto.
  - unfold shareContact. repeat case_match; cbn [snd]; try assumption;
      simplify_eq; (apply linked_booking; [assumption |]);
      cbn [Booking.trip Booking.with_contacts]; eauto.
  - unfold rateBooking. repeat case_match; cbn [snd]; try assumption;
      simplify_eq; (apply linked_booking; [apply linked_rateUserIn; assumption |]);
      rewrite rateUserIn_trips; cbn [Booking.trip Booking.with_rating]; eauto.
Qed.

(** ** C3, C10: cancellation *)

Lemma cancelBooking_already env user id body st b :
  bookings st !! id = Some b ->
  Booking.passenger b = user ->
  Booking.bookingStatus b = "cancelled" ->
  cancelBooking calculateRefund env user id body st =
  (reply 400 "Booking is already cancelled", st).
Proof.
  intros Hb <- Hs. unfold cancelBooking.
  now rewrite Hb, String.eqb_refl, Hs.
Qed.

Lemma cancelBooking_accepted env user id body st b t :
  bookings st !! id = Some b ->
  Booking.passenger b = user ->
  Booking.bookingStatus b <> "cancelled" ->
  trips st !! Booking.trip b = Some t ->
  cancelBooking calculateRefund env user id body st =
  (let b' := cancelledBooking env user body (calculateRefund b (Some t) (now env)) b in
   ({| code := 200;
       body := Cancelled "Booking cancelled successfully"
                 {| doc := b'; tripDoc := Some t; passengerDoc := None |}
                 (calculateRefund b (Some t) (now env)) |},
    {| bookings := <[id := b']> (bookings st);
       trips := <[Booking.trip b := releaseSeats user b' t]> (trips st);
       users := users st |})).
Proof.
  intros Hb <- Hs Ht. unfold cancelBooking, withTrip.
  rewrite Hb, String.eqb_refl. cbn [negb tripDoc].
  apply String.eqb_neq in Hs. rewrite Hs, Ht.
  cbn [set_bookings trips Booking.trip Booking.with_cancellation
       Booking.with_bookingStatus].
  now rewrite Ht.
Qed.

(** C3.  When the passenger of a booking that is not cancelled cancels it (the
    trip of the booking being in the store), the request is answered 200; the
    stored booking has [bookingStatus = 'cancelled'] and carries the reason,
    the cancelling user, the time and the refund amount, and is otherwise
    unchanged in its seats and amount; the trip has [bookedSeats] lowered by
    exactly [seatsBooked] and [totalEarnings] by exactly [totalAmount]; and
    its roster keeps exactly the entries of the other users. *)
Theorem cancelBooking_effects (env : Env) (user id : string) (body : Cancel.Body)
    (st : State) (b : Booking.t) (t : Trip.t) :
  bookings st !! id = Some b ->
  Booking.passenger b = user ->
  Booking.bookingStatus b <> "cancelled" ->
  trips st !! Booking.trip b = Some t ->
  let r := cancelBooking calculateRefund env user id body st in
  code (fst r) = 200 /\
  (exists b', bookings (snd r) !! id = Some b' /\
     Booking.bookingStatus b' = "cancelled" /\
     Booking.cancellationReason b' = Cancel.reason body /\
     Booking.cancelledBy b' = Some user /\
     Booking.cancelledAt b' = Some (now env) /\
     Booking.refundAmount b' = Some (calculateRefund b (Some t) (now env)) /\
     Booking.seatsBooked b' = Booking.seatsBooked b /\
     Booking.totalAmount b' = Booking.totalAmount b) /\
  (exists t', trips (snd r) !! Booking.trip b = Some t' /\
     Trip.bookedSeats t' = Trip.bookedSeats t - Booking.seatsBooked b /\
     Trip.totalEarnings t' = PrimFloat.sub (Trip.totalEarnings t) (Booking.totalAmount b) /\
     (forall p, In p (Trip.passengers t') <->
                In p (Trip.passengers t) /\ Roster.user p <> user)).
Proof.
  intros Hb Hp Hs Ht r. subst r.
  rewrite (cancelBooking_accepted env user id body st b t Hb Hp Hs Ht).
  cbn [fst snd code bookings trips]. split; [reflexivity |]. split.
  - eexists. rewrite lookup_insert_eq. repeat split; reflexivity.
  - eexists. rewrite lookup_insert_eq. split; [reflexivity |].
    cbn [releaseSeats Trip.bookedSeats Trip.totalEarnings Trip.passengers].
    split; [reflexivity | split; [reflexivity |]].
    intros p. rewrite filter_In, negb_true_iff, String.eqb_neq. reflexivity.
Qed.

(** C10.  For the passenger of a booking whose trip is in the store, the
    cancel route rejects the request (400, store unchanged) exactly when
    [bookingStatus] is already ['cancelled']; with any other status the
    request is answered 200 and the counters of the trip are rolled back, in
    particular for a booking that is ['completed']. *)
Theorem cancelBooking_rejected_iff (env : Env) (user id : string)
    (body : Cancel.Body) (st : State) (b : Booking.t) (t : Trip.t) :
  bookings st !! id = Some b ->
  Booking.passenger b = user ->
  trips st !! Booking.trip b = Some t ->
  let r := cancelBooking calculateRefund env user id body st in
  (code (fst r) <> 200 <-> Booking.bookingStatus b = "cancelled") /\
  (Booking.bookingStatus b = "cancelled" ->
   r = (reply 400 "Booking is already cancelled", st)) /\
  (Booking.bookingStatus b <> "cancelled" ->
   code (fst r) = 200 /\
   exists t', trips (snd r) !! Booking.trip b = Some t' /\
     Trip.bookedSeats t' = Trip.bookedSeats t - Booking.seatsBooked b /\
     Trip.totalEarnings t' =
       PrimFloat.sub (Trip.totalEarnings t) (Booking.totalAmount b)) /\
  (Booking.bookingStatus b = "completed" ->
   code (fst r) = 200 /\
   (Trip.bookedSeats <$> trips (snd r) !! Booking.trip b) =
     Some (Trip.bookedSeats t - Booking.seatsBooked b)).
Proof.
  intros Hb Hp Ht r.
  assert (Booking.bookingStatus b <> "cancelled" ->
          code (fst r) = 200 /\
          exists t', trips (snd r) !! Booking.trip b = Some t' /\
            Trip.bookedSeats t' = Trip.bookedSeats t - Booking.seatsBooked b /\
            Trip.totalEarnings t' =
              PrimFloat.sub (Trip.totalEarnings t) (Booking.totalAmount b)) as Hok.
  { intros Hs. subst r.
    rewrite (cancelBooking_accepted env user id body st b t Hb Hp Hs Ht).
    cbn [fst snd code trips]. split; [reflexivity |].
    eexists. rewrite lookup_insert_eq. repeat split; reflexivity. }
  assert (Booking.bookingStatus b = "cancelled" ->
          r = (reply 400 "Booking is already cancelled", st)) as Hno.
  { intros Hs. apply (cancelBooking_already env user id body st b Hb Hp Hs). }
  split; [| split; [exact Hno | split; [exact Hok |]]].
  - split.
    + intros Hc. destruct (string_dec (Booking.bookingStatus b) "cancelled") as [|Hs];
        [assumption | destruct (Hok Hs) as [H200 _]; contradiction].
    + intros Hs. rewrite (Hno Hs). cbn. discriminate.
  - intros Hs. assert (Booking.bookingStatus b <> "cancelled") as Hs'
      by (rewrite Hs; discriminate).
    destruct (Hok Hs') as (H200 & t' & Ht' & Hseats & _).
    split; [exact H200 |]. now rewrite Ht', <- Hseats.
Qed.

(** ** C8: a rating is given once *)

Lemma sameParty_refl b : sameParty b b.
Proof. now repeat split. Qed.

Lemma keeps_refl st : keeps st st.
Proof. split; intros; eexists; split; eauto using sameParty_refl. Qed.

Lemma keeps_trans st1 st2 st3 : keeps st1 st2 -> keeps st2 st3 -> keeps st1 st3.
Proof.
  intros [Hb12 Ht12] [Hb23 Ht23]. split.
  - intros id b Hb. destruct (Hb12 _ _ Hb) as (b2 & Hb2 & Htr & Hpa & Hra).
    destruct (Hb23 _ _ Hb2) as (b3 & Hb3 & Htr' & Hpa' & Hra').
    exists b3. split; [exact Hb3 |]. repeat split; [congruence | congruence | auto].
  - intros k t Ht. destruct (Ht12 _ _ Ht) as (t2 & Ht2 & Hd).
    destruct (Ht23 _ _ Ht2) as (t3 & Ht3 & Hd').
    exists t3. split; [exact Ht3 | congruence].
Qed.

Lemma keeps_set_booking st0 st id b b' :
  keeps st0 st -> bookings st !! id = Some b -> sameParty b b' ->
  keeps st0 (set_bookings (<[id := b']> (bookings st)) st).
Proof.
  intros Hk Hb Hsame. apply (keeps_trans _ _ _ Hk).
  split; cbn [set_bookings bookings trips].
  - intros id' b0 Hb0. rewrite lookup_insert. case_decide.
    + subst id'. rewrite Hb in Hb0. injection Hb0 as <-. eauto.
    + eauto using sameParty_refl.
  - intros k t Ht. eauto.
Qed.

Lemma keeps_new_booking st0 st id b' :
  keeps st0 st -> bookings st !! id = None ->
  keeps st0 (set_bookings (<[id := b']> (bookings st)) st).
Proof.
  intros Hk Hnone. apply (keeps_trans _ _ _ Hk).
  split; cbn [set_bookings bookings trips].
  - intros id' b0 Hb0. rewrite lookup_insert_ne by congruence.
    eauto using sameParty_refl.
  - intros k t Ht. eauto.
Qed.

Lemma keeps_set_trip st0 st k t t' :
  keeps st0 st -> trips st !! k = Some t -> Trip.driver t' = Trip.driver t ->
  keeps st0 (set_trips (<[k := t']> (trips st)) st).
Proof.
  intros Hk Ht Hd. apply (keeps_trans _ _ _ Hk).
  split; cbn [set_trips bookings trips].
  - intros id b Hb. eauto using sameParty_refl.
  - intros k' t0 Ht0. rewrite lookup_insert. case_decide.
    + subst k'. rewrite Ht in Ht0. injection Ht0 as <-. eauto.
    + eauto.
Qed.

Lemma keeps_rateUserIn st id rating : keeps st (rateUserIn id rating st).
Proof.
  unfold rateUserIn. destruct (users st !! id); [| apply keeps_refl].
  split; cbn [set_users bookings trips]; intros; eexists; split;
    eauto using sameParty_refl.
Qed.

Lemma ratedBooking_sameParty user body b :
  Rate.errors body = [] -> sameParty b (ratedBooking user body b).
Proof.
  intros He. pose proof (validated_rating_truthy body He) as Hr.
  unfold sameParty, ratedBooking, givenRating.
  cbn [Booking.with_rating Booking.trip Booking.passenger Booking.rating].
  split; [reflexivity | split; [reflexivity |]]. intros u.
  destruct (String.eqb (Booking.passenger b) user),
           (String.eqb (Booking.passenger b) u);
    cbn [Booking.forDriver Booking.forPassenger Booking.value]; auto.
Qed.

(** The routes keep every booking and every trip, with their parties and the
    ratings given. *)
Lemma handle_keeps env r st : keeps st (snd (handle calculateRefund env r st)).
Proof.
  destruct r as [user body | user id body | user id body
                 | user id body | user id | user id body]; cbn [handle].
  - unfold createBooking. repeat case_match; cbn [snd]; try apply keeps_refl.
    unfold Booking.generateOTP in *. simplify_eq.
    eapply keeps_set_booking;
      [eapply keeps_set_trip;
         [apply keeps_new_booking; [apply keeps_refl | eassumption]
         | cbn [set_bookings trips]; eassumption | reflexivity]
      | cbn [set_trips set_bookings bookings]; apply lookup_insert_eq
      | now repeat split].
  - unfold updatePayment. repeat case_match; cbn [snd]; try apply keeps_refl;
      simplify_eq;
      (eapply keeps_set_booking;
       [first [apply keeps_refl
              | eapply keeps_set_trip; [apply keeps_refl | eassumption | reflexivity]]
       | cbn [set_trips bookings]; eassumption
       | now repeat split]).
  - unfold cancelBooking, withTrip. repeat case_match; cbn [snd]; try apply keeps_refl;
      simplify_eq;
      first [eapply keeps_set_trip; [| cbn [set_bookings trips]; eassumption | reflexivity]
            | idtac];
      (eapply keeps_set_booking; [apply keeps_refl | eassumption | now repeat split]).
  - unfold verifyOtp. repeat case_match; cbn [snd]; try apply keeps_refl;
      simplify_eq;
      (eapply keeps_set_booking; [apply keeps_refl | eassumption | now repeat split]).
  - unfold shareContact. repeat case_match; cbn [snd]; try apply keeps_refl;
      simplify_eq;
      (eapply keeps_set_booking; [apply keeps_refl | eassumption | now repeat split]).
  - destruct (rateBooking user id body st) as [resp st'] eqn:Hr. cbn [snd].
    destruct (Z.eq_dec (code resp) 200) as [Hok | Hno].
    + assert (code (fst (rateBooking user id body st)) = 200) as Hok'
        by now rewrite Hr.
      destruct (rateBooking_accepted_inv _ _ _ _ Hok')
        as (b & t & He & Hb & _ & _ & _ & _ & Hst).
      rewrite Hr in Hst. cbn [snd] in Hst. subst st'.
      eapply keeps_set_booking;
        [apply keeps_rateUserIn | | apply (ratedBooking_sameParty user body b He)].
      unfold rateUserIn. now destruct (users st !! _).
    + assert (st' = st) as ->; [| apply keeps_refl].
      revert Hr. unfold rateBooking. repeat case_match; intros [= <- <-];
        try reflexivity; cbn [code] in Hno; congruence.
Qed.

Lemma keeps_ratedBy user id st st' :
  keeps st st' -> ratedBy user id st -> ratedBy user id st'.
Proof.
  intros [Hbs Hts] (b & t & Hb & Ht & Hrole & Hr).
  destruct (Hbs _ _ Hb) as (b' & Hb' & Htr & Hpa & Hra).
  destruct (Hts _ _ Ht) as (t' & Ht' & Hd).
  exists b', t'. rewrite Htr, Hpa, Hd. auto.
Qed.

Lemma run_ratedBy user id l st :
  ratedBy user id st -> ratedBy user id (snd (run calculateRefund l st)).
Proof.
  revert st. induction l as [| [env r] l IH]; intros st Hr; [exact Hr |].
  cbn [run]. pose proof (handle_keeps env r st) as Hk.
  destruct (handle calculateRefund env r st) as [resp st'].
  specialize (IH st' (keeps_ratedBy _ _ _ _ Hk Hr)).
  now destruct (run calculateRefund l st').
Qed.

Lemma rateBooking_ratedBy user id body st :
  code (fst (rateBooking user id body st)) = 200 ->
  ratedBy user id (snd (rateBooking user id body st)).
Proof.
  intros Hok. destruct (rateBooking_accepted_inv _ _ _ _ Hok)
    as (b & t & He & Hb & _ & Ht & Hrole & _ & ->).
  exists (ratedBooking user body b), t. cbn [set_bookings bookings trips].
  rewrite lookup_insert_eq, rateUserIn_trips, ratedBooking_given.
  repeat split; auto using validated_rating_truthy.
Qed.

(** A rating in a direction that is already rated is answered 400, whatever
    the state of the booking, and changes nothing. *)
Lemma rateBooking_ratedBy_rejected user id body st :
  ratedBy user id st ->
  code (fst (rateBooking user id body st)) = 400 /\
  snd (rateBooking user id body st) = st.
Proof.
  intros (b & t & Hb & Ht & Hrole & Hr).
  destruct (String.eqb_spec (Booking.bookingStatus b) "completed") as [Hs | Hs].
  - now apply (rateBooking_already_rated user id body st b t).
  - unfold rateBooking. destruct (Rate.errors body); [| split; reflexivity].
    rewrite Hb. apply String.eqb_neq in Hs. rewrite Hs. split; reflexivity.
Qed.

(** C8.  After a rating by a user on a booking was accepted (200), and
    whatever requests the service handled since, every further rating request
    of the same user on the same booking is answered 400 and leaves the whole
    store as it was, so the rating on the booking and the average of the
    rated user do not change.  The user is the passenger (rating the driver)
    or the driver (rating the passenger). *)
Theorem rateBooking_only_once (user id : string) (first again : Rate.Body)
    (between : list (Env * Request)) (st : State) :
  code (fst (rateBooking user id first st)) = 200 ->
  let st1 := snd (run calculateRefund between
                    (snd (rateBooking user id first st))) in
  code (fst (rateBooking user id again st1)) = 400 /\
  snd (rateBooking user id again st1) = st1.
Proof.
  intros Hok st1. apply rateBooking_ratedBy_rejected. subst st1.
  apply run_ratedBy, rateBooking_ratedBy, Hok.
Qed.

(** ** C1: the counters of a trip and its live bookings *)

(** C1.  The store that holds the sample trip and no booking satisfies the
    invariant, and three requests that the service accepts (the creation of a
    booking of two seats, answered 201, and the failed payment of that booking
    reported twice, answered 200 both times) lead to a store where the trip
    has [bookedSeats = -2] and [totalEarnings = -200] with no live booking
    left: the second failed payment releases the seats a second time, so the
    invariant does not hold in every reachable store. *)
Theorem failed_payment_twice_breaks_mirroring :
  mirrored Sample.initial = true /\
  (code <$> fst (run calculateRefund failedTwice Sample.initial)) = [201; 200; 200] /\
  mirrored (snd (run calculateRefund (firstn 1 failedTwice) Sample.initial)) = true /\
  mirrored (snd (run calculateRefund (firstn 2 failedTwice) Sample.initial)) = true /\
  (let st := snd (run calculateRefund failedTwice Sample.initial) in
   (Trip.bookedSeats <$> trips st !! Sample.tripId) = Some (-2) /\
   (Trip.totalEarnings <$> trips st !! Sample.tripId) = Some (-200)%float /\
   liveOn Sample.tripId st = [] /\
   mirrored st = false).
Proof. vm_compute. repeat split; reflexivity. Qed.

End Cancellation.

(** * Further properties of the routes *)

(** ** Reading a booking *)

(** X1.  [GET /:id] answers with a booking exactly when the booking exists,
    its passenger is a user of the store, and the caller is its passenger or
    the driver of its trip; the answer is then the stored booking with its
    trip and passenger resolved.  Nobody else is shown a booking. *)
Theorem getBooking_found_iff (user id : string) (st : State) (pb : Populated) :
  getBooking user id st = Found pb <->
  exists b, bookings st !! id = Some b /\
    pb = populate st b /\
    is_Some (users st !! Booking.passenger b) /\
    mayVerify st user b.
Proof.
  unfold getBooking, mayVerify. split.
  - destruct (bookings st !! id) as [b |] eqn:Hb; [| discriminate].
    destruct (users st !! Booking.passenger b) as [p |] eqn:Hp; [| discriminate].
    destruct (String.eqb_spec (Booking.passenger b) user) as [Hu | Hu]; cbn [negb].
    + intros [= <-]. exists b. rewrite Hp. eauto 6.
    + destruct (trips st !! Booking.trip b) as [t |] eqn:Ht; [| discriminate].
      destruct (String.eqb_spec (Trip.driver t) user) as [Hd | Hd]; cbn [negb];
        [| discriminate].
      intros [= <-]. exists b. rewrite Hp. eauto 8.
  - intros (b & -> & -> & [p ->] & Hparty).
    destruct (String.eqb_spec (Booking.passenger b) user) as [Hu | Hu]; cbn [negb];
      [reflexivity |].
    destruct Hparty as [Hu' | (t & -> & <-)]; [contradiction |].
    now rewrite String.eqb_refl.
Qed.

(** ** Rating *)

Section RatingFurther.

Context {js : Runtime}.

(** X2.  A rating is accepted only on a completed booking, from its passenger
    or the driver of its trip, with a rating (the number, or the text of the
    number) between 1 and 5, and in a direction that holds no rating yet. *)
Theorem rateBooking_accepted_only_if (user id : string) (body : Rate.Body)
    (st : State) :
  code (fst (rateBooking user id body st)) = 200 ->
  exists b t,
    bookings st !! id = Some b /\
    trips st !! Booking.trip b = Some t /\
    Booking.bookingStatus b = "completed" /\
    mayVerify st user b /\
    (exists z, Validator.toInt (Rate.rating body) = Some z /\ 1 <= z <= 5) /\
    truthy_int (givenRating user b) = false.
Proof.
  intros Hok.
  destruct (rateBooking_accepted_inv _ _ _ _ Hok)
    as (b & t & He & Hb & Hs & Ht & Hrole & Hnew & _).
  exists b, t. repeat split; auto.
  - destruct Hrole as [Hp | Hd]; [now left | right; eauto].
  - exists (Rate.stars body). now apply validated_stars.
Qed.

(** The converse of [rateBooking_accepted_inv]. *)
Lemma rateBooking_accepted user id body st b t :
  Rate.errors body = [] ->
  bookings st !! id = Some b ->
  Booking.bookingStatus b = "completed" ->
  trips st !! Booking.trip b = Some t ->
  Booking.passenger b = user \/ Trip.driver t = user ->
  truthy_int (givenRating user b) = false ->
  code (fst (rateBooking user id body st)) = 200 /\
  snd (rateBooking user id body st) =
    set_bookings
      (<[id := ratedBooking user body b]>
         (bookings (rateUserIn (ratedUser user b t) (Rate.rating body) st)))
      (rateUserIn (ratedUser user b t) (Rate.rating body) st).
Proof.
  intros He Hb Hs Ht Hrole. unfold rateBooking, givenRating, ratedBooking, ratedUser.
  rewrite He, Hb, Hs, Ht. cbv zeta. rewrite (proj1 (validated_stars body He)).
  cbn [String.eqb Ascii.eqb Bool.eqb negb].
  destruct (String.eqb_spec (Booking.passenger b) user) as [Hp | Hp].
  - intros ->. split; reflexivity.
  - destruct Hrole as [Hp' | Hd]; [contradiction |].
    rewrite Hd, String.eqb_refl. intros ->. split; reflexivity.
Qed.

(** X3.  The passenger and the driver rate independently: after the rating of
    the passenger was accepted, a validated rating by the driver of the trip
    (another user, who has not rated yet) is accepted too, and the booking
    then holds both ratings. *)
Theorem rateBooking_both_directions (rider driver id : string)
    (byRider byDriver : Rate.Body) (st : State) (b : Booking.t) (t : Trip.t) :
  bookings st !! id = Some b ->
  trips st !! Booking.trip b = Some t ->
  Booking.passenger b = rider ->
  Trip.driver t = driver ->
  driver <> rider ->
  truthy_int (Booking.value (Booking.forPassenger (Booking.rating b))) = false ->
  Rate.errors byDriver = [] ->
  code (fst (rateBooking rider id byRider st)) = 200 ->
  let st1 := snd (rateBooking rider id byRider st) in
  let r := rateBooking driver id byDriver st1 in
  code (fst r) = 200 /\
  exists b', bookings (snd r) !! id = Some b' /\
    Booking.value (Booking.forDriver (Booking.rating b')) = Some (Rate.stars byRider) /\
    Booking.value (Booking.forPassenger (Booking.rating b')) = Some (Rate.stars byDriver).
Proof.
  intros Hb Ht Hp Hd Hne Hnew He Hok st1 r. subst st1 r.
  destruct (rateBooking_accepted_inv _ _ _ _ Hok)
    as (b0 & t0 & _ & Hb0 & Hs & Ht0 & _ & _ & ->).
  rewrite Hb in Hb0. injection Hb0 as <-. rewrite Ht in Ht0. injection Ht0 as <-.
  assert (String.eqb (Booking.passenger b) driver = false) as Hpd
    by (apply String.eqb_neq; congruence).
  assert (String.eqb (Booking.passenger b) rider = true) as Hpr
    by (apply String.eqb_eq; congruence).
  destruct (rateBooking_accepted driver id byDriver
              (set_bookings
                 (<[id := ratedBooking rider byRider b]>
                    (bookings (rateUserIn (ratedUser rider b t) (Rate.rating byRider) st)))
                 (rateUserIn (ratedUser rider b t) (Rate.rating byRider) st))
              (ratedBooking rider byRider b) t He) as [H200 ->].
  - cbn [set_bookings bookings]. apply lookup_insert_eq.
  - exact Hs.
  - cbn [set_bookings trips]. now rewrite rateUserIn_trips.
  - now right.
  - unfold givenRating, ratedBooking.
    cbn [Booking.with_rating Booking.passenger Booking.rating].
    now rewrite Hpd, Hpr.
  - split; [exact H200 |]. cbn [set_bookings bookings].
    eexists. rewrite lookup_insert_eq. split; [reflexivity |].
    unfold ratedBooking.
    cbn [Booking.with_rating Booking.passenger Booking.rating].
    rewrite Hpd, Hpr. split; reflexivity.
Qed.

(** X4.  When the user to rate is not in the store the rating is accepted all
    the same: it is written on the booking and no user changes. *)
Theorem rateBooking_without_rated_user (user id : string) (body : Rate.Body)
    (st : State) (b : Booking.t) (t : Trip.t) :
  bookings st !! id = Some b ->
  trips st !! Booking.trip b = Some t ->
  users st !! ratedUser user b t = None ->
  code (fst (rateBooking user id body st)) = 200 ->
  users (snd (rateBooking user id body st)) = users st /\
  trips (snd (rateBooking user id body st)) = trips st /\
  bookings (snd (rateBooking user id body st))
  = <[id := ratedBooking user body b]> (bookings st).
Proof.
  intros Hb Ht Hu Hok.
  destruct (rateBooking_accepted_inv _ _ _ _ Hok)
    as (b0 & t0 & _ & Hb0 & _ & Ht0 & _ & _ & ->).
  rewrite Hb in Hb0. injection Hb0 as <-. rewrite Ht in Ht0. injection Ht0 as <-.
  unfold rateUserIn. rewrite Hu. repeat split; reflexivity.
Qed.

End RatingFurther.

(** ** OTP verification *)

(** What an accepted verification did. *)
Lemma verifyOtp_accepted_inv env user id body st :
  code (fst (verifyOtp env user id body st)) = 200 ->
  exists b o,
    bookings st !! id = Some b /\
    Booking.otp b = Some o /\
    mayVerify st user b /\
    Booking.code o = Verify.otp body /\
    now env - Booking.generatedAt o <= 30 * 60 * 1000 /\
    verifyOtp env user id body st =
      (let b' := Booking.with_bookingStatus "confirmed"
                   (Booking.with_otp
                      (Some {| Booking.code := Booking.code o;
                               Booking.generatedAt := Booking.generatedAt o;
                               Booking.verified := true |}) b) in
       ({| code := 200;
           body := Updated "OTP verified successfully" (plain b') |},
        set_bookings (<[id := b']> (bookings st)) st)).
Proof.
  unfold verifyOtp, mayVerify.
  destruct (Verify.errors body); [| discriminate].
  destruct (bookings st !! id) as [b |] eqn:Hb; [| discriminate].
  match goal with |- context [negb ?a] => destruct a eqn:Hauth end;
    cbn [negb]; [| discriminate].
  destruct (Booking.otp b) as [o |] eqn:Ho; [| discriminate].
  destruct (String.eqb_spec (Booking.code o) (Verify.otp body)) as [Hc | Hc];
    cbn [negb]; [| discriminate].
  destruct (Qle_bool _ _) eqn:Hage; cbn [negb]; [| discriminate].
  intros _. exists b, o. apply otpAge_within in Hage.
  repeat split; auto.
  destruct (String.eqb_spec (Booking.passenger b) user) as [Hp | Hp];
    cbn [negb] in Hauth; [now left |].
  destruct (trips st !! Booking.trip b) as [t |]; [| discriminate].
  apply String.eqb_eq in Hauth. right. eauto.
Qed.

(** X5.  A verification can be repeated: after one was accepted, the same
    submission by the same caller, still within 30 minutes of the generation
    of the OTP, is accepted again and leaves the store as the first one left
    it.  The route does not look at [otp.verified]. *)
Theorem verifyOtp_again (env env' : Env) (user id : string) (body : Verify.Body)
    (st : State) (b : Booking.t) (o : Booking.Otp) :
  bookings st !! id = Some b ->
  Booking.otp b = Some o ->
  code (fst (verifyOtp env user id body st)) = 200 ->
  now env' - Booking.generatedAt o <= 30 * 60 * 1000 ->
  let st1 := snd (verifyOtp env user id body st) in
  code (fst (verifyOtp env' user id body st1)) = 200 /\
  snd (verifyOtp env' user id body st1) = st1.
Proof.
  intros Hb Ho Hok Hage st1. subst st1.
  destruct (verifyOtp_accepted_inv _ _ _ _ _ Hok)
    as (b0 & o0 & Hb0 & Ho0 & Hparty & Hcode & _ & Heq).
  rewrite Hb in Hb0. injection Hb0 as <-. rewrite Ho in Ho0. injection Ho0 as <-.
  assert (Verify.errors body = []) as He.
  { revert Hok. unfold verifyOtp. now destruct (Verify.errors body). }
  rewrite Heq. cbn [snd]. unfold verifyOtp. rewrite He.
  cbn [set_bookings bookings trips]. rewrite lookup_insert_eq.
  cbn [Booking.with_bookingStatus Booking.with_otp Booking.passenger Booking.trip
       Booking.otp Booking.code Booking.generatedAt].
  rewrite (authorized_of_mayVerify _ _ _ Hparty). cbn [negb].
  rewrite Hcode, String.eqb_refl. apply otpAge_within in Hage. rewrite Hage.
  cbn [negb fst snd code]. split; [reflexivity |].
  unfold set_bookings. cbn [bookings trips users]. f_equal.
  now rewrite insert_insert_eq.
Qed.

(** ** Payment *)

(** X6.  A ['paid'] update with a transaction id after a ['failed'] one
    confirms the booking again, but the seats released by the failed payment
    are not taken back: the trip keeps the lowered seat counter. *)
Theorem updatePayment_paid_after_failed (user id : string) (paid : Payment.Body)
    (tx : string) (st : State) (b : Booking.t) (t : Trip.t) :
  bookings st !! id = Some b ->
  Booking.passenger b = user ->
  trips st !! Booking.trip b = Some t ->
  Payment.errors paid = [] ->
  Payment.paymentStatus paid = "paid" ->
  Payment.transactionId paid = Some tx ->
  let failed := {| Payment.paymentStatus := "failed";
                   Payment.transactionId := None |} in
  let st1 := snd (updatePayment user id failed st) in
  let r := updatePayment user id paid st1 in
  code (fst r) = 200 /\
  (exists b', bookings (snd r) !! id = Some b' /\
     Booking.bookingStatus b' = "confirmed" /\
     Booking.paymentStatus b' = "paid" /\
     live b' = true) /\
  (exists t', trips (snd r) !! Booking.trip b = Some t' /\
     Trip.bookedSeats t' = Trip.bookedSeats t - Booking.seatsBooked b /\
     forall p, In p (Trip.passengers t') -> Roster.user p <> user).
Proof.
  intros Hb Hu Ht He Hp Htx failed st1 r. subst st1 r failed.
  rewrite (updatePayment_failed user id
             {| Payment.paymentStatus := "failed"; Payment.transactionId := None |}
             st b t Hb Hu eq_refl eq_refl Ht).
  cbn [snd].
  match goal with
  | |- context [updatePayment user id paid ?s] =>
      rewrite (updatePayment_paid user id paid s
                 (Booking.with_bookingStatus "cancelled"
                    (Booking.with_paymentStatus "failed" b)) tx
                 (lookup_insert_eq _ _ _) Hu He Hp Htx)
  end.
  cbn [fst snd code set_bookings bookings trips]. split; [reflexivity |]. split.
  - eexists. rewrite lookup_insert_eq. repeat split; reflexivity.
  - eexists. rewrite lookup_insert_eq. split; [reflexivity |].
    cbn [releaseSeats Trip.bookedSeats Trip.passengers Booking.seatsBooked
         Booking.with_bookingStatus Booking.with_paymentStatus].
    split; [reflexivity |]. intros p Hin. apply filter_In in Hin as [_ Hin].
    now apply negb_true_iff, String.eqb_neq in Hin.
Qed.

(** ** Contact details *)

(** X7.  [POST /:id/share-contact] gives contact details to the two parties of
    a booking only, and to each the details of the other: when the answer
    carries a name and a phone, either the caller is the passenger and they
    are those of the driver of the trip, or the caller is that driver and
    they are those of the passenger. *)
Theorem shareContact_discloses_to_parties (env : Env) (user id : string)
    (st : State) (m name phone : string) :
  body (fst (shareContact env user id st)) = Shared m name phone ->
  exists b t other,
    bookings st !! id = Some b /\
    trips st !! Booking.trip b = Some t /\
    name = User.firstName other ++ " " ++ User.lastName other /\
    phone = User.phone other /\
    ((Booking.passenger b = user /\ users st !! Trip.driver t = Some other) \/
     (Booking.passenger b <> user /\ Trip.driver t = user /\
      users st !! Booking.passenger b = Some other)).
Proof.
  unfold shareContact.
  destruct (bookings st !! id) as [b |] eqn:Hb; [| discriminate].
  destruct (trips st !! Booking.trip b) as [t |] eqn:Ht; [| discriminate].
  destruct (users st !! Booking.passenger b) as [p |] eqn:Hp; [| discriminate].
  destruct (users st !! Trip.driver t) as [d |] eqn:Hd; [| discriminate].
  destruct (String.eqb_spec (Booking.passenger b) user) as [Hu | Hu].
  - intros [= <- <- <-]. exists b, t, d. repeat split; auto.
  - destruct (String.eqb_spec (Trip.driver t) user) as [Hu' | Hu']; [| discriminate].
    intros [= <- <- <-]. exists b, t, p. repeat split; auto.
Qed.

(** ** Creation followed by another request *)

(** What an accepted creation did. *)
Lemma createBooking_created_inv env user body st :
  code (fst (createBooking env user body st)) = 201 ->
  exists t,
    Create.errors body = [] /\
    trips st !! Create.tripId body = Some t /\
    Trip.status t = "active" /\
    Trip.driver t <> user /\
    Create.seatsBooked body <= Trip.totalSeats t - Trip.bookedSeats t /\
    Z.of_nat (length (Create.passengerDetails body)) = Create.seatsBooked body /\
    bookings st !! freshId env = None /\
    let amount := PrimFloat.mul (Trip.pricePerSeat t) (num (Create.seatsBooked body)) in
    let b := Booking.with_otp
               (Some {| Booking.code := Booking.otp_code (otpDraw env);
                        Booking.generatedAt := now env;
                        Booking.verified := false |})
               (newBooking user (Create.sanitize body) amount) in
    let st' :=
      {| bookings := <[freshId env := b]> (bookings st);
         trips := <[Create.tripId body :=
                      takeSeats user (Create.seatsBooked body) amount (now env) t]>
                    (trips st);
         users := users st |} in
    createBooking env user body st =
      ({| code := 201;
          body := Created (Some (populate st' b)) (Booking.otp_code (otpDraw env))
                    "Booking created successfully" |}, st').
Proof.
  unfold createBooking.
  destruct (Create.errors body) eqn:He; [| discriminate].
  cbn [Create.sanitize Create.tripId Create.seatsBooked Create.passengerDetails].
  destruct (trips st !! Create.tripId body) as [t |] eqn:Ht; [| discriminate].
  destruct (String.eqb_spec (Trip.status t) "active") as [Hs | Hs]; cbn [negb];
    [| discriminate].
  destruct (String.eqb_spec (Trip.driver t) user) as [Hd | Hd]; [discriminate |].
  unfold Trip.hasAvailableSeats.
  destruct (Z.leb_spec (Create.seatsBooked body) (Trip.totalSeats t - Trip.bookedSeats t))
    as [Hseats | Hseats]; cbn [negb]; [| discriminate].
  destruct (Z.eqb_spec (Z.of_nat (length (Create.passengerDetails body)))
              (Create.seatsBooked body)) as [Hlen | Hlen]; cbn [negb]; [| discriminate].
  destruct (bookings st !! freshId env) eqn:Hfresh; [discriminate |].
  intros _. exists t. do 7 (split; [assumption || reflexivity |]).
  cbn [Booking.generateOTP set_bookings set_trips bookings trips users].
  rewrite lookup_insert_eq, insert_insert_eq. reflexivity.
Qed.

(** X8.  The OTP that the create route returns verifies the new booking: when
    a creation is answered 201 with an OTP, the verification of the new
    booking by its passenger with that OTP, at most 30 minutes later, is
    answered 200 and leaves the booking confirmed.  ([booking.generateOTP] is
    modelled from the spec.) *)
Theorem createBooking_then_verifyOtp (env env' : Env) (user : string)
    (body : Create.Body) (st : State) (pb : option Populated) (otp m : string) :
  fst (createBooking env user body st)
  = {| code := 201; body := Created pb otp m |} ->
  now env' - now env <= 30 * 60 * 1000 ->
  let st1 := snd (createBooking env user body st) in
  let r := verifyOtp env' user (freshId env) {| Verify.otp := otp |} st1 in
  code (fst r) = 200 /\
  exists b', bookings (snd r) !! freshId env = Some b' /\
    Booking.bookingStatus b' = "confirmed" /\
    (Booking.verified <$> Booking.otp b') = Some true.
Proof.
  intros Hresp Hage st1 r. subst st1 r.
  assert (code (fst (createBooking env user body st)) = 201) as Hok
    by now rewrite Hresp.
  destruct (createBooking_created_inv _ _ _ _ Hok) as (t & _ & _ & _ & _ & _ & _ & _ & Heq).
  cbv zeta in Heq. rewrite Heq in Hresp |- *. cbn [fst snd] in *.
  injection Hresp as _ <- _.
  unfold verifyOtp.
  cbn [Verify.errors Verify.otp Validator.isLength Validator.check Booking.otp_code
       String.length Nat.leb andb bookings trips].
  rewrite lookup_insert_eq.
  cbn [Booking.with_otp Booking.passenger Booking.otp Booking.code
       Booking.generatedAt newBooking].
  rewrite !String.eqb_refl. apply otpAge_within in Hage. rewrite Hage.
  cbn [negb fst snd code set_bookings bookings]. split; [reflexivity |].
  eexists. rewrite lookup_insert_eq. repeat split; reflexivity.
Qed.

(** ** Statements on every request *)

Section Service.

Context {js : Runtime}.
Variable calculateRefund : Booking.t -> option Trip.t -> Z -> float.

Ltac route_cases :=
  repeat case_match; simplify_eq; cbn [fst snd code reply invalid serverError] in *.

(** X9.  A request that is refused with a 4xx status changes nothing in the
    store, whatever the route. *)
Theorem refusal_changes_nothing (env : Env) (r : Request) (st : State) :
  400 <= code (fst (handle calculateRefund env r st)) < 500 ->
  snd (handle calculateRefund env r st) = st.
Proof.
  destruct r as [user body | user id body | user id body
                 | user id body | user id | user id body]; cbn [handle].
  - unfold createBooking. route_cases; intros; first [reflexivity | lia].
  - unfold updatePayment. route_cases; intros; first [reflexivity | lia].
  - unfold cancelBooking. route_cases; intros; first [reflexivity | lia].
  - unfold verifyOtp. route_cases; intros; first [reflexivity | lia].
  - unfold shareContact. route_cases; intros; first [reflexivity | lia].
  - unfold rateBooking. route_cases; intros; first [reflexivity | lia].
Qed.

(** X10.  When the trip of a booking is not in the store, its cancellation by
    the passenger is answered 500, yet the booking has already been saved as
    cancelled: the error response does not mean that nothing happened. *)
Theorem cancelBooking_without_trip (env : Env) (user id : string)
    (body : Cancel.Body) (st : State) (b : Booking.t) :
  bookings st !! id = Some b ->
  Booking.passenger b = user ->
  Booking.bookingStatus b <> "cancelled" ->
  trips st !! Booking.trip b = None ->
  let r := cancelBooking calculateRefund env user id body st in
  code (fst r) = 500 /\
  trips (snd r) = trips st /\
  exists b', bookings (snd r) !! id = Some b' /\
    Booking.bookingStatus b' = "cancelled" /\
    Booking.cancelledBy b' = Some user /\
    Booking.cancelledAt b' = Some (now env).
Proof.
  intros Hb <- Hs Ht r. subst r. unfold cancelBooking, withTrip.
  rewrite Hb, String.eqb_refl. apply String.eqb_neq in Hs.
  cbn [negb tripDoc]. rewrite Hs, Ht.
  cbn [fst snd code serverError set_bookings bookings trips].
  split; [reflexivity | split; [reflexivity |]].
  eexists. rewrite lookup_insert_eq. repeat split; reflexivity.
Qed.

(** X11.  A user who is neither the passenger of a booking nor the driver of
    its trip cannot change anything through a request addressed to that
    booking: the request is not answered 200 and the store is as before. *)
Theorem stranger_changes_nothing (env : Env) (r : Request) (st : State)
    (id : string) (b : Booking.t) :
  addressed r = Some id ->
  bookings st !! id = Some b ->
  ~ mayVerify st (caller r) b ->
  snd (handle calculateRefund env r st) = st /\
  code (fst (handle calculateRefund env r st)) <> 200.
Proof.
  intros Hid Hb Hno.
  assert (String.eqb (Booking.passenger b) (caller r) = false) as Hp.
  { apply String.eqb_neq. intros Heq. apply Hno. now left. }
  assert (forall t, trips st !! Booking.trip b = Some t ->
                    String.eqb (Trip.driver t) (caller r) = false) as Hd.
  { intros t Ht. apply String.eqb_neq. intros Heq. apply Hno. right. eauto. }
  destruct r as [user body | user i body | user i body
                 | user i body | user i | user i body];
    cbn [addressed caller handle] in *; simplify_eq.
  - unfold updatePayment. destruct (Payment.errors body); [| split; [reflexivity | discriminate]].
    rewrite Hb, Hp. split; [reflexivity | discriminate].
  - unfold cancelBooking. rewrite Hb, Hp. split; [reflexivity | discriminate].
  - unfold verifyOtp. destruct (Verify.errors body); [| split; [reflexivity | discriminate]].
    rewrite Hb, Hp. cbn [negb].
    destruct (trips st !! Booking.trip b) as [t |] eqn:Ht;
      [rewrite (Hd t eq_refl) |]; split; first [reflexivity | discriminate].
  - unfold shareContact. rewrite Hb.
    destruct (trips st !! Booking.trip b) as [t |] eqn:Ht;
      [| split; [reflexivity | discriminate]].
    destruct (users st !! Booking.passenger b);
      [| split; [reflexivity | discriminate]].
    destruct (users st !! Trip.driver t);
      [| split; [reflexivity | discriminate]].
    rewrite Hp, (Hd t eq_refl). split; [reflexivity | discriminate].
  - unfold rateBooking. destruct (Rate.errors body); [| split; [reflexivity | discriminate]].
    rewrite Hb. destruct (negb _); [split; [reflexivity | discriminate] |].
    destruct (trips st !! Booking.trip b) as [t |] eqn:Ht;
      [| split; [reflexivity | discriminate]].
    rewrite Hp, (Hd t eq_refl). split; [reflexivity | discriminate].
Qed.

(** X12.  Only the passenger of a booking can update its payment or cancel
    it: from any other user, the driver of the trip included, the two routes
    answer 400 or 403 and change nothing. *)
Theorem only_passenger_pays_or_cancels (env : Env) (user id : string)
    (pay : Payment.Body) (reason : Cancel.Body) (st : State) (b : Booking.t) :
  bookings st !! id = Some b ->
  Booking.passenger b <> user ->
  let paid := handle calculateRefund env (PatchPayment user id pay) st in
  let cancelled := handle calculateRefund env (PatchCancel user id reason) st in
  (code (fst paid) = 400 \/ code (fst paid) = 403) /\ snd paid = st /\
  fst cancelled = reply 403 "Not authorized to cancel this booking" /\
  snd cancelled = st.
Proof.
  intros Hb Hp. apply String.eqb_neq in Hp. cbn [handle].
  unfold updatePayment, cancelBooking. rewrite Hb, Hp. cbn [negb].
  destruct (Payment.errors pay); cbn [fst snd code reply invalid]; auto.
Qed.

Lemma rateUserIn_bookings id rating st :
  bookings (rateUserIn id rating st) = bookings st.
Proof. unfold rateUserIn. now destruct (users st !! id). Qed.

(** X13.  A request changes no booking but the one it addresses; a creation
    changes no booking at all and adds one under the new id. *)
Theorem other_bookings_untouched (env : Env) (r : Request) (st : State)
    (id : string) :
  addressed r <> Some id ->
  (addressed r = None -> id <> freshId env) ->
  bookings (snd (handle calculateRefund env r st)) !! id = bookings st !! id.
Proof.
  intros Hid Hfresh.
  destruct r as [user body | user i body | user i body
                 | user i body | user i | user i body];
    cbn [addressed handle] in *.
  - specialize (Hfresh eq_refl). unfold createBooking, Booking.generateOTP.
    route_cases; try reflexivity.
    cbn [set_bookings set_trips bookings]. now rewrite !lookup_insert_ne by congruence.
  - assert (i <> id) by congruence. unfold updatePayment.
    route_cases; try reflexivity;
      cbn [set_bookings set_trips bookings]; now rewrite lookup_insert_ne.
  - assert (i <> id) by congruence. unfold cancelBooking.
    route_cases; try reflexivity;
      cbn [set_bookings set_trips bookings]; now rewrite lookup_insert_ne.
  - assert (i <> id) by congruence. unfold verifyOtp.
    route_cases; try reflexivity;
      cbn [set_bookings set_trips bookings]; now rewrite lookup_insert_ne.
  - assert (i <> id) by congruence. unfold shareContact.
    route_cases; try reflexivity;
      cbn [set_bookings set_trips bookings]; now rewrite lookup_insert_ne.
  - assert (i <> id) by congruence. unfold rateBooking.
    route_cases; try reflexivity;
      cbn [set_bookings set_trips bookings];
      now rewrite lookup_insert_ne, rateUserIn_bookings.
Qed.

Lemma verifyOtp_frame env user id body st :
  users (snd (verifyOtp env user id body st)) = users st /\
  trips (snd (verifyOtp env user id body st)) = trips st.
Proof. unfold verifyOtp; route_cases; split; reflexivity. Qed.

Lemma shareContact_frame env user id st :
  users (snd (shareContact env user id st)) = users st /\
  trips (snd (shareContact env user id st)) = trips st.
Proof. unfold shareContact; route_cases; split; reflexivity. Qed.

Lemma rateBooking_frame user id body st :
  trips (snd (rateBooking user id body st)) = trips st.
Proof.
  unfold rateBooking; route_cases; try reflexivity;
    cbn [set_bookings trips]; apply rateUserIn_trips.
Qed.

(** X14.  A request changes no trip but the trip of the booking it addresses
    (for a creation, the trip it names); the verify-otp, share-contact and
    rate routes change no trip at all; and no route but the rate route
    changes a user. *)
Theorem trips_and_users_frame (env : Env) (r : Request) (st : State) :
  let st' := snd (handle calculateRefund env r st) in
  (forall tid, tripOf r st <> Some tid -> trips st' !! tid = trips st !! tid) /\
  match r with
  | PostBooking _ _ | PatchPayment _ _ _ | PatchCancel _ _ _ =>
      users st' = users st
  | PostVerifyOtp _ _ _ | PostShareContact _ _ =>
      users st' = users st /\ trips st' = trips st
  | PostRate _ _ _ => trips st' = trips st
  end.
Proof.
  destruct r as [user body | user i body | user i body
                 | user i body | user i | user i body];
    cbn [tripOf addressed handle].
  - unfold createBooking, Booking.generateOTP. split.
    + intros tid Hne. route_cases; try reflexivity.
      cbn [set_bookings set_trips trips Create.sanitize Create.tripId].
      now rewrite lookup_insert_ne by congruence.
    + route_cases; reflexivity.
  - unfold updatePayment. split.
    + intros tid Hne. route_cases; try reflexivity.
      cbn [set_bookings set_trips trips Booking.trip Booking.with_bookingStatus
           Booking.with_paymentStatus] in *.
      rewrite lookup_insert_ne; [reflexivity |].
      intros <-. apply Hne.
      first [reflexivity
            | match goal with H : bookings _ !! _ = Some _ |- _ => now rewrite H end].
    + route_cases; reflexivity.
  - unfold cancelBooking. split.
    + intros tid Hne. route_cases; try reflexivity.
      cbn [set_bookings set_trips trips Booking.trip Booking.with_bookingStatus
           Booking.with_cancellation] in *.
      rewrite lookup_insert_ne; [reflexivity |].
      intros <-. apply Hne.
      first [reflexivity
            | match goal with H : bookings _ !! _ = Some _ |- _ => now rewrite H end].
    + route_cases; reflexivity.
  - destruct (verifyOtp_frame env user i body st) as [Hu Ht].
    split; [| split; assumption]. intros tid _. now rewrite Ht.
  - destruct (shareContact_frame env user i st) as [Hu Ht].
    split; [| split; assumption]. intros tid _. now rewrite Ht.
  - pose proof (rateBooking_frame user i body st) as Ht.
    split; [| assumption]. intros tid _. now rewrite Ht.
Qed.

(** *** What the routes never rewrite *)

Lemma sameRequest_refl b : sameRequest b b.
Proof. now repeat split. Qed.

Lemma sameOffer_refl t : sameOffer t t.
Proof. now repeat split. Qed.

Lemma persists_refl st : persists st st.
Proof.
  split; intros; eexists; split; eauto using sameRequest_refl, sameOffer_refl.
Qed.

Lemma persists_trans st1 st2 st3 :
  persists st1 st2 -> persists st2 st3 -> persists st1 st3.
Proof.
  intros [Hb12 Ht12] [Hb23 Ht23]. split.
  - intros id b Hb. destruct (Hb12 _ _ Hb) as (b2 & Hb2 & H2).
    destruct (Hb23 _ _ Hb2) as (b3 & Hb3 & H3).
    exists b3. split; [exact Hb3 |]. unfold sameRequest in *.
    repeat split; intuition congruence.
  - intros k t Ht. destruct (Ht12 _ _ Ht) as (t2 & Ht2 & H2).
    destruct (Ht23 _ _ Ht2) as (t3 & Ht3 & H3).
    exists t3. split; [exact Ht3 |]. unfold sameOffer in *.
    repeat split; intuition congruence.
Qed.

Lemma persists_set_booking st0 st id b b' :
  persists st0 st -> bookings st !! id = Some b -> sameRequest b b' ->
  persists st0 (set_bookings (<[id := b']> (bookings st)) st).
Proof.
  intros Hk Hb Hsame. apply (persists_trans _ _ _ Hk).
  split; cbn [set_bookings bookings trips].
  - intros id' b0 Hb0. rewrite lookup_insert. case_decide.
    + subst id'. rewrite Hb in Hb0. injection Hb0 as <-. eauto.
    + eauto using sameRequest_refl.
  - intros k t Ht. eauto using sameOffer_refl.
Qed.

Lemma persists_new_booking st0 st id b' :
  persists st0 st -> bookings st !! id = None ->
  persists st0 (set_bookings (<[id := b']> (bookings st)) st).
Proof.
  intros Hk Hnone. apply (persists_trans _ _ _ Hk).
  split; cbn [set_bookings bookings trips].
  - intros id' b0 Hb0. rewrite lookup_insert_ne by congruence.
    eauto using sameRequest_refl.
  - intros k t Ht. eauto using sameOffer_refl.
Qed.

Lemma persists_set_trip st0 st k t t' :
  persists st0 st -> trips st !! k = Some t -> sameOffer t t' ->
  persists st0 (set_trips (<[k := t']> (trips st)) st).
Proof.
  intros Hk Ht Hd. apply (persists_trans _ _ _ Hk).
  split; cbn [set_trips bookings trips].
  - intros id b Hb. eauto using sameRequest_refl.
  - intros k' t0 Ht0. rewrite lookup_insert. case_decide.
    + subst k'. rewrite Ht in Ht0. injection Ht0 as <-. eauto.
    + eauto using sameOffer_refl.
Qed.

Lemma persists_rateUserIn st id rating : persists st (rateUserIn id rating st).
Proof.
  unfold rateUserIn. destruct (users st !! id); [| apply persists_refl].
  split; cbn [set_users bookings trips]; intros; eexists; split;
    eauto using sameRequest_refl, sameOffer_refl.
Qed.

Lemma handle_persists env r st :
  persists st (snd (handle calculateRefund env r st)).
Proof.
  destruct r as [user body | user id body | user id body
                 | user id body | user id | user id body]; cbn [handle].
  - unfold createBooking. repeat case_match; cbn [snd]; try apply persists_refl.
    unfold Booking.generateOTP in *. simplify_eq.
    eapply persists_set_booking;
      [eapply persists_set_trip;
         [apply persists_new_booking; [apply persists_refl | eassumption]
         | cbn [set_bookings trips]; eassumption | now repeat split]
      | cbn [set_trips set_bookings bookings]; apply lookup_insert_eq
      | now repeat split].
  - unfold updatePayment. repeat case_match; cbn [snd]; try apply persists_refl;
      simplify_eq;
      (eapply persists_set_booking;
       [first [apply persists_refl
              | eapply persists_set_trip;
                [apply persists_refl | eassumption | now repeat split]]
       | cbn [set_trips bookings]; eassumption
       | now repeat split]).
  - unfold cancelBooking, withTrip. repeat case_match; cbn [snd];
      try apply persists_refl; simplify_eq;
      first [eapply persists_set_trip;
             [| cbn [set_bookings trips]; eassumption | now repeat split]
            | idtac];
      (eapply persists_set_booking;
       [apply persists_refl | eassumption | now repeat split]).
  - unfold verifyOtp. repeat case_match; cbn [snd]; try apply persists_refl;
      simplify_eq;
      (eapply persists_set_booking;
       [apply persists_refl | eassumption | now repeat split]).
  - unfold shareContact. repeat case_match; cbn [snd]; try apply persists_refl;
      simplify_eq;
      (eapply persists_set_booking;
       [apply persists_refl | eassumption | now repeat split]).
  - destruct (rateBooking user id body st) as [resp st'] eqn:Hr. cbn [snd].
    destruct (Z.eq_dec (code resp) 200) as [Hok | Hno].
    + assert (code (fst (rateBooking user id body st)) = 200) as Hok'
        by now rewrite Hr.
      destruct (rateBooking_accepted_inv _ _ _ _ Hok')
        as (b & t & He & Hb & _ & _ & _ & _ & Hst).
      rewrite Hr in Hst. cbn [snd] in Hst. subst st'.
      apply persists_set_booking with (b := b);
        [apply persists_rateUserIn | now rewrite rateUserIn_bookings
        | now repeat split].
    + assert (st' = st) as ->; [| apply persists_refl].
      revert Hr. unfold rateBooking. repeat case_match; intros [= <- <-];
        try reflexivity; cbn [code] in Hno; congruence.
Qed.

Lemma run_persists l st : persists st (snd (run calculateRefund l st)).
Proof.
  revert st. induction l as [| [env r] l IH]; intros st; [apply persists_refl |].
  cbn [run]. pose proof (handle_persists env r st) as Hk.
  destruct (handle calculateRefund env r st) as [resp st'].
  specialize (IH st'). destruct (run calculateRefund l st') as [resps st''].
  cbn [snd] in *. eapply persists_trans; eassumption.
Qed.

(** X15.  Whatever requests the service handles, a booking is never deleted
    and keeps what it was created with: its trip, its passenger, its number
    of seats, its total amount (never recomputed), its pickup and drop
    points, its payment method, its passenger details and its special
    requests. *)
Theorem bookings_keep_their_request (l : list (Env * Request)) (st : State)
    (id : string) (b : Booking.t) :
  bookings st !! id = Some b ->
  exists b', bookings (snd (run calculateRefund l st)) !! id = Some b' /\
    Booking.trip b' = Booking.trip b /\
    Booking.passenger b' = Booking.passenger b /\
    Booking.seatsBooked b' = Booking.seatsBooked b /\
    Booking.totalAmount b' = Booking.totalAmount b /\
    Booking.pickupPoint b' = Booking.pickupPoint b /\
    Booking.dropPoint b' = Booking.dropPoint b /\
    Booking.paymentMethod b' = Booking.paymentMethod b /\
    Booking.passengerDetails b' = Booking.passengerDetails b /\
    Booking.specialRequests b' = Booking.specialRequests b.
Proof. intros Hb. exact (proj1 (run_persists l st) id b Hb). Qed.

(** X16.  Whatever requests the service handles, a trip is never deleted and
    keeps its status, its driver, its price per seat and its number of
    seats: the booking routes only move [bookedSeats], [totalEarnings] and
    the roster. *)
Theorem trips_keep_their_offer (l : list (Env * Request)) (st : State)
    (tid : string) (t : Trip.t) :
  trips st !! tid = Some t ->
  exists t', trips (snd (run calculateRefund l st)) !! tid = Some t' /\
    Trip.status t' = Trip.status t /\
    Trip.driver t' = Trip.driver t /\
    Trip.pricePerSeat t' = Trip.pricePerSeat t /\
    Trip.totalSeats t' = Trip.totalSeats t.
Proof. intros Ht. exact (proj2 (run_persists l st) tid t Ht). Qed.

(** X17.  Every booking refers to a trip of the store, and no sequence of
    requests breaks this: a creation needs its trip, and no route removes a
    trip or moves a booking to another one. *)
Theorem run_linked (l : list (Env * Request)) (st : State) :
  linked st -> linked (snd (run calculateRefund l st)).
Proof.
  revert st. induction l as [| [env r] l IH]; intros st Hl; [exact Hl |].
  cbn [run]. pose proof (handle_linked calculateRefund env r st Hl) as Hl'.
  destruct (handle calculateRefund env r st) as [resp st'].
  specialize (IH st' Hl'). now destruct (run calculateRefund l st').
Qed.

(** *** Seats of a booking and capacity of a trip *)

Lemma validated_seats body :
  Create.errors body = [] -> 1 <= Create.seatsBooked body <= 7.
Proof.
  unfold Create.errors. intros He.
  apply app_eq_nil in He as [_ He]. apply app_eq_nil in He as [He _].
  apply check_nil, andb_true_iff in He as [Hlo Hhi].
  apply Z.leb_le in Hlo, Hhi. lia.
Qed.

Lemma seated_set_booking st id b b' :
  seated st -> bookings st !! id = Some b ->
  Booking.seatsBooked b' = Booking.seatsBooked b ->
  Booking.passengerDetails b' = Booking.passengerDetails b ->
  seated (set_bookings (<[id := b']> (bookings st)) st).
Proof.
  intros Hs Hb Hseats Hdet id' b0. cbn [set_bookings bookings].
  rewrite lookup_insert. case_decide; [| apply Hs].
  intros [= <-]. rewrite Hseats, Hdet. exact (Hs _ _ Hb).
Qed.

Lemma seated_new_booking st id b :
  seated st ->
  1 <= Booking.seatsBooked b <= 7 ->
  Z.of_nat (length (Booking.passengerDetails b)) = Booking.seatsBooked b ->
  seated (set_bookings (<[id := b]> (bookings st)) st).
Proof.
  intros Hs Hseats Hdet id' b0. cbn [set_bookings bookings].
  rewrite lookup_insert. case_decide; [| apply Hs].
  intros [= <-]. now split.
Qed.

Lemma handle_seated env r st :
  seated st -> seated (snd (handle calculateRefund env r st)).
Proof.
  intros Hs.
  destruct r as [user body | user id body | user id body
                 | user id body | user id | user id body]; cbn [handle].
  - unfold createBooking. repeat case_match; cbn [snd]; try assumption.
    unfold Booking.generateOTP in *. simplify_eq.
    match goal with H : Create.errors _ = [] |- _ =>
      pose proof (validated_seats _ H) as Hseats end.
    match goal with H : negb (Z.of_nat _ =? _) = false |- _ =>
      apply negb_false_iff, Z.eqb_eq in H; rename H into Hlen end.
    apply seated_new_booking; [apply seated_new_booking |..]; try assumption;
      cbn [Booking.seatsBooked Booking.passengerDetails Booking.with_otp newBooking
           Create.sanitize Create.seatsBooked Create.passengerDetails] in *;
      assumption.
  - unfold updatePayment. repeat case_match; cbn [snd]; try assumption;
      simplify_eq;
      (eapply seated_set_booking; [exact Hs | eassumption | reflexivity | reflexivity]).
  - unfold cancelBooking. repeat case_match; cbn [snd]; try assumption;
      simplify_eq;
      (eapply seated_set_booking; [exact Hs | eassumption | reflexivity | reflexivity]).
  - unfold verifyOtp. repeat case_match; cbn [snd]; try assumption;
      simplify_eq;
      (eapply seated_set_booking; [exact Hs | eassumption | reflexivity | reflexivity]).
  - unfold shareContact. repeat case_match; cbn [snd]; try assumption;
      simplify_eq;
      (eapply seated_set_booking; [exact Hs | eassumption | reflexivity | reflexivity]).
  - unfold rateBooking. repeat case_match; cbn [snd]; try assumption;
      simplify_eq;
      (eapply (seated_set_booking (rateUserIn _ _ st));
       [intros i b0; rewrite rateUserIn_bookings; apply Hs
       | rewrite rateUserIn_bookings; eassumption | reflexivity | reflexivity]).
Qed.

(** X18.  Every booking that the service creates has between 1 and 7 seats
    and exactly one passenger detail a seat, and no later request changes
    that: a store where this holds of every booking stays so under any
    sequence of requests. *)
Theorem run_seated (l : list (Env * Request)) (st : State) :
  seated st -> seated (snd (run calculateRefund l st)).
Proof.
  revert st. induction l as [| [env r] l IH]; intros st Hs; [exact Hs |].
  cbn [run]. pose proof (handle_seated env r st Hs) as Hs'.
  destruct (handle calculateRefund env r st) as [resp st'].
  specialize (IH st' Hs'). now destruct (run calculateRefund l st').
Qed.

Lemma hasSeats_set_booking st id b b' :
  hasSeats st -> bookings st !! id = Some b ->
  Booking.seatsBooked b' = Booking.seatsBooked b ->
  hasSeats (set_bookings (<[id := b']> (bookings st)) st).
Proof.
  intros Hs Hb Hseats id' b0. cbn [set_bookings bookings].
  rewrite lookup_insert. case_decide; [| apply Hs].
  intros [= <-]. rewrite Hseats. exact (Hs _ _ Hb).
Qed.

Lemma hasSeats_new_booking st id b :
  hasSeats st -> 1 <= Booking.seatsBooked b ->
  hasSeats (set_bookings (<[id := b]> (bookings st)) st).
Proof.
  intros Hs Hseats id' b0. cbn [set_bookings bookings].
  rewrite lookup_insert. case_decide; [| apply Hs].
  now intros [= <-].
Qed.

Lemma handle_hasSeats env r st :
  hasSeats st -> hasSeats (snd (handle calculateRefund env r st)).
Proof.
  intros Hs.
  destruct r as [user body | user id body | user id body
                 | user id body | user id | user id body]; cbn [handle].
  - unfold createBooking. repeat case_match; cbn [snd]; try assumption.
    unfold Booking.generateOTP in *. simplify_eq.
    match goal with H : Create.errors _ = [] |- _ =>
      pose proof (validated_seats _ H) as Hseats end.
    apply hasSeats_new_booking; [apply hasSeats_new_booking |]; try assumption;
      cbn [Booking.seatsBooked Booking.with_otp newBooking
           Create.sanitize Create.seatsBooked] in *; lia.
  - unfold updatePayment. repeat case_match; cbn [snd]; try assumption;
      simplify_eq;
      (eapply hasSeats_set_booking; [exact Hs | eassumption | reflexivity]).
  - unfold cancelBooking. repeat case_match; cbn [snd]; try assumption;
      simplify_eq;
      (eapply hasSeats_set_booking; [exact Hs | eassumption | reflexivity]).
  - unfold verifyOtp. repeat case_match; cbn [snd]; try assumption;
      simplify_eq;
      (eapply hasSeats_set_booking; [exact Hs | eassumption | reflexivity]).
  - unfold shareContact. repeat case_match; cbn [snd]; try assumption;
      simplify_eq;
      (eapply hasSeats_set_booking; [exact Hs | eassumption | reflexivity]).
  - unfold rateBooking. repeat case_match; cbn [snd]; try assumption;
      simplify_eq;
      (eapply (hasSeats_set_booking (rateUserIn _ _ st));
       [intros i b0; rewrite rateUserIn_bookings; apply Hs
       | rewrite rateUserIn_bookings; eassumption | reflexivity]).
Qed.

Lemma handle_withinCapacity env r st :
  hasSeats st -> withinCapacity st ->
  withinCapacity (snd (handle calculateRefund env r st)).
Proof.
  intros Hs Hc.
  assert (forall k t' st', trips st' = <[k := t']> (trips st) ->
            Trip.bookedSeats t' <= Trip.totalSeats t' -> withinCapacity st') as Hset.
  { intros k t' st' Heq Hle tid t0. rewrite Heq, lookup_insert.
    case_decide; [now intros [= <-] | apply Hc]. }
  assert (forall st', trips st' = trips st -> withinCapacity st') as Hsame.
  { intros st' Heq tid t0. rewrite Heq. apply Hc. }
  destruct r as [user body | user id body | user id body
                 | user id body | user id | user id body]; cbn [handle].
  - unfold createBooking. repeat case_match; cbn [snd]; try assumption.
    unfold Booking.generateOTP in *. simplify_eq.
    match goal with H : negb (Trip.hasAvailableSeats _ _) = false |- _ =>
      apply negb_false_iff, Z.leb_le in H; rename H into Hroom end.
    eapply Hset; [reflexivity |].
    cbn [takeSeats Trip.bookedSeats Trip.totalSeats]. lia.
  - unfold updatePayment. repeat case_match; cbn [snd]; try assumption;
      simplify_eq; try (apply Hsame; reflexivity).
    eapply Hset; [reflexivity |].
    cbn [releaseSeats Trip.bookedSeats Trip.totalSeats Booking.seatsBooked
         Booking.with_bookingStatus Booking.with_paymentStatus].
    match goal with
    | Hb : bookings st !! _ = Some ?b, Ht : trips st !! _ = Some ?t |- _ =>
        pose proof (Hs _ _ Hb); pose proof (Hc _ _ Ht)
    end. lia.
  - unfold cancelBooking, withTrip. repeat case_match; cbn [snd]; try assumption;
      simplify_eq; try (apply Hsame; reflexivity).
    eapply Hset; [reflexivity |].
    cbn [releaseSeats Trip.bookedSeats Trip.totalSeats Booking.seatsBooked
         Booking.with_bookingStatus Booking.with_cancellation].
    match goal with
    | Hb : bookings st !! _ = Some ?b, Ht : trips _ !! _ = Some ?t |- _ =>
        pose proof (Hs _ _ Hb); pose proof (Hc _ _ Ht)
    end. lia.
  - apply Hsame, verifyOtp_frame.
  - apply Hsame, shareContact_frame.
  - apply Hsame, rateBooking_frame.
Qed.

(** X19.  The seat counter of a trip stays within its capacity: in a store
    where every booking has at least one seat and every trip has
    [bookedSeats <= totalSeats], every trip still has
    [bookedSeats <= totalSeats] after any sequence of requests.  (The seat
    check of the create route, [trip.hasAvailableSeats], is modelled from the
    spec.)  The statement bounds the counter, and not the seats that the live
    bookings hold: see [paidAfterFailed_overbooks] below. *)
Theorem run_within_capacity (l : list (Env * Request)) (st : State) :
  hasSeats st -> withinCapacity st ->
  withinCapacity (snd (run calculateRefund l st)).
Proof.
  revert st. induction l as [| [env r] l IH]; intros st Hs Hc; [exact Hc |].
  cbn [run]. pose proof (handle_hasSeats env r st Hs) as Hs'.
  pose proof (handle_withinCapacity env r st Hs Hc) as Hc'.
  destruct (handle calculateRefund env r st) as [resp st'].
  specialize (IH st' Hs' Hc'). now destruct (run calculateRefund l st').
Qed.

(** The counter can be within the capacity while the trip is over-booked.  A
    payment reported as failed releases the seats of the booking; reported
    as paid afterwards, the booking is confirmed again and its seats are not
    taken back.  On the sample store the three requests are answered 200, 200
    and 201, the trip of 4 seats then has [bookedSeats = 4], and its live
    bookings hold 6 seats. *)
Example paidAfterFailed_overbooks :
  let r := run calculateRefund paidAfterFailed Sample.booked in
  code <$> fst r = [200; 200; 201] /\
  Trip.bookedSeats <$> trips (snd r) !! Sample.tripId = Some 4 /\
  Trip.totalSeats <$> trips (snd r) !! Sample.tripId = Some 4 /\
  seatsHeld Sample.tripId (snd r) = 6.
Proof. vm_compute. repeat split. Qed.

(** *** Seat counters and live bookings *)

Lemma heldBy_sum_filter tid (l : list Booking.t) :
  fold_right Z.add 0
    (Booking.seatsBooked <$>
       List.filter (fun b => String.eqb (Booking.trip b) tid && live b) l)
  = fold_right Z.add 0 (heldBy tid <$> l).
Proof.
  induction l as [| b l IH]; [reflexivity |].
  cbn [List.filter fmap list_fmap fold_right]. unfold heldBy at 1.
  destruct (String.eqb (Booking.trip b) tid && live b);
    cbn [fmap list_fmap fold_right]; rewrite IH; reflexivity.
Qed.

Lemma seatsHeld_heldIn tid st : seatsHeld tid st = heldIn tid (bookings st).
Proof. apply heldBy_sum_filter. Qed.

Lemma heldBy_sum_perm tid (l l' : list Booking.t) :
  l ≡ₚ l' ->
  fold_right Z.add 0 (heldBy tid <$> l) = fold_right Z.add 0 (heldBy tid <$> l').
Proof.
  induction 1; cbn [fmap list_fmap fold_right] in *; lia.
Qed.

Lemma heldIn_insert_None tid (m : gmap string Booking.t) id b :
  m !! id = None -> heldIn tid (<[id := b]> m) = heldBy tid b + heldIn tid m.
Proof.
  intros Hnone. unfold heldIn.
  rewrite (heldBy_sum_perm tid _ (snd <$> ((id, b) :: map_to_list m))).
  - reflexivity.
  - apply fmap_Permutation, map_to_list_insert, Hnone.
Qed.

Lemma heldIn_insert_Some tid (m : gmap string Booking.t) id b b' :
  m !! id = Some b ->
  heldIn tid (<[id := b']> m) = heldIn tid m - heldBy tid b + heldBy tid b'.
Proof.
  intros Hb. rewrite <- (insert_delete_eq m id b').
  rewrite heldIn_insert_None by apply lookup_delete_eq.
  rewrite <- (insert_delete_id m id b Hb) at 2.
  rewrite heldIn_insert_None by apply lookup_delete_eq. lia.
Qed.

Lemma heldBy_live b : live b = true -> heldBy (Booking.trip b) b = Booking.seatsBooked b.
Proof. intros Hl. unfold heldBy. now rewrite String.eqb_refl, Hl. Qed.

Lemma heldBy_other tid b : Booking.trip b <> tid -> heldBy tid b = 0.
Proof. intros Hne. unfold heldBy. apply String.eqb_neq in Hne. now rewrite Hne. Qed.

Lemma heldBy_dead tid b : live b = false -> heldBy tid b = 0.
Proof. intros Hl. unfold heldBy. rewrite Hl. now destruct (String.eqb _ _). Qed.

Lemma heldBy_same tid b b' :
  Booking.trip b' = Booking.trip b ->
  Booking.seatsBooked b' = Booking.seatsBooked b ->
  live b' = live b ->
  heldBy tid b' = heldBy tid b.
Proof. intros Ht Hs Hl. unfold heldBy. now rewrite Ht, Hs, Hl. Qed.

(** A booking rewritten in place, with the seat counters moved by the
    difference of what it holds. *)
Lemma mirrored_swap st st' id b b' :
  seatsMirrored st ->
  bookings st !! id = Some b ->
  bookings st' = <[id := b']> (bookings st) ->
  (forall tid t', trips st' !! tid = Some t' ->
     exists t, trips st !! tid = Some t /\
       Trip.bookedSeats t' = Trip.bookedSeats t - heldBy tid b + heldBy tid b') ->
  seatsMirrored st'.
Proof.
  intros Hm Hb Hbs Hts tid t' Ht'. destruct (Hts _ _ Ht') as (t & Ht & ->).
  rewrite (Hm _ _ Ht), !seatsHeld_heldIn, Hbs.
  now rewrite (heldIn_insert_Some tid _ id b b' Hb).
Qed.

(** A booking added, with the seat counters raised by what it holds. *)
Lemma mirrored_add st st' id b' :
  seatsMirrored st ->
  bookings st !! id = None ->
  bookings st' = <[id := b']> (bookings st) ->
  (forall tid t', trips st' !! tid = Some t' ->
     exists t, trips st !! tid = Some t /\
       Trip.bookedSeats t' = Trip.bookedSeats t + heldBy tid b') ->
  seatsMirrored st'.
Proof.
  intros Hm Hb Hbs Hts tid t' Ht'. destruct (Hts _ _ Ht') as (t & Ht & ->).
  rewrite (Hm _ _ Ht), !seatsHeld_heldIn, Hbs.
  rewrite (heldIn_insert_None tid _ id b' Hb). lia.
Qed.

(** The booking is rewritten and holds what it held; the trips are as they
    were. *)
Lemma mirrored_quiet st st' id b b' :
  seatsMirrored st ->
  bookings st !! id = Some b ->
  bookings st' = <[id := b']> (bookings st) ->
  trips st' = trips st ->
  Booking.trip b' = Booking.trip b ->
  Booking.seatsBooked b' = Booking.seatsBooked b ->
  live b' = live b ->
  seatsMirrored st'.
Proof.
  intros Hm Hb Hbs Hts Htrip Hseats Hlive.
  apply (mirrored_swap st st' id b b' Hm Hb Hbs).
  intros tid t' Ht'. rewrite Hts in Ht'. exists t'. split; [exact Ht' |].
  rewrite (heldBy_same tid b b' Htrip Hseats Hlive). lia.
Qed.

(** A live booking is reversed and its seats go back to its trip, when the
    trip is in the store. *)
Lemma mirrored_release st st' id user b b' t :
  seatsMirrored st ->
  bookings st !! id = Some b ->
  bookings st' = <[id := b']> (bookings st) ->
  live b = true ->
  live b' = false ->
  Booking.seatsBooked b' = Booking.seatsBooked b ->
  trips st !! Booking.trip b = Some t ->
  trips st' = <[Booking.trip b := releaseSeats user b' t]> (trips st) ->
  seatsMirrored st'.
Proof.
  intros Hm Hb Hbs Hlive Hdead Hseats Ht Hts.
  apply (mirrored_swap st st' id b b' Hm Hb Hbs).
  intros tid t' Ht'. rewrite Hts, lookup_insert in Ht'.
  rewrite (heldBy_dead tid b' Hdead). case_decide.
  - subst tid. injection Ht' as <-. exists t. split; [exact Ht |].
    rewrite (heldBy_live b Hlive). cbn [releaseSeats Trip.bookedSeats]. lia.
  - exists t'. split; [exact Ht' |]. rewrite (heldBy_other tid b) by assumption. lia.
Qed.

(** A live booking is reversed and its trip is not in the store. *)
Lemma mirrored_orphan st st' id b b' :
  seatsMirrored st ->
  bookings st !! id = Some b ->
  bookings st' = <[id := b']> (bookings st) ->
  live b' = false ->
  trips st !! Booking.trip b = None ->
  trips st' = trips st ->
  seatsMirrored st'.
Proof.
  intros Hm Hb Hbs Hdead Ht Hts.
  apply (mirrored_swap st st' id b b' Hm Hb Hbs).
  intros tid t' Ht'. rewrite Hts in Ht'. exists t'. split; [exact Ht' |].
  rewrite (heldBy_dead tid b' Hdead), (heldBy_other tid b); [lia |].
  intros <-. congruence.
Qed.

Lemma live_statuses b :
  live b = true ->
  String.eqb (Booking.bookingStatus b) "cancelled" = false /\
  String.eqb (Booking.paymentStatus b) "failed" = false.
Proof.
  unfold live. intros Hl. apply andb_true_iff in Hl as [H1 H2].
  now apply negb_true_iff in H1, H2.
Qed.

(** X20.  The seat counter of every trip stays equal to the seats its live
    bookings hold under every request that is a creation or is addressed to a
    live booking (neither cancelled nor with a failed payment), whatever its
    outcome: only a request on a booking that is already reversed can break
    the mirroring. *)
Theorem live_requests_keep_seats_mirrored (env : Env) (r : Request) (st : State) :
  seatsMirrored st ->
  (forall id b, addressed r = Some id -> bookings st !! id = Some b -> live b = true) ->
  seatsMirrored (snd (handle calculateRefund env r st)).
Proof.
  intros Hm Hlive.
  destruct r as [user body | user id body | user id body
                 | user id body | user id | user id body];
    cbn [handle addressed] in *.
  - destruct (createBooking env user body st) as [resp st'] eqn:Hr. cbn [snd].
    destruct (Z.eq_dec (code resp) 201) as [Hok | Hno].
    + assert (code (fst (createBooking env user body st)) = 201) as Hok'
        by now rewrite Hr.
      destruct (createBooking_created_inv _ _ _ _ Hok')
        as (t & _ & Ht & _ & _ & _ & _ & Hfresh & Heq).
      cbv zeta in Heq. rewrite Hr in Heq. injection Heq as _ ->.
      eapply mirrored_add; [exact Hm | exact Hfresh | reflexivity |].
      cbn [trips]. intros tid t' Ht'. rewrite lookup_insert in Ht'. case_decide.
      * subst tid. injection Ht' as <-. exists t. split; [exact Ht |].
        unfold heldBy, live.
        cbn [takeSeats Trip.bookedSeats Booking.with_otp newBooking Booking.trip
             Booking.bookingStatus Booking.paymentStatus Booking.seatsBooked
             Create.sanitize Create.tripId Create.seatsBooked].
        now rewrite String.eqb_refl.
      * exists t'. split; [exact Ht' |]. rewrite heldBy_other; [lia |].
        cbn [Booking.with_otp newBooking Booking.trip Create.sanitize Create.tripId].
        assumption.
    + assert (st' = st) as ->; [| exact Hm].
      revert Hr. unfold createBooking, Booking.generateOTP.
      repeat case_match; intros [= <- <-]; try reflexivity;
        cbn [code] in Hno; congruence.
  - unfold updatePayment. repeat case_match; cbn [snd]; try exact Hm; simplify_eq;
      match goal with Hb : bookings _ !! id = Some ?b |- _ =>
        pose proof (Hlive id b eq_refl Hb) as Hl;
        destruct (live_statuses b Hl) as [Hs Hp]
      end.
    + (* paid with a transaction id *)
      eapply mirrored_quiet; [exact Hm | eassumption | reflexivity | reflexivity
                              | reflexivity | reflexivity |].
      match goal with H : _ && _ = true |- _ => apply andb_true_iff in H as [H _];
        apply String.eqb_eq in H end.
      unfold live.
      cbn [Booking.bookingStatus Booking.paymentStatus Booking.with_bookingStatus
           Booking.with_transactionId Booking.with_paymentStatus].
      match goal with H : Payment.paymentStatus _ = "paid" |- _ => rewrite H end.
      now rewrite Hs, Hp.
    + (* failed, the trip is in the store *)
      eapply mirrored_release;
        [exact Hm | eassumption | reflexivity | exact Hl | reflexivity
        | reflexivity | eassumption | reflexivity].
    + (* failed, no trip *)
      eapply mirrored_orphan;
        [exact Hm | eassumption | reflexivity | reflexivity | eassumption
        | reflexivity].
    + (* neither *)
      eapply mirrored_quiet; [exact Hm | eassumption | reflexivity | reflexivity
                              | reflexivity | reflexivity |].
      unfold live.
      cbn [Booking.bookingStatus Booking.paymentStatus Booking.with_paymentStatus].
      match goal with
      | H : String.eqb (Payment.paymentStatus _) "failed" = false |- _ => rewrite H
      end.
      now rewrite Hs, Hp.
  - unfold cancelBooking, withTrip.
    repeat case_match; cbn [snd tripDoc] in *; try exact Hm; simplify_eq;
      match goal with Hb : bookings _ !! id = Some ?b |- _ =>
        pose proof (Hlive id b eq_refl Hb) as Hl
      end;
      cbn [set_bookings trips Booking.trip Booking.with_cancellation
           Booking.with_bookingStatus] in *.
    + eapply mirrored_release;
        [exact Hm | eassumption | reflexivity | exact Hl | reflexivity
        | reflexivity | eassumption | reflexivity].
    + congruence.
    + eapply mirrored_orphan;
        [exact Hm | eassumption | reflexivity | reflexivity | eassumption
        | reflexivity].
  - unfold verifyOtp.
    repeat case_match; cbn [snd] in *; try exact Hm; simplify_eq;
      match goal with Hb : bookings _ !! id = Some ?b |- _ =>
        pose proof (Hlive id b eq_refl Hb) as Hl;
        destruct (live_statuses b Hl) as [Hs Hp]
      end;
      (eapply mirrored_quiet;
       [exact Hm | eassumption | reflexivity | reflexivity | reflexivity
       | reflexivity |]);
      rewrite Hl; unfold live;
      cbn [Booking.bookingStatus Booking.paymentStatus Booking.with_bookingStatus
           Booking.with_otp];
      now rewrite Hp.
  - unfold shareContact.
    repeat case_match; cbn [snd] in *; try exact Hm; simplify_eq;
      (eapply mirrored_quiet;
       [exact Hm | eassumption | reflexivity | reflexivity | reflexivity
       | reflexivity | reflexivity]).
  - unfold rateBooking.
    repeat case_match; cbn [snd] in *; try exact Hm; simplify_eq;
      (eapply mirrored_quiet;
       [exact Hm | eassumption
       | cbn [set_bookings bookings]; now rewrite rateUserIn_bookings
       | cbn [set_bookings trips]; apply rateUserIn_trips
       | reflexivity | reflexivity | reflexivity]).
Qed.

(** *** A creation undone *)

(** X21.  Cancelling a booking right after its creation (or at any later
    time, with no request in between) gives the seats back: the cancellation
    is answered 200, the trip has the [bookedSeats] it had before the
    creation, and its roster is the former one without the entries of the
    passenger, the new entry included. *)
Theorem createBooking_then_cancel (env env' : Env) (user : string)
    (body : Create.Body) (reason : Cancel.Body) (st : State) (t : Trip.t) :
  trips st !! Create.tripId body = Some t ->
  code (fst (createBooking env user body st)) = 201 ->
  let st1 := snd (createBooking env user body st) in
  let r := cancelBooking calculateRefund env' user (freshId env) reason st1 in
  code (fst r) = 200 /\
  exists t', trips (snd r) !! Create.tripId body = Some t' /\
    Trip.bookedSeats t' = Trip.bookedSeats t /\
    Trip.passengers t' =
      List.filter (fun p => negb (String.eqb (Roster.user p) user))
        (Trip.passengers t).
Proof.
  intros Ht Hok st1 r. subst st1 r.
  destruct (createBooking_created_inv _ _ _ _ Hok)
    as (t0 & _ & Ht0 & _ & _ & _ & _ & _ & Heq).
  rewrite Ht in Ht0. injection Ht0 as <-. cbv zeta in Heq. rewrite Heq. cbn [snd].
  match goal with
  | |- context [cancelBooking _ _ _ _ _ ?s] =>
      match s with
      | {| bookings := <[_ := ?b]> _; trips := <[_ := ?t1]> _ |} =>
          rewrite (cancelBooking_accepted calculateRefund env' user (freshId env)
                     reason s b t1)
      end
  end.
  - cbn [fst snd code trips Booking.trip Booking.with_otp newBooking
         Create.sanitize Create.tripId].
    split; [reflexivity |]. eexists. rewrite insert_insert_eq, lookup_insert_eq.
    split; [reflexivity |].
    cbn [releaseSeats takeSeats Trip.bookedSeats Trip.passengers cancelledBooking
         Booking.seatsBooked Booking.with_cancellation Booking.with_bookingStatus
         Booking.with_otp newBooking Create.sanitize Create.seatsBooked].
    split; [lia |].
    rewrite List.filter_app. cbn [List.filter Roster.user].
    rewrite String.eqb_refl. cbn [negb]. apply app_nil_r.
  - cbn [bookings]. apply lookup_insert_eq.
  - reflexivity.
  - discriminate.
  - cbn [trips Booking.trip Booking.with_otp newBooking Create.sanitize Create.tripId].
    apply lookup_insert_eq.
Qed.

(** *** Responses and the store *)

(** X26.  When a response carries a booking, it is the booking as the store
    now holds it, under the id the request addressed (under the new id for a
    creation); an answer 200 or 201 of these routes always carries one,
    except for share-contact. *)
Theorem response_shows_stored_booking (env : Env) (r : Request) (st : State)
    (b : Booking.t) :
  shown (fst (handle calculateRefund env r st)) = Some b ->
  bookings (snd (handle calculateRefund env r st))
    !! default (freshId env) (addressed r) = Some b.
Proof.
  destruct r as [user rb | user id rb | user id rb
                 | user id rb | user id | user id rb];
    cbn [handle addressed default from_option].
  - unfold createBooking, Booking.generateOTP, shown.
    repeat case_match; cbn [fst snd body reply invalid serverError] in *;
      try discriminate; simplify_eq.
    cbn [set_bookings set_trips bookings] in *.
    rewrite lookup_insert_eq in *. cbn [fmap option_fmap option_map populate doc].
    intros [= <-]. apply lookup_insert_eq.
  - unfold updatePayment, shown.
    repeat case_match; cbn [fst snd body reply invalid serverError] in *;
      try discriminate; simplify_eq;
      cbn [set_bookings bookings plain doc]; intros [= <-]; apply lookup_insert_eq.
  - unfold cancelBooking, shown.
    repeat case_match; cbn [fst snd body reply invalid serverError] in *;
      try discriminate; simplify_eq;
      cbn [set_bookings set_trips bookings doc]; intros [= <-]; apply lookup_insert_eq.
  - unfold verifyOtp, shown.
    repeat case_match; cbn [fst snd body reply invalid serverError] in *;
      try discriminate; simplify_eq;
      cbn [set_bookings bookings plain doc]; intros [= <-]; apply lookup_insert_eq.
  - unfold shareContact, shown.
    repeat case_match; cbn [fst snd body reply invalid serverError] in *;
      discriminate.
  - unfold rateBooking, shown.
    repeat case_match; cbn [fst snd body reply invalid serverError] in *;
      try discriminate; simplify_eq;
      cbn [set_bookings bookings withTrip doc]; intros [= <-]; apply lookup_insert_eq.
Qed.

(** *** Nobody books, or rates, their own trip *)

Lemma notOwn_set_booking st id b b' :
  notOwn st -> bookings st !! id = Some b ->
  Booking.trip b' = Booking.trip b ->
  Booking.passenger b' = Booking.passenger b ->
  notOwn (set_bookings (<[id := b']> (bookings st)) st).
Proof.
  intros Hn Hb Htrip Hpass id' b0 t. cbn [set_bookings bookings trips].
  rewrite lookup_insert. case_decide; [| apply Hn].
  intros [= <-]. rewrite Htrip, Hpass. exact (Hn _ _ _ Hb).
Qed.

Lemma notOwn_new_booking st id b :
  notOwn st ->
  (forall t, trips st !! Booking.trip b = Some t -> Booking.passenger b <> Trip.driver t) ->
  notOwn (set_bookings (<[id := b]> (bookings st)) st).
Proof.
  intros Hn Hb id' b0 t. cbn [set_bookings bookings trips].
  rewrite lookup_insert. case_decide; [| apply Hn].
  intros [= <-]. apply Hb.
Qed.

Lemma notOwn_set_trip st k t t' :
  notOwn st -> trips st !! k = Some t -> Trip.driver t' = Trip.driver t ->
  notOwn (set_trips (<[k := t']> (trips st)) st).
Proof.
  intros Hn Ht Hd id b t0 Hb. cbn [set_trips bookings trips] in *.
  rewrite lookup_insert. case_decide.
  - intros [= <-]. rewrite Hd. subst k. exact (Hn _ _ _ Hb Ht).
  - apply (Hn _ _ _ Hb).
Qed.

Lemma notOwn_rateUserIn st id rating : notOwn st -> notOwn (rateUserIn id rating st).
Proof. unfold rateUserIn. now destruct (users st !! id). Qed.

Lemma handle_notOwn env r st :
  notOwn st -> notOwn (snd (handle calculateRefund env r st)).
Proof.
  intros Hn.
  destruct r as [user body | user id body | user id body
                 | user id body | user id | user id body]; cbn [handle].
  - unfold createBooking. repeat case_match; cbn [snd]; try assumption.
    unfold Booking.generateOTP in *. simplify_eq.
    match goal with H : String.eqb (Trip.driver _) _ = false |- _ =>
      apply String.eqb_neq in H; rename H into Hd end.
    eapply notOwn_set_booking;
      [eapply notOwn_set_trip;
         [apply notOwn_new_booking; [exact Hn |]
         | cbn [set_bookings trips]; eassumption | reflexivity]
      | cbn [set_trips set_bookings bookings]; apply lookup_insert_eq
      | reflexivity | reflexivity].
    match goal with H : trips st !! _ = Some _ |- _ => rename H into Htrip end.
    cbn [newBooking Booking.trip Booking.passenger]. intros t0 Ht0.
    rewrite Htrip in Ht0. injection Ht0 as <-. congruence.
  - unfold updatePayment. repeat case_match; cbn [snd]; try assumption;
      simplify_eq;
      (eapply notOwn_set_booking;
       [first [exact Hn
              | eapply notOwn_set_trip; [exact Hn | eassumption | reflexivity]]
       | cbn [set_trips bookings]; eassumption
       | reflexivity | reflexivity]).
  - unfold cancelBooking, withTrip. repeat case_match; cbn [snd]; try assumption;
      simplify_eq;
      first [eapply notOwn_set_trip;
             [| cbn [set_bookings trips]; eassumption | reflexivity]
            | idtac];
      (eapply notOwn_set_booking; [exact Hn | eassumption | reflexivity | reflexivity]).
  - unfold verifyOtp. repeat case_match; cbn [snd]; try assumption;
      simplify_eq;
      (eapply notOwn_set_booking; [exact Hn | eassumption | reflexivity | reflexivity]).
  - unfold shareContact. repeat case_match; cbn [snd]; try assumption;
      simplify_eq;
      (eapply notOwn_set_booking; [exact Hn | eassumption | reflexivity | reflexivity]).
  - unfold rateBooking. repeat case_match; cbn [snd]; try assumption;
      simplify_eq;
      (eapply (notOwn_set_booking (rateUserIn _ _ st));
       [apply notOwn_rateUserIn, Hn
       | rewrite rateUserIn_bookings; eassumption | reflexivity | reflexivity]).
Qed.

(** X27.  Nobody holds a booking on a trip they drive: the create route
    refuses the driver of the trip, and no route changes the passenger of a
    booking, its trip, or the driver of a trip, so a store without such a
    booking never gets one. *)
Theorem run_notOwn (l : list (Env * Request)) (st : State) :
  notOwn st -> notOwn (snd (run calculateRefund l st)).
Proof.
  revert st. induction l as [| [env r] l IH]; intros st Hn; [exact Hn |].
  cbn [run]. pose proof (handle_notOwn env r st Hn) as Hn'.
  destruct (handle calculateRefund env r st) as [resp st'].
  specialize (IH st' Hn'). now destruct (run calculateRefund l st').
Qed.

End Service.

(** ** Listing the bookings of a user *)

Lemma ceilDiv_bounds (total : Z) (limit : positive) :
  (ceilDiv total limit - 1) * Z.pos limit < total <= ceilDiv total limit * Z.pos limit.
Proof.
  unfold ceilDiv.
  pose proof (Z.div_mod (- total) (Z.pos limit)) as Hdm.
  pose proof (Z.mod_pos_bound (- total) (Z.pos limit)) as Hb.
  nia.
Qed.

Lemma In_take {A} (x : A) n (l : list A) : In x (take n l) -> In x l.
Proof.
  revert n; induction l as [| y l IH]; intros [| n]; cbn; try tauto.
  intros [-> | Hin]; eauto.
Qed.

Lemma In_drop {A} (x : A) n (l : list A) : In x (drop n l) -> In x l.
Proof.
  revert n; induction l as [| y l IH]; intros [| n]; cbn; try tauto.
  intros Hin; eauto.
Qed.

Lemma findBookings_In user status st b :
  In b (findBookings user status st) <->
  (exists id, bookings st !! id = Some b) /\ matches user status b = true.
Proof.
  unfold findBookings. rewrite filter_In, <- list_elem_of_In, list_elem_of_fmap.
  split.
  - intros [([id b'] & -> & Hin) Hm]. apply elem_of_map_to_list in Hin. eauto.
  - intros [[id Hb] Hm]. split; [| exact Hm].
    exists (id, b). split; [reflexivity |]. now apply elem_of_map_to_list.
Qed.

Section ListingProperties.

Variable newestFirst : list Booking.t -> list Booking.t.

(** Sorting neither drops nor invents a document. *)
Hypothesis newestFirst_permutation : forall l, newestFirst l ≡ₚ l.

(** X22.  Every booking of a page of [GET /user/bookings] is a booking of the
    store whose passenger is the caller and, when a status is asked for, with
    that status; and a page has at most [limit] bookings. *)
Theorem listBookings_own_and_bounded (user : string) (page limit : positive)
    (status : option string) (st : State) :
  let p := listBookings newestFirst user page limit status st in
  (length (items p) <= Pos.to_nat limit)%nat /\
  forall pb, In pb (items p) ->
    exists id b, bookings st !! id = Some b /\
      pb = withTrip st b /\
      Booking.passenger b = user /\
      (truthy_string status = true -> status = Some (Booking.bookingStatus b)).
Proof.
  cbn zeta. unfold listBookings, pageOf. cbn [items]. split.
  - rewrite length_fmap, length_take. lia.
  - intros pb Hin. apply list_elem_of_In, list_elem_of_fmap in Hin as (b & -> & Hin).
    apply list_elem_of_In, In_take, In_drop in Hin.
    apply (Permutation_in _ (newestFirst_permutation _)) in Hin.
    apply findBookings_In in Hin as [[id Hb] Hm].
    exists id, b. unfold matches in Hm. apply andb_true_iff in Hm as [Hu Hs].
    apply String.eqb_eq in Hu. repeat split; auto.
    intros Htruthy. rewrite Htruthy in Hs. destruct status as [s |]; [| discriminate].
    apply String.eqb_eq in Hs. now rewrite Hs.
Qed.

(** X23.  The pages tile the result: pages 1, 2, ..., [totalPages], one after
    the other, list every booking the query finds exactly as the sort orders
    them, none twice and none missing. *)
Theorem listBookings_pages_tile (user : string) (limit : positive)
    (status : option string) (st : State) :
  let pages := Z.to_nat (totalPages (listBookings newestFirst user 1 limit status st)) in
  flat_map
    (fun k => items (listBookings newestFirst user (Pos.of_succ_nat k) limit status st))
    (seq 0 pages)
  = withTrip st <$> newestFirst (findBookings user status st).
Proof.
  cbn zeta. unfold listBookings. cbn [items totalPages].
  set (found := newestFirst (findBookings user status st)).
  set (L := Pos.to_nat limit).
  assert (forall n, flat_map (fun k => withTrip st <$> pageOf (Pos.of_succ_nat k) limit found)
                      (seq 0 n)
                    = withTrip st <$> take (n * L) found) as Htile.
  { induction n as [| n IH]; [reflexivity |].
    rewrite seq_S, flat_map_app, IH. cbn [flat_map plus]. rewrite app_nil_r.
    unfold pageOf. rewrite SuccNat2Pos.id_succ, <- fmap_app. fold L.
    replace (S n - 1)%nat with n by lia.
    rewrite take_take_drop. f_equal. f_equal. lia. }
  rewrite Htile. f_equal. apply take_ge.
  assert (length found = length (findBookings user status st)) as ->
    by (subst found; apply Permutation_length, newestFirst_permutation).
  pose proof (ceilDiv_bounds (Z.of_nat (length (findBookings user status st))) limit)
    as [_ Hup].
  subst L. nia.
Qed.

(** X24.  [totalPages] is the number of pages needed: it is the least [n]
    with [n * limit >= total], where [total] counts the bookings the query
    finds; and a page is empty exactly when its number is above
    [totalPages]. *)
Theorem listBookings_totalPages (user : string) (page limit : positive)
    (status : option string) (st : State) :
  let p := listBookings newestFirst user page limit status st in
  total p = Z.of_nat (length (findBookings user status st)) /\
  (totalPages p - 1) * Z.pos limit < total p <= totalPages p * Z.pos limit /\
  (items p = [] <-> totalPages p < Z.pos page).
Proof.
  cbn zeta. unfold listBookings. cbn [items totalPages total].
  set (T := length (findBookings user status st)).
  pose proof (ceilDiv_bounds (Z.of_nat T) limit) as Hb.
  split; [reflexivity | split; [exact Hb |]].
  assert (length (newestFirst (findBookings user status st)) = T) as Hlen
    by (apply Permutation_length, newestFirst_permutation).
  unfold pageOf. split.
  - intros Hnil. apply (f_equal length) in Hnil.
    rewrite length_fmap, length_take, length_drop, Hlen in Hnil.
    cbn [length] in Hnil. nia.
  - intros Hlt. rewrite drop_ge; [now destruct (Pos.to_nat limit) |].
    rewrite Hlen. nia.
Qed.

End ListingProperties.

(** ** The time pattern of the create route *)

Lemma inRange_digitChar hi c :
  Validator.inRange 48 hi c = true ->
  exists k, c = digitChar k /\ (k <= hi - 48)%nat.
Proof.
  unfold Validator.inRange. intros H. apply andb_true_iff in H as [Hlo Hhi].
  apply Nat.leb_le in Hlo, Hhi. exists (nat_of_ascii c - 48)%nat. split; [| lia].
  unfold digitChar. replace (48 + (nat_of_ascii c - 48))%nat with (nat_of_ascii c) by lia.
  symmetry. apply ascii_nat_embedding.
Qed.

Lemma twoDigits_of_digits a b :
  (b < 10)%nat ->
  twoDigits (10 * a + b) = String (digitChar a) (String (digitChar b) EmptyString).
Proof.
  intros Hb. unfold twoDigits.
  rewrite <- (Nat.div_unique (10 * a + b) 10 a b) by lia.
  rewrite <- (Nat.mod_unique (10 * a + b) 10 a b) by lia.
  reflexivity.
Qed.

Lemma isTime_of_written :
  forallb
    (fun h =>
       forallb
         (fun m =>
            Validator.isTime (twoDigits h ++ ":" ++ twoDigits m) &&
            (if (h <? 10)%nat
             then Validator.isTime (oneDigit h ++ ":" ++ twoDigits m) else true))
         (seq 0 60))
    (seq 0 24) = true.
Proof. vm_compute. reflexivity. Qed.

(** X25.  The pattern [/^([01]?[0-9]|2[0-3]):[0-5][0-9]$/] of the create route
    accepts exactly the times of day: a string passes if and only if it
    writes an hour below 24, on two digits or on one, a colon, and a minute
    below 60 on two digits. *)
Theorem isTime_iff_time_of_day (s : string) :
  Validator.isTime s = true <->
  exists h m, (h < 24)%nat /\ (m < 60)%nat /\ writesTime s h m.
Proof.
  split.
  - unfold Validator.isTime, Validator.isDigit.
    rewrite <- (string_of_list_ascii_of_string s).
    destruct (list_ascii_of_string s) as [| c1 [| c2 [| c3 [| c4 [| c5 [| c6 l]]]]]];
      try discriminate; rewrite list_ascii_of_string_of_list_ascii.
    + intros H. apply andb_true_iff in H as [H H4].
      apply andb_true_iff in H as [H H3]. apply andb_true_iff in H as [H1 H2].
      apply Ascii.eqb_eq in H2. subst c2.
      apply inRange_digitChar in H1 as (a & -> & Ha), H3 as (b & -> & Hb),
          H4 as (d & -> & Hd).
      exists a, (10 * b + d)%nat. split; [lia | split; [lia |]].
      right. split; [lia |]. rewrite twoDigits_of_digits by lia. reflexivity.
    + intros H. apply andb_true_iff in H as [H H5].
      apply andb_true_iff in H as [H H4]. apply andb_true_iff in H as [H12 H3].
      apply Ascii.eqb_eq in H3. subst c3.
      apply inRange_digitChar in H4 as (b & -> & Hb), H5 as (d & -> & Hd).
      apply orb_true_iff in H12 as [H12 | H12];
        apply andb_true_iff in H12 as [H1 H2].
      * apply inRange_digitChar in H1 as (a & -> & Ha), H2 as (e & -> & He).
        exists (10 * a + e)%nat, (10 * b + d)%nat. split; [lia | split; [lia |]].
        left. rewrite !twoDigits_of_digits by lia. reflexivity.
      * apply Ascii.eqb_eq in H1. subst c1.
        apply inRange_digitChar in H2 as (e & -> & He).
        exists (10 * 2 + e)%nat, (10 * b + d)%nat. split; [lia | split; [lia |]].
        left. rewrite !twoDigits_of_digits by lia. reflexivity.
  - intros (h & m & Hh & Hm & Hs).
    pose proof isTime_of_written as Hall.
    rewrite forallb_forall in Hall.
    specialize (Hall h (proj2 (in_seq _ _ _) (conj (Nat.le_0_l h) Hh))).
    rewrite forallb_forall in Hall.
    specialize (Hall m (proj2 (in_seq _ _ _) (conj (Nat.le_0_l m) Hm))).
    apply andb_true_iff in Hall as [H2 H1].
    destruct Hs as [-> | [Hlt ->]]; [exact H2 |].
    apply Nat.ltb_lt in Hlt. now rewrite Hlt in H1.
Qed.

(** ** Ratings of oneself *)

Section RatingOneself.

Context {js : Runtime}.

(** X28.  Nobody changes their own rating: in a store where no booking is on
    a trip of its own passenger, a rating request leaves the rating of its
    caller as it was, whatever its outcome. *)
Theorem rateBooking_not_oneself (user id : string) (body : Rate.Body)
    (st : State) :
  notOwn st ->
  users (snd (rateBooking user id body st)) !! user = users st !! user.
Proof.
  intros Hn. destruct (Z.eq_dec (code (fst (rateBooking user id body st))) 200)
    as [Hok | Hno].
  - destruct (rateBooking_accepted_inv _ _ _ _ Hok)
      as (b & t & _ & Hb & _ & Ht & Hrole & _ & ->).
    cbn [set_bookings users]. unfold rateUserIn, ratedUser.
    pose proof (Hn _ _ _ Hb Ht) as Hne.
    destruct (String.eqb_spec (Booking.passenger b) user) as [Hp | Hp].
    + destruct (users st !! Trip.driver t); [| reflexivity].
      cbn [set_users users]. apply lookup_insert_ne. congruence.
    + destruct (users st !! Booking.passenger b); [| reflexivity].
      cbn [set_users users]. now apply lookup_insert_ne.
  - revert Hno. unfold rateBooking.
    repeat case_match; cbn [fst snd code reply invalid serverError];
      intros; first [reflexivity | contradiction].
Qed.

End RatingOneself.

(** * The statements at the sample store *)

(** The examples run on the runtime of the sample. *)
#[local] Existing Instance Sample.runtime.

Lemma verifyOtp_succeeds_iff_witness :
  String.length "4821" = 4%nat /\
  bookings Sample.booked !! Sample.bookingId = Some Sample.pending /\
  Booking.otp Sample.pending =
    Some {| Booking.code := "4821"; Booking.generatedAt := now Sample.env;
            Booking.verified := false |} /\
  mayVerify Sample.booked Sample.riderId Sample.pending /\
  let r := verifyOtp (Sample.later 29) Sample.riderId Sample.bookingId
             {| Verify.otp := "4821" |} Sample.booked in
  code (fst r) = 200 /\
  exists b', bookings (snd r) !! Sample.bookingId = Some b' /\
    Booking.otp b' =
      Some {| Booking.code := "4821"; Booking.generatedAt := now Sample.env;
              Booking.verified := true |} /\
    Booking.bookingStatus b' = "confirmed".
Proof.
  assert (String.length "4821" = 4%nat) as H1 by reflexivity.
  assert (bookings Sample.booked !! Sample.bookingId = Some Sample.pending) as H2
    by (vm_compute; reflexivity).
  assert (Booking.otp Sample.pending =
            Some {| Booking.code := "4821"; Booking.generatedAt := now Sample.env;
                    Booking.verified := false |}) as H3 by reflexivity.
  assert (mayVerify Sample.booked Sample.riderId Sample.pending) as H4
    by (left; reflexivity).
  destruct (verifyOtp_succeeds_iff (Sample.later 29) _ _ _ _ _ _ H1 H2 H3 H4)
    as [Hiff Hthen].
  assert (code (fst (verifyOtp (Sample.later 29) Sample.riderId Sample.bookingId
                       {| Verify.otp := "4821" |} Sample.booked)) = 200) as H200.
  { apply Hiff. split; [reflexivity | vm_compute; discriminate]. }
  exact (conj H1 (conj H2 (conj H3 (conj H4 (conj H200 (Hthen H200)))))).
Defined.

Lemma cancelBooking_effects_witness :
  bookings Sample.booked !! Sample.bookingId = Some Sample.pending /\
  Booking.passenger Sample.pending = Sample.riderId /\
  Booking.bookingStatus Sample.pending <> "cancelled" /\
  trips Sample.booked !! Booking.trip Sample.pending = Some Sample.taken /\
  let r := cancelBooking Sample.noRefund (Sample.later 5) Sample.riderId
             Sample.bookingId Sample.changedPlans Sample.booked in
  code (fst r) = 200 /\
  (exists t', trips (snd r) !! Sample.tripId = Some t' /\
     Trip.bookedSeats t' = 2 - 2 /\
     Trip.totalEarnings t' = PrimFloat.sub 200%float 200%float /\
     (forall p, In p (Trip.passengers t') <->
                In p (Trip.passengers Sample.taken) /\
                Roster.user p <> Sample.riderId)).
Proof.
  assert (bookings Sample.booked !! Sample.bookingId = Some Sample.pending) as H1
    by (vm_compute; reflexivity).
  assert (Booking.passenger Sample.pending = Sample.riderId) as H2 by reflexivity.
  assert (Booking.bookingStatus Sample.pending <> "cancelled") as H3 by discriminate.
  assert (trips Sample.booked !! Booking.trip Sample.pending = Some Sample.taken) as H4
    by (vm_compute; reflexivity).
  destruct (cancelBooking_effects Sample.noRefund (Sample.later 5) _ _
              Sample.changedPlans _ _ _ H1 H2 H3 H4) as (H200 & _ & Htrip).
  exact (conj H1 (conj H2 (conj H3 (conj H4 (conj H200 Htrip))))).
Defined.

Lemma cancelBooking_rejected_iff_witness :
  let done := Booking.with_bookingStatus "completed" Sample.pending in
  bookings Sample.completed !! Sample.bookingId = Some done /\
  Booking.passenger done = Sample.riderId /\
  trips Sample.completed !! Booking.trip done = Some Sample.taken /\
  let r := cancelBooking Sample.noRefund (Sample.later 90) Sample.riderId
             Sample.bookingId Sample.changedPlans Sample.completed in
  code (fst r) = 200 /\
  (Trip.bookedSeats <$> trips (snd r) !! Sample.tripId) = Some (2 - 2).
Proof.
  set (done := Booking.with_bookingStatus "completed" Sample.pending).
  assert (bookings Sample.completed !! Sample.bookingId = Some done) as H1
    by (vm_compute; reflexivity).
  assert (Booking.passenger done = Sample.riderId) as H2 by reflexivity.
  assert (trips Sample.completed !! Booking.trip done = Some Sample.taken) as H3
    by (vm_compute; reflexivity).
  destruct (cancelBooking_rejected_iff Sample.noRefund (Sample.later 90) _ _
              Sample.changedPlans _ _ _ H1 H2 H3) as (_ & _ & _ & Hdone).
  exact (conj H1 (conj H2 (conj H3 (Hdone eq_refl)))).
Defined.


Lemma createBooking_effects_witness :
  Create.errors Sample.twoSeats = [] /\
  trips Sample.initial !! Create.tripId Sample.twoSeats = Some Sample.trip /\
  Trip.status Sample.trip = "active" /\
  Trip.driver Sample.trip <> Sample.riderId /\
  Create.seatsBooked Sample.twoSeats
    <= Trip.totalSeats Sample.trip - Trip.bookedSeats Sample.trip /\
  Z.of_nat (length (Create.passengerDetails Sample.twoSeats))
    = Create.seatsBooked Sample.twoSeats /\
  bookings Sample.initial !! freshId Sample.env = None /\
  let r := createBooking Sample.env Sample.riderId Sample.twoSeats Sample.initial in
  exists b otp,
    fst r = {| code := 201;
               body := Created (Some (populate (snd r) b)) otp
                         "Booking created successfully" |} /\
    bookings (snd r) !! Sample.bookingId = Some b /\
    Booking.totalAmount b = PrimFloat.mul 100%float (num 2) /\
    Booking.otp b =
      Some {| Booking.code := otp; Booking.generatedAt := now Sample.env;
              Booking.verified := false |} /\
    String.length otp = 4%nat /\
    exists t', trips (snd r) !! Sample.tripId = Some t' /\
      Trip.bookedSeats t' = 0 + 2 /\
      Trip.totalEarnings t' = PrimFloat.add 0%float (PrimFloat.mul 100%float (num 2)).
Proof.
  assert (Create.errors Sample.twoSeats = []) as H1 by reflexivity.
  assert (trips Sample.initial !! Create.tripId Sample.twoSeats = Some Sample.trip)
    as H2 by (vm_compute; reflexivity).
  assert (Trip.status Sample.trip = "active") as H3 by reflexivity.
  assert (Trip.driver Sample.trip <> Sample.riderId) as H4 by discriminate.
  assert (Create.seatsBooked Sample.twoSeats
          <= Trip.totalSeats Sample.trip - Trip.bookedSeats Sample.trip) as H5
    by (vm_compute; discriminate).
  assert (Z.of_nat (length (Create.passengerDetails Sample.twoSeats))
          = Create.seatsBooked Sample.twoSeats) as H6 by reflexivity.
  assert (bookings Sample.initial !! freshId Sample.env = None) as H7
    by (vm_compute; reflexivity).
  destruct (createBooking_effects Sample.env Sample.riderId Sample.twoSeats
              Sample.initial Sample.trip H1 H2 H3 H4 H5 H6 H7)
    as (b & otp & Hr & Hb & _ & _ & _ & _ & Hamount & Hotp & Hlen & _ & t' & Ht' & Hs & He & _).
  refine (conj H1 (conj H2 (conj H3 (conj H4 (conj H5 (conj H6 (conj H7 _))))))).
  exists b, otp. repeat (split; [assumption |]).
  exists t'. repeat (split; [assumption |]). exact He.
Defined.

Lemma updatePayment_effects_witness :
  bookings Sample.booked !! Sample.bookingId = Some Sample.pending /\
  Booking.passenger Sample.pending = Sample.riderId /\
  Payment.errors Sample.paid = [] /\
  Payment.errors Sample.failed = [] /\
  (let r := updatePayment Sample.riderId Sample.bookingId Sample.paid Sample.booked in
   code (fst r) = 200 /\
   exists b', bookings (snd r) !! Sample.bookingId = Some b' /\
     Booking.bookingStatus b' = "confirmed" /\
     Booking.transactionId b' = Some "TXN-42") /\
  (let r := updatePayment Sample.riderId Sample.bookingId Sample.failed Sample.booked in
   code (fst r) = 200 /\
   (exists b', bookings (snd r) !! Sample.bookingId = Some b' /\
      Booking.bookingStatus b' = "cancelled") /\
   (exists t', trips (snd r) !! Sample.tripId = Some t' /\
      Trip.bookedSeats t' = 2 - 2 /\
      Trip.totalEarnings t' = PrimFloat.sub 200%float 200%float /\
      Trip.passengers t' = [])).
Proof.
  assert (bookings Sample.booked !! Sample.bookingId = Some Sample.pending) as H1
    by (vm_compute; reflexivity).
  assert (Booking.passenger Sample.pending = Sample.riderId) as H2 by reflexivity.
  assert (Payment.errors Sample.paid = []) as H3 by reflexivity.
  assert (Payment.errors Sample.failed = []) as H4 by reflexivity.
  destruct (updatePayment_effects Sample.riderId Sample.bookingId Sample.paid
              Sample.booked Sample.pending H1 H2 H3) as [Hpaid _].
  destruct (Hpaid " TXN-42 " eq_refl eq_refl)
    as (Hp200 & _ & b1 & Hb1 & _ & Hconfirmed & Htx).
  destruct (updatePayment_effects Sample.riderId Sample.bookingId Sample.failed
              Sample.booked Sample.pending H1 H2 H4) as [_ Hfailed].
  assert (trips Sample.booked !! Booking.trip Sample.pending = Some Sample.taken) as Ht
    by (vm_compute; reflexivity).
  destruct (Hfailed Sample.taken eq_refl Ht)
    as (Hf200 & (b2 & Hb2 & _ & Hcancelled) & (t' & Ht' & Hseats & Hearn & Hroster)).
  refine (conj H1 (conj H2 (conj H3 (conj H4 (conj _ _))))).
  - split; [exact Hp200 |]. exists b1. repeat split; assumption.
  - split; [exact Hf200 |]. split; [exists b2; split; assumption |].
    exists t'. repeat (split; [assumption |]).
    destruct (Trip.passengers t') as [| p l] eqn:Hl; [reflexivity |].
    exfalso. destruct (proj1 (Hroster p) (or_introl eq_refl)) as [[<- | []] Hne].
    now apply Hne.
Defined.

Lemma updatePayment_paid_no_transaction_witness :
  bookings Sample.booked !! Sample.bookingId = Some Sample.pending /\
  Booking.passenger Sample.pending = Sample.riderId /\
  let r := updatePayment Sample.riderId Sample.bookingId
             {| Payment.paymentStatus := "paid"; Payment.transactionId := None |}
             Sample.booked in
  code (fst r) = 200 /\
  exists b', bookings (snd r) !! Sample.bookingId = Some b' /\
    Booking.paymentStatus b' = "paid" /\
    Booking.bookingStatus b' = "pending" /\
    Booking.transactionId b' = None.
Proof.
  assert (bookings Sample.booked !! Sample.bookingId = Some Sample.pending) as H1
    by (vm_compute; reflexivity).
  assert (Booking.passenger Sample.pending = Sample.riderId) as H2 by reflexivity.
  destruct (updatePayment_paid_no_transaction Sample.riderId Sample.bookingId
              Sample.booked Sample.pending H1 H2)
    as (H200 & _ & _ & _ & b' & Hb' & Hpaid & Hstatus & Htx & _).
  refine (conj H1 (conj H2 (conj H200 _))).
  exists b'. repeat split; assumption.
Defined.

(** The example of the spec: from [average = 4.0] and [count = 2], the rating
    5 sent as a number gives [average = 4.333...] (the binary64 value nearest
    to 13/3) and [count = 3]. *)
Example rateBooking_streaming_mean_sample :
  let r := rateBooking Sample.riderId Sample.bookingId Sample.fiveStars
             Sample.completed in
  code (fst r) = 200 /\
  exists u', users (snd r) !! Sample.driverId = Some u' /\
    User.average (User.rating u') = 0x1.1555555555555p+2%float /\
    User.count (User.rating u') = 3.
Proof.
  intros r.
  assert (code (fst r) = 200) as H4 by (vm_compute; reflexivity).
  destruct (rateBooking_streaming_mean Sample.riderId Sample.bookingId
              Sample.fiveStars Sample.completed
              (Booking.with_bookingStatus "completed" Sample.pending)
              Sample.taken
              (Sample.person {| User.average := 4%float; User.count := 2 |}) 5
              eq_refl eq_refl eq_refl eq_refl H4)
    as (u' & Hu' & Havg & Hcount & _).
  split; [exact H4 |].
  exists u'. split; [exact Hu' |]. split; [exact Havg | exact Hcount].
Qed.

(** The same rating sent as the string ["5"]: the request is answered 200,
    the count becomes 3 and the average 28.333333333333332. *)
Lemma rateBooking_string_rating_off_mean_witness :
  let done := Booking.with_bookingStatus "completed" Sample.pending in
  let driver := Sample.person {| User.average := 4%float; User.count := 2 |} in
  numberToString 8 = "8" /\
  stringToNumber "85" = 85%float /\
  bookings Sample.completed !! Sample.bookingId = Some done /\
  trips Sample.completed !! Booking.trip done = Some Sample.taken /\
  users Sample.completed !! ratedUser Sample.riderId done Sample.taken = Some driver /\
  let r := rateBooking Sample.riderId Sample.bookingId Sample.fiveStarsAsText
             Sample.completed in
  code (fst r) = 200 /\
  Rate.stars Sample.fiveStarsAsText = 5 /\
  exists u', users (snd r) !! Sample.driverId = Some u' /\
    User.count (User.rating u') = 3 /\
    User.average (User.rating u') = 0x1.c555555555555p+4%float /\
    streamingMean (User.rating driver) 5 = 0x1.1555555555555p+2%float /\
    User.average (User.rating u') <> streamingMean (User.rating driver) 5.
Proof.
  intros done driver.
  assert (numberToString 8 = "8") as H1 by (vm_compute; reflexivity).
  assert (stringToNumber "85" = 85%float) as H2 by (vm_compute; reflexivity).
  assert (bookings Sample.completed !! Sample.bookingId = Some done) as H3
    by (vm_compute; reflexivity).
  assert (trips Sample.completed !! Booking.trip done = Some Sample.taken) as H4
    by (vm_compute; reflexivity).
  assert (users Sample.completed !! ratedUser Sample.riderId done Sample.taken
          = Some driver) as H5 by (vm_compute; reflexivity).
  assert (code (fst (rateBooking Sample.riderId Sample.bookingId
                       Sample.fiveStarsAsText Sample.completed)) = 200) as H6
    by (vm_compute; reflexivity).
  refine (conj H1 (conj H2 (conj H3 (conj H4 (conj H5 (conj H6 _)))))).
  exact (rateBooking_string_rating_off_mean Sample.riderId Sample.bookingId
           (Some "Smooth ride") Sample.completed done Sample.taken driver
           H1 H2 H3 H4 H5 eq_refl H6).
Defined.

Lemma rateBooking_only_once_witness :
  code (fst (rateBooking Sample.riderId Sample.bookingId Sample.fiveStars
               Sample.completed)) = 200 /\
  let between :=
    [ (Sample.later 100,
       PatchPayment Sample.riderId Sample.bookingId Sample.paid);
      (Sample.later 101,
       PostRate Sample.driverId Sample.bookingId Sample.oneStar) ] in
  let st1 := snd (run Sample.noRefund between
                    (snd (rateBooking Sample.riderId Sample.bookingId
                            Sample.fiveStars Sample.completed))) in
  code (fst (rateBooking Sample.riderId Sample.bookingId Sample.oneStar st1)) = 400 /\
  snd (rateBooking Sample.riderId Sample.bookingId Sample.oneStar st1) = st1.
Proof.
  assert (code (fst (rateBooking Sample.riderId Sample.bookingId Sample.fiveStars
                       Sample.completed)) = 200) as H1 by (vm_compute; reflexivity).
  exact (conj H1 (rateBooking_only_once Sample.noRefund Sample.riderId
                    Sample.bookingId Sample.fiveStars Sample.oneStar _
                    Sample.completed H1)).
Defined.

Lemma rateBooking_accepted_only_if_witness :
  code (fst (rateBooking Sample.riderId Sample.bookingId Sample.fiveStars
               Sample.completed)) = 200 /\
  exists b t,
    bookings Sample.completed !! Sample.bookingId = Some b /\
    trips Sample.completed !! Booking.trip b = Some t /\
    Booking.bookingStatus b = "completed" /\
    mayVerify Sample.completed Sample.riderId b /\
    (exists z, Validator.toInt (Rate.rating Sample.fiveStars) = Some z /\ 1 <= z <= 5) /\
    truthy_int (givenRating Sample.riderId b) = false.
Proof.
  assert (code (fst (rateBooking Sample.riderId Sample.bookingId Sample.fiveStars
                       Sample.completed)) = 200) as H1 by (vm_compute; reflexivity).
  exact (conj H1 (rateBooking_accepted_only_if _ _ _ _ H1)).
Defined.

Lemma rateBooking_both_directions_witness :
  let done := Booking.with_bookingStatus "completed" Sample.pending in
  bookings Sample.completed !! Sample.bookingId = Some done /\
  trips Sample.completed !! Booking.trip done = Some Sample.taken /\
  Booking.passenger done = Sample.riderId /\
  Trip.driver Sample.taken = Sample.driverId /\
  Sample.driverId <> Sample.riderId /\
  truthy_int (Booking.value (Booking.forPassenger (Booking.rating done))) = false /\
  Rate.errors Sample.oneStar = [] /\
  code (fst (rateBooking Sample.riderId Sample.bookingId Sample.fiveStars
               Sample.completed)) = 200 /\
  let st1 := snd (rateBooking Sample.riderId Sample.bookingId Sample.fiveStars
                    Sample.completed) in
  let r := rateBooking Sample.driverId Sample.bookingId Sample.oneStar st1 in
  code (fst r) = 200 /\
  exists b', bookings (snd r) !! Sample.bookingId = Some b' /\
    Booking.value (Booking.forDriver (Booking.rating b')) = Some 5 /\
    Booking.value (Booking.forPassenger (Booking.rating b')) = Some 1.
Proof.
  intros done.
  assert (bookings Sample.completed !! Sample.bookingId = Some done) as H1
    by (vm_compute; reflexivity).
  assert (trips Sample.completed !! Booking.trip done = Some Sample.taken) as H2
    by (vm_compute; reflexivity).
  assert (Booking.passenger done = Sample.riderId) as H3 by reflexivity.
  assert (Trip.driver Sample.taken = Sample.driverId) as H4 by reflexivity.
  assert (Sample.driverId <> Sample.riderId) as H5 by discriminate.
  assert (truthy_int (Booking.value (Booking.forPassenger (Booking.rating done)))
          = false) as H6 by reflexivity.
  assert (Rate.errors Sample.oneStar = []) as H7 by reflexivity.
  assert (code (fst (rateBooking Sample.riderId Sample.bookingId Sample.fiveStars
                       Sample.completed)) = 200) as H8 by (vm_compute; reflexivity).
  exact (conj H1 (conj H2 (conj H3 (conj H4 (conj H5 (conj H6 (conj H7 (conj H8
           (rateBooking_both_directions _ _ _ Sample.fiveStars _ _ _ _
              H1 H2 H3 H4 H5 H6 H7 H8))))))))).
Defined.

Lemma rateBooking_without_rated_user_witness :
  let done := Booking.with_bookingStatus "completed" Sample.pending in
  let st := set_users ∅ Sample.completed in
  bookings st !! Sample.bookingId = Some done /\
  trips st !! Booking.trip done = Some Sample.taken /\
  users st !! ratedUser Sample.riderId done Sample.taken = None /\
  code (fst (rateBooking Sample.riderId Sample.bookingId Sample.fiveStars st)) = 200 /\
  users (snd (rateBooking Sample.riderId Sample.bookingId Sample.fiveStars st)) = ∅.
Proof.
  intros done st.
  assert (bookings st !! Sample.bookingId = Some done) as H1
    by (vm_compute; reflexivity).
  assert (trips st !! Booking.trip done = Some Sample.taken) as H2
    by (vm_compute; reflexivity).
  assert (users st !! ratedUser Sample.riderId done Sample.taken = None) as H3
    by (vm_compute; reflexivity).
  assert (code (fst (rateBooking Sample.riderId Sample.bookingId Sample.fiveStars st))
          = 200) as H4 by (vm_compute; reflexivity).
  exact (conj H1 (conj H2 (conj H3 (conj H4
           (proj1 (rateBooking_without_rated_user _ _ _ _ _ _ H1 H2 H3 H4)))))).
Defined.

Lemma verifyOtp_again_witness :
  let body := {| Verify.otp := "4821" |} in
  bookings Sample.booked !! Sample.bookingId = Some Sample.pending /\
  Booking.otp Sample.pending =
    Some {| Booking.code := "4821"; Booking.generatedAt := now Sample.env;
            Booking.verified := false |} /\
  code (fst (verifyOtp (Sample.later 5) Sample.driverId Sample.bookingId body
               Sample.booked)) = 200 /\
  now (Sample.later 30) - now Sample.env <= 30 * 60 * 1000 /\
  let st1 := snd (verifyOtp (Sample.later 5) Sample.driverId Sample.bookingId body
                    Sample.booked) in
  code (fst (verifyOtp (Sample.later 30) Sample.driverId Sample.bookingId body st1)) = 200 /\
  snd (verifyOtp (Sample.later 30) Sample.driverId Sample.bookingId body st1) = st1.
Proof.
  intros body.
  assert (bookings Sample.booked !! Sample.bookingId = Some Sample.pending) as H1
    by (vm_compute; reflexivity).
  assert (Booking.otp Sample.pending =
            Some {| Booking.code := "4821"; Booking.generatedAt := now Sample.env;
                    Booking.verified := false |}) as H2 by reflexivity.
  assert (code (fst (verifyOtp (Sample.later 5) Sample.driverId Sample.bookingId body
                       Sample.booked)) = 200) as H3 by (vm_compute; reflexivity).
  assert (now (Sample.later 30) - now Sample.env <= 30 * 60 * 1000) as H4
    by (vm_compute; discriminate).
  exact (conj H1 (conj H2 (conj H3 (conj H4
           (verifyOtp_again (Sample.later 5) (Sample.later 30) _ _ body _ _ _
              H1 H2 H3 H4))))).
Defined.

Lemma updatePayment_paid_after_failed_witness :
  bookings Sample.booked !! Sample.bookingId = Some Sample.pending /\
  Booking.passenger Sample.pending = Sample.riderId /\
  trips Sample.booked !! Booking.trip Sample.pending = Some Sample.taken /\
  Payment.errors Sample.paid = [] /\
  Payment.paymentStatus Sample.paid = "paid" /\
  Payment.transactionId Sample.paid = Some " TXN-42 " /\
  let st1 := snd (updatePayment Sample.riderId Sample.bookingId Sample.failed
                    Sample.booked) in
  let r := updatePayment Sample.riderId Sample.bookingId Sample.paid st1 in
  code (fst r) = 200 /\
  (exists b', bookings (snd r) !! Sample.bookingId = Some b' /\
     Booking.bookingStatus b' = "confirmed" /\
     Booking.paymentStatus b' = "paid" /\
     live b' = true) /\
  (exists t', trips (snd r) !! Sample.tripId = Some t' /\
     Trip.bookedSeats t' = 2 - 2 /\
     forall p, In p (Trip.passengers t') -> Roster.user p <> Sample.riderId).
Proof.
  assert (bookings Sample.booked !! Sample.bookingId = Some Sample.pending) as H1
    by (vm_compute; reflexivity).
  assert (Booking.passenger Sample.pending = Sample.riderId) as H2 by reflexivity.
  assert (trips Sample.booked !! Booking.trip Sample.pending = Some Sample.taken)
    as H3 by (vm_compute; reflexivity).
  assert (Payment.errors Sample.paid = []) as H4 by reflexivity.
  assert (Payment.paymentStatus Sample.paid = "paid") as H5 by reflexivity.
  assert (Payment.transactionId Sample.paid = Some " TXN-42 ") as H6 by reflexivity.
  exact (conj H1 (conj H2 (conj H3 (conj H4 (conj H5 (conj H6
           (updatePayment_paid_after_failed _ _ _ _ _ _ _ H1 H2 H3 H4 H5 H6))))))).
Defined.

Lemma shareContact_discloses_to_parties_witness :
  body (fst (shareContact Sample.env Sample.riderId Sample.bookingId Sample.booked))
  = Shared "Contact details shared successfully" "A B" "0" /\
  exists b t other,
    bookings Sample.booked !! Sample.bookingId = Some b /\
    trips Sample.booked !! Booking.trip b = Some t /\
    "A B" = User.firstName other ++ " " ++ User.lastName other /\
    "0" = User.phone other /\
    ((Booking.passenger b = Sample.riderId /\
      users Sample.booked !! Trip.driver t = Some other) \/
     (Booking.passenger b <> Sample.riderId /\ Trip.driver t = Sample.riderId /\
      users Sample.booked !! Booking.passenger b = Some other)).
Proof.
  assert (body (fst (shareContact Sample.env Sample.riderId Sample.bookingId
                       Sample.booked))
          = Shared "Contact details shared successfully" "A B" "0") as H1
    by (vm_compute; reflexivity).
  exact (conj H1 (shareContact_discloses_to_parties _ _ _ _ _ _ _ H1)).
Defined.

Lemma createBooking_then_verifyOtp_witness :
  fst (createBooking Sample.env Sample.riderId Sample.twoSeats Sample.initial)
  = {| code := 201;
       body := Created (Some (populate Sample.booked Sample.pending)) "4821"
                 "Booking created successfully" |} /\
  now (Sample.later 12) - now Sample.env <= 30 * 60 * 1000 /\
  let st1 := snd (createBooking Sample.env Sample.riderId Sample.twoSeats
                    Sample.initial) in
  let r := verifyOtp (Sample.later 12) Sample.riderId (freshId Sample.env)
             {| Verify.otp := "4821" |} st1 in
  code (fst r) = 200 /\
  exists b', bookings (snd r) !! freshId Sample.env = Some b' /\
    Booking.bookingStatus b' = "confirmed" /\
    (Booking.verified <$> Booking.otp b') = Some true.
Proof.
  assert (fst (createBooking Sample.env Sample.riderId Sample.twoSeats Sample.initial)
          = {| code := 201;
               body := Created (Some (populate Sample.booked Sample.pending)) "4821"
                         "Booking created successfully" |}) as H1
    by (vm_compute; reflexivity).
  assert (now (Sample.later 12) - now Sample.env <= 30 * 60 * 1000) as H2
    by (vm_compute; discriminate).
  exact (conj H1 (conj H2
           (createBooking_then_verifyOtp _ (Sample.later 12) _ _ _ _ _ _ H1 H2))).
Defined.

Lemma refusal_changes_nothing_witness :
  let r := PatchCancel Sample.driverId Sample.bookingId Sample.changedPlans in
  400 <= code (fst (handle Sample.noRefund Sample.env r Sample.booked)) < 500 /\
  snd (handle Sample.noRefund Sample.env r Sample.booked) = Sample.booked.
Proof.
  intros r.
  assert (400 <= code (fst (handle Sample.noRefund Sample.env r Sample.booked)) < 500)
    as H1 by (vm_compute; split; [discriminate | reflexivity]).
  exact (conj H1 (refusal_changes_nothing Sample.noRefund _ _ _ H1)).
Defined.

Lemma cancelBooking_without_trip_witness :
  let st := set_trips ∅ Sample.booked in
  bookings st !! Sample.bookingId = Some Sample.pending /\
  Booking.passenger Sample.pending = Sample.riderId /\
  Booking.bookingStatus Sample.pending <> "cancelled" /\
  trips st !! Booking.trip Sample.pending = None /\
  let r := cancelBooking Sample.noRefund (Sample.later 5) Sample.riderId
             Sample.bookingId Sample.changedPlans st in
  code (fst r) = 500 /\
  trips (snd r) = trips st /\
  exists b', bookings (snd r) !! Sample.bookingId = Some b' /\
    Booking.bookingStatus b' = "cancelled" /\
    Booking.cancelledBy b' = Some Sample.riderId /\
    Booking.cancelledAt b' = Some (now (Sample.later 5)).
Proof.
  intros st.
  assert (bookings st !! Sample.bookingId = Some Sample.pending) as H1
    by (vm_compute; reflexivity).
  assert (Booking.passenger Sample.pending = Sample.riderId) as H2 by reflexivity.
  assert (Booking.bookingStatus Sample.pending <> "cancelled") as H3 by discriminate.
  assert (trips st !! Booking.trip Sample.pending = None) as H4
    by (vm_compute; reflexivity).
  exact (conj H1 (conj H2 (conj H3 (conj H4
           (cancelBooking_without_trip Sample.noRefund (Sample.later 5) _ _
              Sample.changedPlans _ _ H1 H2 H3 H4))))).
Defined.

Lemma stranger_changes_nothing_witness :
  let stranger := "65f1a2b3c4d5e6f708192a09" in
  let r := PostVerifyOtp stranger Sample.bookingId {| Verify.otp := "4821" |} in
  addressed r = Some Sample.bookingId /\
  bookings Sample.booked !! Sample.bookingId = Some Sample.pending /\
  ~ mayVerify Sample.booked (caller r) Sample.pending /\
  snd (handle Sample.noRefund (Sample.later 1) r Sample.booked) = Sample.booked /\
  code (fst (handle Sample.noRefund (Sample.later 1) r Sample.booked)) <> 200.
Proof.
  intros stranger r.
  assert (addressed r = Some Sample.bookingId) as H1 by reflexivity.
  assert (bookings Sample.booked !! Sample.bookingId = Some Sample.pending) as H2
    by (vm_compute; reflexivity).
  assert (~ mayVerify Sample.booked (caller r) Sample.pending) as H3.
  { intros [Hp | (t & Ht & Hd)]; [discriminate Hp |].
    vm_compute in Ht. injection Ht as <-. discriminate Hd. }
  exact (conj H1 (conj H2 (conj H3
           (stranger_changes_nothing Sample.noRefund (Sample.later 1) r _ _ _
              H1 H2 H3)))).
Defined.

Lemma only_passenger_pays_or_cancels_witness :
  bookings Sample.booked !! Sample.bookingId = Some Sample.pending /\
  Booking.passenger Sample.pending <> Sample.driverId /\
  let paid := handle Sample.noRefund Sample.env
                (PatchPayment Sample.driverId Sample.bookingId Sample.paid)
                Sample.booked in
  let cancelled := handle Sample.noRefund Sample.env
                     (PatchCancel Sample.driverId Sample.bookingId Sample.changedPlans)
                     Sample.booked in
  (code (fst paid) = 400 \/ code (fst paid) = 403) /\ snd paid = Sample.booked /\
  fst cancelled = reply 403 "Not authorized to cancel this booking" /\
  snd cancelled = Sample.booked.
Proof.
  assert (bookings Sample.booked !! Sample.bookingId = Some Sample.pending) as H1
    by (vm_compute; reflexivity).
  assert (Booking.passenger Sample.pending <> Sample.driverId) as H2 by discriminate.
  exact (conj H1 (conj H2
           (only_passenger_pays_or_cancels Sample.noRefund Sample.env _ _
              Sample.paid Sample.changedPlans _ _ H1 H2))).
Defined.

(** The sample booking is left as it is by the creation of a second booking,
    and then by the cancellation of that second booking. *)
Lemma other_bookings_untouched_witness :
  let id := Sample.bookingId in
  let second := freshId (Sample.later 3) in
  let create := PostBooking Sample.riderId Sample.twoSeats in
  let cancel := PatchCancel Sample.riderId second Sample.changedPlans in
  let st1 := snd (handle Sample.noRefund (Sample.later 3) create Sample.booked) in
  let st2 := snd (handle Sample.noRefund (Sample.later 4) cancel st1) in
  (addressed create <> Some id /\
   (addressed create = None -> id <> freshId (Sample.later 3)) /\
   code (fst (handle Sample.noRefund (Sample.later 3) create Sample.booked)) = 201 /\
   bookings st1 !! id = Some Sample.pending) /\
  (addressed cancel <> Some id /\
   (addressed cancel = None -> id <> freshId (Sample.later 4)) /\
   code (fst (handle Sample.noRefund (Sample.later 4) cancel st1)) = 200 /\
   is_Some (bookings st1 !! second) /\
   bookings st2 !! id = Some Sample.pending).
Proof.
  intros id second create cancel st1 st2.
  assert (addressed create <> Some id) as H1 by discriminate.
  assert (addressed create = None -> id <> freshId (Sample.later 3)) as H2
    by (intros _; discriminate).
  assert (code (fst (handle Sample.noRefund (Sample.later 3) create Sample.booked))
          = 201) as H3 by (vm_compute; reflexivity).
  assert (bookings Sample.booked !! id = Some Sample.pending) as H4
    by (vm_compute; reflexivity).
  assert (addressed cancel <> Some id) as H5 by discriminate.
  assert (addressed cancel = None -> id <> freshId (Sample.later 4)) as H6
    by discriminate.
  assert (code (fst (handle Sample.noRefund (Sample.later 4) cancel st1)) = 200)
    as H7 by (vm_compute; reflexivity).
  assert (is_Some (bookings st1 !! second)) as H8 by (vm_compute; eauto).
  pose proof (other_bookings_untouched Sample.noRefund (Sample.later 3) create
                Sample.booked id H1 H2) as K1.
  pose proof (other_bookings_untouched Sample.noRefund (Sample.later 4) cancel
                st1 id H5 H6) as K2.
  split.
  - exact (conj H1 (conj H2 (conj H3 (eq_trans K1 H4)))).
  - exact (conj H5 (conj H6 (conj H7 (conj H8 (eq_trans K2 (eq_trans K1 H4)))))).
Defined.

Lemma bookings_keep_their_request_witness :
  bookings Sample.booked !! Sample.bookingId = Some Sample.pending /\
  exists b', bookings (snd (run Sample.noRefund busyDay Sample.booked))
               !! Sample.bookingId = Some b' /\
    Booking.trip b' = Sample.tripId /\
    Booking.passenger b' = Sample.riderId /\
    Booking.seatsBooked b' = 2 /\
    Booking.totalAmount b' = 200%float.
Proof.
  assert (bookings Sample.booked !! Sample.bookingId = Some Sample.pending) as H1
    by (vm_compute; reflexivity).
  destruct (bookings_keep_their_request Sample.noRefund busyDay _ _ _ H1)
    as (b' & Hb' & Htrip & Hpass & Hseats & Hamount & _).
  refine (conj H1 _). exists b'. repeat split; assumption.
Defined.

Lemma trips_keep_their_offer_witness :
  trips Sample.booked !! Sample.tripId = Some Sample.taken /\
  exists t', trips (snd (run Sample.noRefund busyDay Sample.booked))
               !! Sample.tripId = Some t' /\
    Trip.status t' = "active" /\
    Trip.driver t' = Sample.driverId /\
    Trip.pricePerSeat t' = 100%float /\
    Trip.totalSeats t' = 4.
Proof.
  assert (trips Sample.booked !! Sample.tripId = Some Sample.taken) as H1
    by (vm_compute; reflexivity).
  exact (conj H1 (trips_keep_their_offer Sample.noRefund busyDay _ _ _ H1)).
Defined.

Lemma run_linked_witness :
  linked Sample.booked /\
  linked (snd (run Sample.noRefund busyDay Sample.booked)).
Proof.
  assert (linked Sample.booked) as H1.
  { intros id b Hb. unfold Sample.booked in Hb. cbn [bookings] in Hb.
    apply lookup_singleton_Some in Hb as [_ <-]. now eexists. }
  exact (conj H1 (run_linked Sample.noRefund busyDay _ H1)).
Defined.

Lemma run_seated_witness :
  seated Sample.booked /\
  seated (snd (run Sample.noRefund busyDay Sample.booked)).
Proof.
  assert (seated Sample.booked) as H1.
  { intros id b Hb. unfold Sample.booked in Hb. cbn [bookings] in Hb.
    apply lookup_singleton_Some in Hb as [_ <-]. cbn. lia. }
  exact (conj H1 (run_seated Sample.noRefund busyDay _ H1)).
Defined.

Lemma run_within_capacity_witness :
  hasSeats Sample.booked /\
  withinCapacity Sample.booked /\
  withinCapacity (snd (run Sample.noRefund busyDay Sample.booked)).
Proof.
  assert (hasSeats Sample.booked) as H1.
  { intros id b Hb. unfold Sample.booked in Hb. cbn [bookings] in Hb.
    apply lookup_singleton_Some in Hb as [_ <-]. cbn. lia. }
  assert (withinCapacity Sample.booked) as H2.
  { intros tid t Ht. unfold Sample.booked in Ht. cbn [trips] in Ht.
    apply lookup_singleton_Some in Ht as [_ <-]. cbn. lia. }
  exact (conj H1 (conj H2 (run_within_capacity Sample.noRefund busyDay _ H1 H2))).
Defined.

Lemma live_requests_keep_seats_mirrored_witness :
  let r := PatchCancel Sample.riderId Sample.bookingId Sample.changedPlans in
  seatsMirrored Sample.booked /\
  (forall id b, addressed r = Some id -> bookings Sample.booked !! id = Some b ->
                live b = true) /\
  seatsMirrored (snd (handle Sample.noRefund (Sample.later 5) r Sample.booked)).
Proof.
  intros r.
  assert (seatsMirrored Sample.booked) as H1.
  { intros tid t Ht. unfold Sample.booked in Ht. cbn [trips] in Ht.
    apply lookup_singleton_Some in Ht as [<- <-]. vm_compute. reflexivity. }
  assert (forall id b, addressed r = Some id ->
            bookings Sample.booked !! id = Some b -> live b = true) as H2.
  { intros id b [= <-] Hb. unfold Sample.booked in Hb. cbn [bookings] in Hb.
    apply lookup_singleton_Some in Hb as [_ <-]. reflexivity. }
  exact (conj H1 (conj H2
           (live_requests_keep_seats_mirrored Sample.noRefund (Sample.later 5) r _
              H1 H2))).
Defined.

Lemma createBooking_then_cancel_witness :
  trips Sample.initial !! Create.tripId Sample.twoSeats = Some Sample.trip /\
  code (fst (createBooking Sample.env Sample.riderId Sample.twoSeats Sample.initial))
  = 201 /\
  let st1 := snd (createBooking Sample.env Sample.riderId Sample.twoSeats
                    Sample.initial) in
  let r := cancelBooking Sample.noRefund (Sample.later 45) Sample.riderId
             (freshId Sample.env) Sample.changedPlans st1 in
  code (fst r) = 200 /\
  exists t', trips (snd r) !! Create.tripId Sample.twoSeats = Some t' /\
    Trip.bookedSeats t' = 0 /\
    Trip.passengers t' = [].
Proof.
  assert (trips Sample.initial !! Create.tripId Sample.twoSeats = Some Sample.trip)
    as H1 by (vm_compute; reflexivity).
  assert (code (fst (createBooking Sample.env Sample.riderId Sample.twoSeats
                       Sample.initial)) = 201) as H2 by (vm_compute; reflexivity).
  exact (conj H1 (conj H2
           (createBooking_then_cancel Sample.noRefund Sample.env (Sample.later 45)
              _ _ Sample.changedPlans _ _ H1 H2))).
Defined.

Lemma response_shows_stored_booking_witness :
  let r := PatchPayment Sample.riderId Sample.bookingId Sample.paid in
  let b := Booking.with_bookingStatus "confirmed"
             (Booking.with_transactionId (Some "TXN-42")
                (Booking.with_paymentStatus "paid" Sample.pending)) in
  shown (fst (handle Sample.noRefund Sample.env r Sample.booked)) = Some b /\
  bookings (snd (handle Sample.noRefund Sample.env r Sample.booked))
    !! Sample.bookingId = Some b.
Proof.
  intros r b.
  assert (shown (fst (handle Sample.noRefund Sample.env r Sample.booked)) = Some b)
    as H1 by (vm_compute; reflexivity).
  exact (conj H1 (response_shows_stored_booking Sample.noRefund Sample.env r _ _ H1)).
Defined.

Lemma run_notOwn_witness :
  notOwn Sample.booked /\
  notOwn (snd (run Sample.noRefund busyDay Sample.booked)).
Proof.
  assert (notOwn Sample.booked) as H1.
  { intros id b t Hb Ht. unfold Sample.booked in Hb, Ht. cbn [bookings trips] in *.
    apply lookup_singleton_Some in Hb as [_ <-].
    apply lookup_singleton_Some in Ht as [_ <-]. discriminate. }
  exact (conj H1 (run_notOwn Sample.noRefund busyDay _ H1)).
Defined.

Lemma listBookings_own_and_bounded_witness :
  (forall l : list Booking.t, (fun l => l) l ≡ₚ l) /\
  let p := listBookings (fun l => l) Sample.riderId 1 10 (Some "pending")
             Sample.booked in
  (length (items p) <= Pos.to_nat 10)%nat /\
  forall pb, In pb (items p) ->
    exists id b, bookings Sample.booked !! id = Some b /\
      pb = withTrip Sample.booked b /\
      Booking.passenger b = Sample.riderId /\
      (truthy_string (Some "pending") = true ->
       Some "pending" = Some (Booking.bookingStatus b)).
Proof.
  assert (forall l : list Booking.t, (fun l => l) l ≡ₚ l) as H1
    by (intros l; reflexivity).
  exact (conj H1 (listBookings_own_and_bounded (fun l => l) H1 Sample.riderId 1 10
                    (Some "pending") Sample.booked)).
Defined.

Lemma listBookings_pages_tile_witness :
  (forall l : list Booking.t, (fun l => l) l ≡ₚ l) /\
  flat_map
    (fun k => items (listBookings (fun l => l) Sample.riderId (Pos.of_succ_nat k) 1
                       None Sample.booked))
    (seq 0 (Z.to_nat (totalPages (listBookings (fun l => l) Sample.riderId 1 1 None
                                    Sample.booked))))
  = withTrip Sample.booked <$> findBookings Sample.riderId None Sample.booked.
Proof.
  assert (forall l : list Booking.t, (fun l => l) l ≡ₚ l) as H1
    by (intros l; reflexivity).
  exact (conj H1 (listBookings_pages_tile (fun l => l) H1 Sample.riderId 1 None
                    Sample.booked)).
Defined.

Lemma listBookings_totalPages_witness :
  (forall l : list Booking.t, (fun l => l) l ≡ₚ l) /\
  let p := listBookings (fun l => l) Sample.riderId 2 10 None Sample.booked in
  total p = Z.of_nat (length (findBookings Sample.riderId None Sample.booked)) /\
  (totalPages p - 1) * 10 < total p <= totalPages p * 10 /\
  (items p = [] <-> totalPages p < 2).
Proof.
  assert (forall l : list Booking.t, (fun l => l) l ≡ₚ l) as H1
    by (intros l; reflexivity).
  exact (conj H1 (listBookings_totalPages (fun l => l) H1 Sample.riderId 2 10 None
                    Sample.booked)).
Defined.

Lemma rateBooking_not_oneself_witness :
  notOwn Sample.completed /\
  users (snd (rateBooking Sample.riderId Sample.bookingId Sample.fiveStars
                Sample.completed)) !! Sample.riderId
  = users Sample.completed !! Sample.riderId.
Proof.
  assert (notOwn Sample.completed) as H1.
  { intros id b t Hb Ht. unfold Sample.completed in Hb, Ht. cbn [bookings trips] in *.
    apply lookup_singleton_Some in Hb as [_ <-].
    apply lookup_singleton_Some in Ht as [_ <-]. discriminate. }
  exact (conj H1 (rateBooking_not_oneself _ _ _ _ H1)).
Defined.
